(** * ChakLoad load-generation core: a shallow embedding and its properties

    The development follows [loadtester/frameworks/base.py],
    [loadtester/frameworks/enhanced_runner.py],
    [loadtester/frameworks/simple_runner.py] and the run handler of
    [loadtester/cli.py].

    Conventions of the embedding:
    - Python [int] is [Z]; Python [float] is [Q] (every finite float is a
      rational; arithmetic is exact where Python rounds, comparisons,
      sorting and indexing are the same);
    - a Python [dict] used as a counter is a [gmap string Z];
    - code that may raise returns in the [Py.res] monad;
    - wall-clock readings, the shared [active] flag, random numbers and the
      behaviour of the network are inputs (oracles) of the functions that
      consult them;
    - text is a string of ASCII characters as far as the case of letters
      matters, and an [int] has no bound: a property that depends on
      [str.upper()] or on an [int] being converted to a float says so in a
      hypothesis ([ascii_text], [fits_float]). *)

From Stdlib Require Import ZArith QArith Qround Qminmax Lia Lqa.
From Stdlib Require Import String Ascii List Orders Mergesort Sorted Permutation.
From stdpp Require Import base gmap strings pretty list.
Import ListNotations.

Set Warnings "-register-all".

Local Open Scope string_scope.
Local Open Scope list_scope.
Local Open Scope Z_scope.

(** ** The fragment of the Python runtime the runners rely on *)

Module Py.

(** An instance of [Exception]: its class name and [str(e)]. *)
Record exn : Type := Exn { exn_class : string; exn_msg : string }.

Definition str_exn (e : exn) : string := exn_msg e.

(** A computation either returns or raises. *)
Inductive res (A : Type) : Type :=
| Ok (a : A)
| Raise (e : exn).
Arguments Ok {A} a.
Arguments Raise {A} e.

Definition ret {A} (a : A) : res A := Ok a.

Definition bind {A B} (m : res A) (k : A -> res B) : res B :=
  match m with
  | Ok a => k a
  | Raise e => Raise e
  end.

(** [try: body  except Exception as e: handler(e)] *)
Definition try_except {A} (body : res A) (handler : exn -> res A) : res A :=
  match body with
  | Ok a => Ok a
  | Raise e => handler e
  end.

Definition raises {A} (m : res A) : bool :=
  match m with Ok _ => false | Raise _ => true end.

(** Values that can sit in [custom_params], in a JSON payload or in the
    ['error'] slot of a record. *)
Inductive pyval : Type :=
| PyNone
| PyBool (b : bool)
| PyInt (z : Z)
| PyStr (s : string)
| PyList (l : list pyval)
| PyDict (items : list (string * pyval)).

(** [bool(v)] *)
Definition truthy (v : pyval) : bool :=
  match v with
  | PyNone => false
  | PyBool b => b
  | PyInt z => negb (z =? 0)
  | PyStr s => negb (String.eqb s "")
  | PyList l => match l with [] => false | _ => true end
  | PyDict d => match d with [] => false | _ => true end
  end.

(** [v.__class__.__name__] *)
Definition class_name (v : pyval) : string :=
  match v with
  | PyNone => "NoneType"
  | PyBool _ => "bool"
  | PyInt _ => "int"
  | PyStr _ => "str"
  | PyList _ => "list"
  | PyDict _ => "dict"
  end.

(** [hasattr(v, '__class__')]: every object has a class. *)
Definition hasattr_class (v : pyval) : bool := true.

(** [str(v)] for the two shapes an ['error'] slot can hold. *)
Definition str_of (v : pyval) : string :=
  match v with
  | PyStr s => s
  | PyNone => "None"
  | _ => class_name v
  end.

(** [str(n)] for an [int]. *)
Definition str_int (n : Z) : string := pretty n.

(** ASCII [str.upper()]. *)
Definition upper_ascii (c : ascii) : ascii :=
  let n := nat_of_ascii c in
  if (97 <=? n)%nat && (n <=? 122)%nat then ascii_of_nat (n - 32) else c.

Fixpoint upper (s : string) : string :=
  match s with
  | EmptyString => EmptyString
  | String c s' => String (upper_ascii c) (upper s')
  end.

(** [v.upper()]: only [str] has the attribute. *)
Definition call_upper (v : pyval) : res string :=
  match v with
  | PyStr s => Ok (upper s)
  | _ => Raise (Exn "AttributeError"
                 ("'" +:+ class_name v +:+ "' object has no attribute 'upper'"))
  end.

(** Float comparisons. *)
Definition Qltb (x y : Q) : bool := negb (Qle_bool y x).
Definition Qleb (x y : Q) : bool := Qle_bool x y.

(** [min(a, b)] and [max(a, b)]: the first argument wins a tie. *)
Definition min2 (a b : Q) : Q := if Qltb b a then b else a.
Definition max2 (a b : Q) : Q := if Qltb a b then b else a.

(** [int(x)] on a float truncates toward zero. *)
Definition int_of_float (x : Q) : Z :=
  if Qleb 0 x then Qfloor x else Qceiling x.

(** [a / b] (true division). *)
Definition truediv (a b : Q) : res Q :=
  if Qeq_bool b 0 then Raise (Exn "ZeroDivisionError" "division by zero")
  else Ok (a / b)%Q.

(** [l[i]] *)
Definition getitem {A} (l : list A) (i : Z) : res A :=
  let n := Z.of_nat (length l) in
  let j := if i <? 0 then i + n else i in
  if (0 <=? j) && (j <? n) then
    match nth_error l (Z.to_nat j) with
    | Some a => Ok a
    | None => Raise (Exn "IndexError" "list index out of range")
    end
  else Raise (Exn "IndexError" "list index out of range").

(** [min(l)] and [max(l)] *)
Definition min_list (l : list Q) : res Q :=
  match l with
  | [] => Raise (Exn "ValueError" "min() arg is an empty sequence")
  | x :: l' => Ok (fold_left (fun m y => if Qltb y m then y else m) l' x)
  end.

Definition max_list (l : list Q) : res Q :=
  match l with
  | [] => Raise (Exn "ValueError" "max() arg is an empty sequence")
  | x :: l' => Ok (fold_left (fun m y => if Qltb m y then y else m) l' x)
  end.

(** [sum(l)] *)
Definition sum_float (l : list Q) : Q := fold_left Qplus l 0%Q.
Definition sum_int (l : list Z) : Z := fold_left Z.add l 0.

(** [len(l)] *)
Definition len {A} (l : list A) : Z := Z.of_nat (length l).

End Py.

Notation "'let*' x ':=' m 'in' k" := (Py.bind m (fun x => k))
  (at level 10, x name, m at level 100, k at level 200).

(** [list.sort()] on floats: a stable merge sort. *)
Module FloatOrder <: TotalLeBool.

Definition t : Type := Q.

Definition leb : t -> t -> bool := Qle_bool.

Lemma leb_total : forall a1 a2, leb a1 a2 = true \/ leb a2 a1 = true.
Proof.
  intros a b. unfold leb. rewrite !Qle_bool_iff.
  destruct (Qlt_le_dec a b) as [Hlt | Hle];
    [left; apply Qlt_le_weak, Hlt | right; exact Hle].
Qed.

End FloatOrder.

Module FloatSort := Sort FloatOrder.

(** ** base.py *)

Module Base.

Record TestConfig : Type := {
  target_url : string;
  users : Z;
  duration : Z;
  rampup : Z;
  test_type : string;
  framework : string;
  custom_params : option (gmap string Py.pyval)
}.

Record TestResults : Type := {
  total_requests : Z;
  successful_requests : Z;
  failed_requests : Z;
  requests_per_second : Q;
  avg_response_time : Q;
  median_response_time : Q;
  p95_response_time : Q;
  p99_response_time : Q;
  min_response_time : Q;
  max_response_time : Q;
  error_rate : Q;
  errors : option (gmap string Z);
  data_sent_mb : Q;
  data_received_mb : Q;
  results_duration : Z
}.

(** [TestResults()] : the dataclass defaults. *)
Definition TestResults_default : TestResults := {|
  total_requests := 0;
  successful_requests := 0;
  failed_requests := 0;
  requests_per_second := 0%Q;
  avg_response_time := 0%Q;
  median_response_time := 0%Q;
  p95_response_time := 0%Q;
  p99_response_time := 0%Q;
  min_response_time := 0%Q;
  max_response_time := 0%Q;
  error_rate := 0%Q;
  errors := None;
  data_sent_mb := 0%Q;
  data_received_mb := 0%Q;
  results_duration := 0
|}.

(** [results.duration = d] *)
Definition set_duration (results : TestResults) (d : Z) : TestResults := {|
  total_requests := total_requests results;
  successful_requests := successful_requests results;
  failed_requests := failed_requests results;
  requests_per_second := requests_per_second results;
  avg_response_time := avg_response_time results;
  median_response_time := median_response_time results;
  p95_response_time := p95_response_time results;
  p99_response_time := p99_response_time results;
  min_response_time := min_response_time results;
  max_response_time := max_response_time results;
  error_rate := error_rate results;
  errors := errors results;
  data_sent_mb := data_sent_mb results;
  data_received_mb := data_received_mb results;
  results_duration := d
|}.

End Base.
Import Base.

(** ** What a [requests.Session] is asked to do, and what comes back *)

Inductive Method : Type := GET | POST | PUT | DELETE.

Record Request : Type := {
  req_method : Method;
  req_url : string;
  req_json : option Py.pyval
}.

Record HttpResponse : Type := {
  resp_status_code : Z;
  resp_content : list Byte.byte
}.

(** A session, at the moment of one call: it answers or raises (connection
    refused, timeout, TLS failure, retries exhausted, ...). *)
Definition Session : Type := Request -> Py.res HttpResponse.

(** ** enhanced_runner.py *)

Module Enhanced.

(** One entry of [all_responses]. *)
Record Response : Type := {
  timestamp : Q;
  response_time : Q;
  status_code : Z;
  size : Z;
  error : Py.pyval;
  session_idx : Z
}.

(** The dictionary a request function returns; ['error'] may be absent. *)
Record ResponseData : Type := {
  rd_status_code : Z;
  rd_size : Z;
  rd_error : option string
}.

(** [len(response.content) if response.content else 0] *)
Definition content_size (response : HttpResponse) : Z :=
  match resp_content response with
  | [] => 0
  | _ => Py.len (resp_content response)
  end.

Definition failure_data (e : Py.exn) : ResponseData :=
  {| rd_status_code := 0; rd_size := 0; rd_error := Some (Py.str_exn e) |}.

Definition success_data (response : HttpResponse) : ResponseData :=
  {| rd_status_code := resp_status_code response;
     rd_size := content_size response;
     rd_error := None |}.

Definition _make_web_request (config : TestConfig) (session : Session)
  : Py.res ResponseData :=
  Py.try_except
    (let* response :=
       session {| req_method := GET; req_url := target_url config;
                  req_json := None |} in
     Py.ret (success_data response))
    (fun e => Py.ret (failure_data e)).

(** [bool(config.custom_params)] *)
Definition params_truthy (p : option (gmap string Py.pyval)) : bool :=
  match p with
  | None => false
  | Some d => negb (bool_decide (d = ∅))
  end.

(** [config.custom_params.get(key, dflt)] *)
Definition params_get (p : option (gmap string Py.pyval)) (key : string)
    (dflt : Py.pyval) : Py.pyval :=
  match p with
  | None => dflt
  | Some d => default dflt (d !! key)
  end.

Definition _make_api_request (config : TestConfig) (session : Session)
  : Py.res ResponseData :=
  Py.try_except
    (let* method :=
       (if params_truthy (custom_params config)
        then Py.call_upper
               (params_get (custom_params config) "method" (Py.PyStr "GET"))
        else Py.ret "GET") in
     let* response :=
       (if String.eqb method "GET" then
          session {| req_method := GET; req_url := target_url config;
                     req_json := None |}
        else if String.eqb method "POST" then
          let payload := if params_truthy (custom_params config)
                         then params_get (custom_params config) "payload" (Py.PyDict [])
                         else Py.PyDict [] in
          session {| req_method := POST; req_url := target_url config;
                     req_json := Some payload |}
        else if String.eqb method "PUT" then
          let payload := if params_truthy (custom_params config)
                         then params_get (custom_params config) "payload" (Py.PyDict [])
                         else Py.PyDict [] in
          session {| req_method := PUT; req_url := target_url config;
                     req_json := Some payload |}
        else if String.eqb method "DELETE" then
          session {| req_method := DELETE; req_url := target_url config;
                     req_json := None |}
        else
          session {| req_method := GET; req_url := target_url config;
                     req_json := None |}) in
     Py.ret (success_data response))
    (fun e => Py.ret (failure_data e)).

(** The synthetic Telegram update; the three [random.randint] draws and
    [time.time()] are inputs. *)
Definition webhook_payload (r1 r2 r3 : Z) (now : Q) : Py.pyval :=
  Py.PyDict
    [ ("update_id", Py.PyInt r1);
      ("message", Py.PyDict
         [ ("message_id", Py.PyInt 1);
           ("from", Py.PyDict
              [ ("id", Py.PyInt r2);
                ("first_name", Py.PyStr "Test");
                ("is_bot", Py.PyBool false);
                ("username", Py.PyStr "testuser");
                ("language_code", Py.PyStr "en") ]);
           ("chat", Py.PyDict
              [ ("id", Py.PyInt r3);
                ("type", Py.PyStr "private");
                ("first_name", Py.PyStr "Test");
                ("username", Py.PyStr "testuser") ]);
           ("date", Py.PyInt (Py.int_of_float now));
           ("text", Py.PyStr "Hello from load test!") ]) ].

Definition _make_webhook_request (r1 r2 r3 : Z) (now : Q)
    (config : TestConfig) (session : Session) : Py.res ResponseData :=
  Py.try_except
    (let payload := webhook_payload r1 r2 r3 now in
     let* response :=
       session {| req_method := POST; req_url := target_url config;
                  req_json := Some payload |} in
     Py.ret (success_data response))
    (fun e => Py.ret (failure_data e)).

(** What one pass through the body of a user's [while] loop observes. *)
Record Tick : Type := {
  active_flag : bool;        (* self.active, read in the loop condition *)
  t_loop : Q;                (* time.time() in the loop condition *)
  t_start_req : Q;           (* start_req_time *)
  session_now : Session;     (* how the session behaves for this call *)
  rand_ids : Z * Z * Z;      (* random.randint draws of the webhook payload *)
  t_payload : Q;             (* time.time() inside the webhook payload *)
  t_end_req : Q;             (* end_req_time *)
  t_stamp : Q;               (* datetime.now() *)
  t_after : Q                (* time.time() when remaining_time is computed *)
}.

(** The request function picked from [config.test_type]. *)
Definition request_func (config : TestConfig) (tk : Tick) : Py.res ResponseData :=
  if String.eqb (test_type config) "telegram-webhook" then
    let '(r1, r2, r3) := rand_ids tk in
    _make_webhook_request r1 r2 r3 (t_payload tk) config (session_now tk)
  else if String.eqb (test_type config) "api-endpoint" then
    _make_api_request config (session_now tk)
  else
    _make_web_request config (session_now tk).

(** [max(0.01, 1.0 / (config.users or 10))] for the webhook test, else 0.1. *)
Definition message_interval (config : TestConfig) : Q :=
  if String.eqb (test_type config) "telegram-webhook" then
    Py.max2 (1 # 100) (1 / inject_Z (if users config =? 0 then 10 else users config))
  else (1 # 10)%Q.

(** What the run leaves behind besides the records. *)
Inductive Event : Type :=
| SchedSleep (secs : Q)                  (* time.sleep(delay) of the ramp-up *)
| Submit (i : Z)                         (* executor.submit(make_requests_for_user, i) *)
| Attempt (i : Z)                        (* user i called its request function *)
| UserSleep (i : Z) (remaining secs : Q).  (* time.sleep(sleep_time), with the
                                              remaining_time it was computed from *)

(** State shared by the scheduler and the users. *)
Record Shared : Type := {
  all_responses : list Response;
  log : list Event
}.

Definition append_response (r : Response) (st : Shared) : Shared :=
  {| all_responses := all_responses st ++ [r]; log := log st |}.

Definition append_event (e : Event) (st : Shared) : Shared :=
  {| all_responses := all_responses st; log := log st ++ [e] |}.

(** The [try] block of the loop body and its [except] branch. *)
Definition attempt (config : TestConfig) (idx : Z) (tk : Tick)
    (user_responses : list Response) (st : Shared) : list Response * Shared :=
  let st := append_event (Attempt idx) st in
  match request_func config tk with
  | Py.Ok response_data =>
      let req_time_ms := ((t_end_req tk - t_start_req tk) * 1000)%Q in
      let response_record :=
        {| timestamp := t_stamp tk;
           response_time := req_time_ms;
           status_code := rd_status_code response_data;
           size := rd_size response_data;
           error := match rd_error response_data with
                    | Some s => Py.PyStr s
                    | None => Py.PyNone
                    end;
           session_idx := idx |} in
      (user_responses ++ [response_record], append_response response_record st)
  | Py.Raise e =>
      let error_record :=
        {| timestamp := t_stamp tk;
           response_time := 0;
           status_code := 0;
           size := 0;
           error := Py.PyStr (Py.str_exn e);
           session_idx := idx |} in
      (user_responses, append_response error_record st)
  end.

(** [sleep_time = min(message_interval, max(0, remaining_time))] *)
Definition sleep_time (interval remaining_time : Q) : Q :=
  Py.min2 interval (Py.max2 0 remaining_time).

(** The [while] loop of [make_requests_for_user]; one [Tick] per pass.
    [None]: the observations ran out before the loop ended. *)
Fixpoint user_loop (config : TestConfig) (start_time : Q) (idx : Z)
    (ticks : list Tick) (user_responses : list Response) (st : Shared)
  : option (list Response * Shared) :=
  match ticks with
  | [] => None
  | tk :: rest =>
      let thread_end_time := (start_time + inject_Z (duration config))%Q in
      if active_flag tk && Py.Qltb (t_loop tk) thread_end_time then
        let '(user_responses, st) := attempt config idx tk user_responses st in
        let remaining_time := (thread_end_time - t_after tk)%Q in
        if Py.Qleb remaining_time 0 then Some (user_responses, st)
        else
          let secs := sleep_time (message_interval config) remaining_time in
          user_loop config start_time idx rest user_responses
                    (append_event (UserSleep idx remaining_time secs) st)
      else Some (user_responses, st)
  end.

Definition make_requests_for_user (config : TestConfig) (start_time : Q)
    (idx : Z) (ticks : list Tick) (st : Shared) : option (list Response * Shared) :=
  user_loop config start_time idx ticks [] st.

(** *** Ramp-up and submission *)

(** [range(n)] *)
Definition range (n : Z) : list Z := map Z.of_nat (seq 0 (Z.to_nat n)).

(** [delay = min((config.rampup / config.users) * i, 1.0)]; only evaluated
    inside [for i in range(config.users)], where [config.users >= 1]. *)
Definition rampup_delay (config : TestConfig) (i : Z) : Q :=
  Py.min2 ((inject_Z (rampup config) / inject_Z (users config)) * inject_Z i) 1.

(** What the scheduler and the users observe during one run. *)
Record Env : Type := {
  clock_start : Q;               (* time.time() on entry: start_time *)
  sched_active : Z -> bool;      (* self.active just before user i is submitted *)
  worker_ticks : Z -> list Tick; (* the passes of user i through its loop *)
  clock_end : Q                  (* time.time() when actual_duration is taken *)
}.

(** [for i in range(config.users): ...] of the ramp-up. *)
Fixpoint submit_users (config : TestConfig) (env : Env) (todo : list Z)
    (events : list Event) (futures : list Z) : list Event * list Z :=
  match todo with
  | [] => (events, futures)
  | i :: todo' =>
      let events :=
        if (0 <? rampup config) && (0 <? i)
        then events ++ [SchedSleep (rampup_delay config i)]
        else events in
      if sched_active env i
      then submit_users config env todo' (events ++ [Submit i]) (futures ++ [i])
      else submit_users config env todo' events futures
  end.

(** The submitted users run to completion (leaving the [with] block joins
    the pool).  Only the order in which records reach [all_responses] depends
    on the interleaving; the users are run here one after the other. *)
Fixpoint run_workers (config : TestConfig) (start_time : Q) (env : Env)
    (futures : list Z) (st : Shared) : option Shared :=
  match futures with
  | [] => Some st
  | i :: futures' =>
      match make_requests_for_user config start_time i (worker_ticks env i) st with
      | None => None
      | Some (_, st') => run_workers config start_time env futures' st'
      end
  end.

(** *** Aggregation *)

Definition is_successful (r : Response) : bool :=
  negb (status_code r =? 0) && ((0 <? status_code r) && (status_code r <? 400))
  && negb (Py.truthy (error r)).

Definition is_failed (r : Response) : bool :=
  negb (status_code r =? 0) && (400 <=? status_code r).

Definition has_error (r : Response) : bool := Py.truthy (error r).

(** One pass of the [for r in all_responses] loop that fills [error_counts]. *)
Definition count_error (error_counts : gmap string Z) (r : Response)
  : gmap string Z :=
  if Py.truthy (error r) then
    let error_type :=
      if Py.hasattr_class (error r) then Py.class_name (error r)
      else Py.str_of (error r) in
    <[error_type := default 0 (error_counts !! error_type) + 1]> error_counts
  else if 400 <=? status_code r then
    let status_code := Py.str_int (status_code r) in
    <[status_code := default 0 (error_counts !! status_code) + 1]> error_counts
  else error_counts.

Definition count_errors (all_responses : list Response) : gmap string Z :=
  fold_left count_error all_responses ∅.

(** The fields assigned under [if response_times:]. *)
Record Latency : Type := {
  l_avg : Q; l_median : Q; l_min : Q; l_max : Q;
  l_p95 : Q; l_p99 : Q; l_rps : Q
}.

(** [[r['response_time'] for r in all_responses if r['response_time'] > 0]] *)
Definition positive_times (all_responses : list Response) : list Q :=
  map response_time
      (List.filter (fun r => Py.Qltb 0 (response_time r)) all_responses).

(** The block under [if response_times:].  [0.95] and [0.99] are taken as
    the fractions 95/100 and 99/100: the float products [0.95 * n] and
    [0.99 * n] truncate to the same integers. *)
Definition latency_stats (all_responses : list Response) (total_requests : Z)
    (start_time now : Q) : Py.res Latency :=
  match positive_times all_responses with
  | [] => Py.ret {| l_avg := 0; l_median := 0; l_min := 0; l_max := 0;
                    l_p95 := 0; l_p99 := 0; l_rps := 0 |}
  | _ :: _ =>
      let response_times := FloatSort.sort (positive_times all_responses) in
      let n := Py.len response_times in
      let* avg := Py.truediv (Py.sum_float response_times) (inject_Z n) in
      let* mid :=
        (if 0 <? n then
           let* median := Py.getitem response_times (n / 2) in
           let* lo := Py.min_list response_times in
           let* hi := Py.max_list response_times in
           Py.ret (median, lo, hi)
         else Py.ret (0%Q, 0%Q, 0%Q)) in
      let* pct :=
        (if 0 <? n then
           if 20 <=? n then
             let p95_idx := Py.int_of_float ((95 # 100) * inject_Z n) in
             let p99_idx := Py.int_of_float ((99 # 100) * inject_Z n) in
             let* p95 := (if p95_idx <? n then Py.getitem response_times p95_idx
                          else Py.ret 0%Q) in
             let* p99 := (if p99_idx <? n then Py.getitem response_times p99_idx
                          else Py.ret 0%Q) in
             Py.ret (p95, p99)
           else Py.ret (0%Q, 0%Q)
         else Py.ret (0%Q, 0%Q)) in
      let actual_duration := (now - start_time)%Q in
      let* rps :=
        (if Py.Qltb 0 actual_duration
         then Py.truediv (inject_Z total_requests) actual_duration
         else Py.ret 0%Q) in
      Py.ret {| l_avg := avg; l_median := fst (fst mid); l_min := snd (fst mid);
                l_max := snd mid; l_p95 := fst pct; l_p99 := snd pct;
                l_rps := rps |}
  end.

(** [results = TestResults(); results.duration = config.duration] *)
Definition fresh_results (config : TestConfig) : TestResults :=
  set_duration TestResults_default (duration config).

(** "Process all collected responses to calculate metrics". *)
Definition aggregate (config : TestConfig) (start_time : Q)
    (all_responses : list Response) (now : Q) : Py.res TestResults :=
  match all_responses with
  | [] => Py.ret (fresh_results config)
  | _ :: _ =>
      let total_requests := Py.len all_responses in
      let successful_responses := List.filter is_successful all_responses in
      let failed_responses := List.filter is_failed all_responses in
      let error_responses := List.filter has_error all_responses in
      let* error_rate :=
        (if 0 <? total_requests then
           let* q := Py.truediv
                       (inject_Z (Py.len failed_responses + Py.len error_responses))
                       (inject_Z total_requests) in
           Py.ret (q * 100)%Q
         else Py.ret 0%Q) in
      let* lat := latency_stats all_responses total_requests start_time now in
      let total_data := Py.sum_int (map size all_responses) in
      let* data_received_mb :=
        Py.truediv (inject_Z total_data) (inject_Z (1024 * 1024)) in
      let error_counts := count_errors all_responses in
      Py.ret {|
        total_requests := total_requests;
        successful_requests := Py.len successful_responses;
        failed_requests := Py.len failed_responses;
        requests_per_second := l_rps lat;
        avg_response_time := l_avg lat;
        median_response_time := l_median lat;
        p95_response_time := l_p95 lat;
        p99_response_time := l_p99 lat;
        min_response_time := l_min lat;
        max_response_time := l_max lat;
        error_rate := error_rate;
        errors := Some error_counts;
        data_sent_mb := 0;
        data_received_mb := data_received_mb;
        results_duration := duration config
      |}
  end.

(** *** run_test *)

Record Run : Type := {
  run_log : list Event;
  run_responses : list Response;
  run_results : Py.res TestResults
}.

(** [ThreadPoolExecutor(max_workers=...)] refuses a non-positive size. *)
Definition pool_error : Py.exn :=
  Py.Exn "ValueError" "max_workers must be greater than 0".

(** [None]: some user's observations ran out before its loop ended. *)
Definition run_test (config : TestConfig) (env : Env) : option Run :=
  let start_time := clock_start env in
  if Z.min (users config) 50 <=? 0 then
    Some {| run_log := []; run_responses := []; run_results := Py.Raise pool_error |}
  else
    let '(events, futures) := submit_users config env (range (users config)) [] [] in
    match run_workers config start_time env futures
                      {| all_responses := []; log := events |} with
    | None => None
    | Some st =>
        Some {| run_log := log st;
                run_responses := all_responses st;
                run_results := aggregate config start_time (all_responses st)
                                         (clock_end env) |}
    end.

End Enhanced.

(** ** simple_runner.py *)

Module Simple.

(** One entry of [responses]; the ['error'] key exists only on records built
    in the [except] branch. *)
Record Response : Type := {
  status_code : Z;
  response_time : Q;
  size : Z;
  error : option Py.pyval;
  user_id : Z
}.

(** [make_request(user_id)]; [None] is Python's [None]. *)
Definition make_request (active : bool) (config : TestConfig) (session : Session)
    (start_req_time end_req_time : Q) (user_id : Z) : option Response :=
  if negb active then None
  else
    match session {| req_method := GET; req_url := target_url config;
                     req_json := None |} with
    | Py.Ok response =>
        let req_time_ms := ((end_req_time - start_req_time) * 1000)%Q in
        Some {| status_code := resp_status_code response;
                response_time := req_time_ms;
                size := Py.len (resp_content response);
                error := None;
                user_id := user_id |}
    | Py.Raise e =>
        Some {| status_code := 0;
                response_time := 0;
                size := 0;
                error := Some (Py.PyStr (Py.str_exn e));
                user_id := user_id |}
    end.

Definition is_successful (r : Response) : bool :=
  negb (status_code r =? 0) && (status_code r <? 400).

Definition is_failed (r : Response) : bool :=
  negb (status_code r =? 0) && (400 <=? status_code r).

(** ['error' in r] *)
Definition has_error (r : Response) : bool :=
  match error r with Some _ => true | None => false end.

Definition count_error (error_counts : gmap string Z) (r : Response)
  : gmap string Z :=
  match error r with
  | Some v =>
      let error_type :=
        if Py.hasattr_class v then Py.class_name v else Py.str_of v in
      <[error_type := default 0 (error_counts !! error_type) + 1]> error_counts
  | None =>
      if 400 <=? status_code r then
        let status_code := Py.str_int (status_code r) in
        <[status_code := default 0 (error_counts !! status_code) + 1]> error_counts
      else error_counts
  end.

Definition count_errors (responses : list Response) : gmap string Z :=
  fold_left count_error responses ∅.

Record Latency : Type := {
  l_avg : Q; l_median : Q; l_min : Q; l_max : Q;
  l_p95 : Q; l_p99 : Q; l_rps : Q
}.

Definition positive_times (responses : list Response) : list Q :=
  map response_time
      (List.filter (fun r => Py.Qltb 0 (response_time r)) responses).

Definition latency_stats (responses : list Response) (total_requests : Z)
    (start_time now : Q) : Py.res Latency :=
  match positive_times responses with
  | [] => Py.ret {| l_avg := 0; l_median := 0; l_min := 0; l_max := 0;
                    l_p95 := 0; l_p99 := 0; l_rps := 0 |}
  | _ :: _ =>
      let response_times := FloatSort.sort (positive_times responses) in
      let n := Py.len response_times in
      let* avg := Py.truediv (Py.sum_float response_times) (inject_Z n) in
      let* median := Py.getitem response_times (n / 2) in
      let* lo := Py.min_list response_times in
      let* hi := Py.max_list response_times in
      let* pct :=
        (if 0 <? n then
           let p95_idx := Py.int_of_float ((95 # 100) * inject_Z n) in
           let p99_idx := Py.int_of_float ((99 # 100) * inject_Z n) in
           let* p95 := (if p95_idx <? n then Py.getitem response_times p95_idx
                        else Py.ret 0%Q) in
           let* p99 := (if p99_idx <? n then Py.getitem response_times p99_idx
                        else Py.ret 0%Q) in
           Py.ret (p95, p99)
         else Py.ret (0%Q, 0%Q)) in
      let actual_duration := (now - start_time)%Q in
      let* rps :=
        (if Py.Qltb 0 actual_duration
         then Py.truediv (inject_Z total_requests) actual_duration
         else Py.ret 0%Q) in
      Py.ret {| l_avg := avg; l_median := median; l_min := lo; l_max := hi;
                l_p95 := fst pct; l_p99 := snd pct; l_rps := rps |}
  end.

(** [results = TestResults(); results.duration = config.duration] *)
Definition fresh_results (config : TestConfig) : TestResults :=
  set_duration TestResults_default (duration config).

(** "Process all responses to calculate metrics". *)
Definition aggregate (config : TestConfig) (start_time : Q)
    (responses : list Response) (now : Q) : Py.res TestResults :=
  match responses with
  | [] => Py.ret (fresh_results config)
  | _ :: _ =>
      let total_requests := Py.len responses in
      let successful_responses := List.filter is_successful responses in
      let failed_responses := List.filter is_failed responses in
      let error_responses := List.filter has_error responses in
      let* error_rate :=
        (if 0 <? total_requests then
           let* q := Py.truediv
                       (inject_Z (Py.len failed_responses + Py.len error_responses))
                       (inject_Z total_requests) in
           Py.ret (q * 100)%Q
         else Py.ret 0%Q) in
      let* lat := latency_stats responses total_requests start_time now in
      let total_data := Py.sum_int (map size responses) in
      let* data_received_mb :=
        Py.truediv (inject_Z total_data) (inject_Z (1024 * 1024)) in
      let error_counts := count_errors responses in
      Py.ret {|
        total_requests := total_requests;
        successful_requests := Py.len successful_responses;
        failed_requests := Py.len failed_responses;
        requests_per_second := l_rps lat;
        avg_response_time := l_avg lat;
        median_response_time := l_median lat;
        p95_response_time := l_p95 lat;
        p99_response_time := l_p99 lat;
        min_response_time := l_min lat;
        max_response_time := l_max lat;
        error_rate := error_rate;
        errors := Some error_counts;
        data_sent_mb := 0;
        data_received_mb := data_received_mb;
        results_duration := duration config
      |}
  end.

End Simple.

(** ** cli.py: the run handler, and config.py: [Config] *)

Module Cli.

Record Config : Type := {
  framework : option string;
  test_type : string;
  target_url : string;
  users : Z;
  duration : Z;
  rampup : Z;
  custom_params : gmap string Py.pyval
}.

(** [Config.to_test_config] *)
Definition to_test_config (self : Config) : TestConfig := {|
  Base.target_url := target_url self;
  Base.users := users self;
  Base.duration := duration self;
  Base.rampup := rampup self;
  Base.test_type := test_type self;
  Base.framework := match framework self with
                    | Some f => if String.eqb f "" then "locust" else f
                    | None => "locust"
                    end;
  Base.custom_params := Some (custom_params self)
|}.

Inductive Runner : Type := SimpleHttpRunner | EnhancedHttpRunner | K6Runner.

(** How [handle_run_command] ends. *)
Inductive Outcome : Type :=
| Refused (msg : string)       (* an error line is echoed and the handler returns *)
| Displayed (r : TestResults)  (* "Test completed successfully!" *)
| NoResult                     (* "Test may have timed out or failed to complete." *)
| RunError (msg : string).     (* "Error running test: ..." *)

Definition in_list (s : string) (l : list string) : bool :=
  existsb (String.eqb s) l.

(** [handle_run_command]; [run] stands for [runner.run_test] on the thread
    the handler starts ([None]: no result by the time the join gives up).
    Of what is echoed, only the error line of a refusal is kept: the run
    banner, the list of available frameworks after the availability error,
    [prepare_test] and the progress display are left out. *)
Definition handle_run_command (config : Config)
    (available_frameworks : list string)
    (run : Runner -> TestConfig -> option (Py.res TestResults)) : Outcome :=
  if String.eqb (target_url config) "" then
    Refused "❌ Error: No target URL specified. Use /url <target-url> to set it."
  else
    match framework config with
    | None =>
        Refused "❌ Error: No framework specified. Use /framework <name> to select one."
    | Some fw =>
        if String.eqb fw "" then
          Refused "❌ Error: No framework specified. Use /framework <name> to select one."
        else if String.eqb (test_type config) "" then
          Refused "❌ Error: No test type specified. Use /type <test-type> to select one."
        else if negb (in_list fw available_frameworks) then
          Refused ("❌ Framework '" +:+ fw +:+ "' is not available on this system.")
        else
          let runner :=
            if in_list fw ["simple"; "http"] then Some SimpleHttpRunner
            else if in_list fw ["advanced"; "builtin"] then Some EnhancedHttpRunner
            else if String.eqb fw "k6" then Some K6Runner
            else None in
          match runner with
          | None =>
              Refused ("❌ Framework " +:+ fw +:+ " not yet implemented in this MVP.")
          | Some runner =>
              match run runner (to_test_config config) with
              | Some (Py.Ok results) => Displayed results
              | Some (Py.Raise e) => RunError ("❌ Error running test: " +:+ Py.str_exn e)
              | None => NoResult
              end
          end
    end.

End Cli.

(** * Properties *)

(** ** Facts about the runtime fragment *)

Section PyFacts.

Lemma Qltb_lt (x y : Q) : Py.Qltb x y = true <-> (x < y)%Q.
Proof.
  unfold Py.Qltb. rewrite negb_true_iff, <- not_true_iff_false, Qle_bool_iff.
  split; [apply Qnot_le_lt | apply Qlt_not_le].
Qed.

Lemma Qltb_ge (x y : Q) : Py.Qltb x y = false <-> (y <= x)%Q.
Proof.
  unfold Py.Qltb. rewrite negb_false_iff. apply Qle_bool_iff.
Qed.

Lemma Qleb_le (x y : Q) : Py.Qleb x y = true <-> (x <= y)%Q.
Proof. apply Qle_bool_iff. Qed.

Lemma Qleb_gt (x y : Q) : Py.Qleb x y = false <-> (y < x)%Q.
Proof.
  unfold Py.Qleb. rewrite <- not_true_iff_false, Qle_bool_iff.
  split; [apply Qnot_le_lt | apply Qlt_not_le].
Qed.

Lemma min2_le_l (a b : Q) : (Py.min2 a b <= a)%Q.
Proof.
  unfold Py.min2. destruct (Py.Qltb b a) eqn:E.
  - apply Qlt_le_weak, Qltb_lt, E.
  - apply Qle_refl.
Qed.

Lemma min2_le_r (a b : Q) : (Py.min2 a b <= b)%Q.
Proof.
  unfold Py.min2. destruct (Py.Qltb b a) eqn:E.
  - apply Qle_refl.
  - apply Qltb_ge, E.
Qed.


Lemma max2_ge_l (a b : Q) : (a <= Py.max2 a b)%Q.
Proof.
  unfold Py.max2. destruct (Py.Qltb a b) eqn:E.
  - apply Qlt_le_weak, Qltb_lt, E.
  - apply Qle_refl.
Qed.

Lemma max2_ge_r (a b : Q) : (b <= Py.max2 a b)%Q.
Proof.
  unfold Py.max2. destruct (Py.Qltb a b) eqn:E.
  - apply Qle_refl.
  - apply Qltb_ge, E.
Qed.

Lemma max2_pos_r (b : Q) : (0 < b)%Q -> Py.max2 0 b = b.
Proof. intros Hb. unfold Py.max2. apply Qltb_lt in Hb. now rewrite Hb. Qed.

Lemma len_nonneg {A} (l : list A) : 0 <= Py.len l.
Proof. unfold Py.len. lia. Qed.

Lemma len_cons {A} (x : A) (l : list A) : Py.len (x :: l) = Py.len l + 1.
Proof. unfold Py.len. simpl length. lia. Qed.

Lemma len_filter_le {A} (f : A -> bool) (l : list A) :
  Py.len (List.filter f l) <= Py.len l.
Proof. unfold Py.len. pose proof (List.filter_length_le f l). lia. Qed.

Lemma truediv_ok (a b : Q) : ~ (b == 0)%Q -> Py.truediv a b = Py.Ok (a / b)%Q.
Proof.
  intros Hb. unfold Py.truediv.
  destruct (Qeq_bool b 0) eqn:E; [| reflexivity].
  apply Qeq_bool_iff in E. contradiction.
Qed.

Lemma inject_Z_nonzero (n : Z) : n <> 0 -> ~ (inject_Z n == 0)%Q.
Proof. intros Hn H. unfold Qeq in H. simpl in H. lia. Qed.

Lemma getitem_ok {A} (l : list A) (i : Z) (d : A) :
  0 <= i < Py.len l -> Py.getitem l i = Py.Ok (nth (Z.to_nat i) l d).
Proof.
  unfold Py.len, Py.getitem. intros [Hlo Hhi].
  destruct (i <? 0) eqn:Ei; [apply Z.ltb_lt in Ei; lia |].
  destruct (0 <=? i) eqn:E0; [| apply Z.leb_gt in E0; lia].
  destruct (i <? Z.of_nat (length l)) eqn:E1; [| apply Z.ltb_ge in E1; lia].
  simpl. destruct (nth_error l (Z.to_nat i)) as [a |] eqn:En.
  - f_equal. symmetry. apply nth_error_nth with (d := d) in En. exact En.
  - apply nth_error_None in En. lia.
Qed.

Lemma min_list_ok (l : list Q) : l <> [] -> exists m, Py.min_list l = Py.Ok m.
Proof. destruct l; [congruence | intros _; eexists; reflexivity]. Qed.

Lemma max_list_ok (l : list Q) : l <> [] -> exists m, Py.max_list l = Py.Ok m.
Proof. destruct l; [congruence | intros _; eexists; reflexivity]. Qed.

(** [int(p * n)] for a non-negative fraction [p = a/b] and a length [n] is
    the integer quotient [a * n / b]. *)
Lemma int_of_fraction (a : Z) (b : positive) (n : Z) :
  0 <= a -> 0 <= n ->
  Py.int_of_float ((a # b) * inject_Z n) = a * n / Z.pos b.
Proof.
  intros Ha Hn. unfold Py.int_of_float.
  assert (Hq : (0 <= (a # b) * inject_Z n)%Q).
  { apply Qmult_le_0_compat.
    - unfold Qle. simpl. lia.
    - unfold Qle. simpl. lia. }
  apply Qleb_le in Hq. rewrite Hq.
  unfold Qfloor, Qmult, inject_Z. simpl Qnum. simpl Qden.
  now rewrite Pos.mul_1_r.
Qed.

Lemma sort_length (l : list Q) : length (FloatSort.sort l) = length l.
Proof. symmetry. apply Permutation_length, FloatSort.Permuted_sort. Qed.

Lemma sort_len (l : list Q) : Py.len (FloatSort.sort l) = Py.len l.
Proof. unfold Py.len. now rewrite sort_length. Qed.

Lemma sort_sorted (l : list Q) :
  StronglySorted (fun x y => (x <= y)%Q) (FloatSort.sort l).
Proof.
  assert (H : StronglySorted (fun x y => is_true (Qle_bool x y)) (FloatSort.sort l)).
  { apply FloatSort.StronglySorted_sort.
    intros x y z Hxy Hyz. unfold FloatOrder.leb, is_true in *.
    rewrite Qle_bool_iff in *. eapply Qle_trans; eassumption. }
  induction H as [| x l' Hs IH Hall]; constructor; [exact IH |].
  eapply List.Forall_impl; [| exact Hall].
  intros y Hy. apply Qle_bool_iff, Hy.
Qed.

End PyFacts.

(** ** Aggregation of the enhanced runner *)

Section EnhancedAggregation.

Import Enhanced.

Lemma pct_index_bounds (a n : Z) : 0 <= a < 100 -> 0 < n -> 0 <= a * n / 100 < n.
Proof.
  intros Ha Hn. split.
  - apply Z.div_pos; lia.
  - apply Z.div_lt_upper_bound; nia.
Qed.

(** The latency block never raises, and this is what it assigns. *)
Lemma latency_stats_spec (rs : list Response) (total : Z) (start now : Q) :
  let ts := FloatSort.sort (positive_times rs) in
  let n := Py.len ts in
  exists lat,
    latency_stats rs total start now = Py.Ok lat /\
    l_median lat = (if 0 <? n then nth (Z.to_nat (n / 2)) ts 0%Q else 0%Q) /\
    l_p95 lat = (if 20 <=? n then nth (Z.to_nat (95 * n / 100)) ts 0%Q else 0%Q) /\
    l_p99 lat = (if 20 <=? n then nth (Z.to_nat (99 * n / 100)) ts 0%Q else 0%Q) /\
    l_rps lat = (if (0 <? n) && Py.Qltb 0 (now - start)
                 then (inject_Z total / (now - start))%Q else 0%Q) /\
    l_avg lat = (if 0 <? n then (Py.sum_float ts / inject_Z n)%Q else 0%Q).
Proof.
  intros ts n. unfold latency_stats.
  destruct (positive_times rs) as [| q l] eqn:E.
  - subst ts n. eexists. split; [reflexivity |].
    repeat split; reflexivity.
  - assert (Hn : 0 < n).
    { subst n ts. rewrite sort_len, len_cons. pose proof (len_nonneg l). lia. }
    fold ts. fold n.
    assert (Hne : ts <> []).
    { intros Hnil. subst n. rewrite Hnil in Hn. unfold Py.len in Hn. simpl in Hn. lia. }
    rewrite truediv_ok by (apply inject_Z_nonzero; lia).
    cbn [Py.bind].
    assert (H0 : (0 <? n) = true) by (apply Z.ltb_lt; exact Hn).
    rewrite !H0.
    rewrite (getitem_ok ts (n / 2) 0%Q)
      by (split; [apply Z.div_pos; lia | apply Z.div_lt_upper_bound; lia]).
    destruct (min_list_ok ts Hne) as [lo Hlo].
    destruct (max_list_ok ts Hne) as [hi Hhi].
    rewrite Hlo, Hhi. cbn [Py.bind Py.ret].
    rewrite !int_of_fraction by lia.
    change (Z.pos 100) with 100.
    destruct (20 <=? n) eqn:E20.
    + destruct (pct_index_bounds 95 n ltac:(lia) Hn) as [H95a H95b].
      destruct (pct_index_bounds 99 n ltac:(lia) Hn) as [H99a H99b].
      assert (L95 : (95 * n / 100 <? n) = true) by (apply Z.ltb_lt; lia).
      assert (L99 : (99 * n / 100 <? n) = true) by (apply Z.ltb_lt; lia).
      rewrite L95, L99.
      rewrite (getitem_ok ts (95 * n / 100) 0%Q) by lia.
      rewrite (getitem_ok ts (99 * n / 100) 0%Q) by lia.
      cbn [Py.bind Py.ret].
      destruct (Py.Qltb 0 (now - start)) eqn:Ed.
      * rewrite truediv_ok by (apply Qltb_lt in Ed; intros Hz; rewrite Hz in Ed;
                               exact (Qlt_irrefl 0 Ed)).
        cbn [Py.bind]. eexists. split; [reflexivity |]. repeat split; reflexivity.
      * cbn [Py.bind Py.ret]. eexists. split; [reflexivity |]. repeat split; reflexivity.
    + cbn [Py.bind Py.ret].
      destruct (Py.Qltb 0 (now - start)) eqn:Ed.
      * rewrite truediv_ok by (apply Qltb_lt in Ed; intros Hz; rewrite Hz in Ed;
                               exact (Qlt_irrefl 0 Ed)).
        cbn [Py.bind]. eexists. split; [reflexivity |]. repeat split; reflexivity.
      * cbn [Py.bind Py.ret]. eexists. split; [reflexivity |]. repeat split; reflexivity.
Qed.

(** With at least one record the aggregation returns, and every field is
    the value the source assigns to it. *)
Lemma aggregate_nonempty (config : TestConfig) (start now : Q)
    (rs : list Response) (lat : Latency) :
  rs <> [] ->
  latency_stats rs (Py.len rs) start now = Py.Ok lat ->
  aggregate config start rs now = Py.Ok {|
    total_requests := Py.len rs;
    successful_requests := Py.len (List.filter is_successful rs);
    failed_requests := Py.len (List.filter is_failed rs);
    requests_per_second := l_rps lat;
    avg_response_time := l_avg lat;
    median_response_time := l_median lat;
    p95_response_time := l_p95 lat;
    p99_response_time := l_p99 lat;
    min_response_time := l_min lat;
    max_response_time := l_max lat;
    error_rate :=
      (inject_Z (Py.len (List.filter is_failed rs) + Py.len (List.filter has_error rs))
       / inject_Z (Py.len rs) * 100)%Q;
    errors := Some (count_errors rs);
    data_sent_mb := 0;
    data_received_mb :=
      (inject_Z (Py.sum_int (map size rs)) / inject_Z (1024 * 1024))%Q;
    results_duration := duration config
  |}.
Proof.
  intros Hne Hlat. destruct rs as [| r rs']; [congruence |].
  unfold aggregate.
  assert (Hpos : 0 < Py.len (r :: rs')).
  { rewrite len_cons. pose proof (len_nonneg rs'). lia. }
  assert (H0 : (0 <? Py.len (r :: rs')) = true) by (apply Z.ltb_lt; exact Hpos).
  rewrite H0.
  rewrite truediv_ok by (apply inject_Z_nonzero; lia).
  cbn [Py.bind Py.ret]. rewrite Hlat. cbn [Py.bind].
  rewrite truediv_ok by (apply inject_Z_nonzero; lia).
  reflexivity.
Qed.

Lemma aggregate_total (config : TestConfig) (start now : Q) (rs : list Response) :
  exists res, aggregate config start rs now = Py.Ok res.
Proof.
  destruct rs as [| r rs'].
  - eexists. reflexivity.
  - destruct (latency_stats_spec (r :: rs') (Py.len (r :: rs')) start now)
      as (lat & Hlat & _).
    eexists. apply aggregate_nonempty; [congruence | exact Hlat].
Qed.

(** C7. With no record at all the aggregation returns (no division by zero,
    no other exception) the untouched defaults: every count, rate, latency
    statistic, percentile and data-transfer field is zero; only the
    configured duration is copied.  Divisions, indexing and [min]/[max] are
    guarded on every other collection too: the aggregation never raises. *)
Theorem C7_empty_collection_all_zero (config : TestConfig) (start now : Q) :
  aggregate config start [] now = Py.Ok (fresh_results config) /\
  (forall rs, Py.raises (aggregate config start rs now) = false) /\
  total_requests (fresh_results config) = 0 /\
  successful_requests (fresh_results config) = 0 /\
  failed_requests (fresh_results config) = 0 /\
  requests_per_second (fresh_results config) = 0%Q /\
  error_rate (fresh_results config) = 0%Q /\
  avg_response_time (fresh_results config) = 0%Q /\
  median_response_time (fresh_results config) = 0%Q /\
  min_response_time (fresh_results config) = 0%Q /\
  max_response_time (fresh_results config) = 0%Q /\
  p95_response_time (fresh_results config) = 0%Q /\
  p99_response_time (fresh_results config) = 0%Q /\
  data_sent_mb (fresh_results config) = 0%Q /\
  data_received_mb (fresh_results config) = 0%Q.
Proof.
  split; [reflexivity |]. split; [| repeat split; reflexivity].
  intros rs. destruct (aggregate_total config start now rs) as [res Hres].
  now rewrite Hres.
Qed.

End EnhancedAggregation.

(** ** Aggregation of the simple runner *)

Section SimpleAggregation.

Import Simple.

(** The simple runner has no sample-size gate on the percentiles. *)
Lemma simple_latency_stats_spec (rs : list Response) (total : Z) (start now : Q) :
  let ts := FloatSort.sort (positive_times rs) in
  let n := Py.len ts in
  exists lat,
    latency_stats rs total start now = Py.Ok lat /\
    l_median lat = (if 0 <? n then nth (Z.to_nat (n / 2)) ts 0%Q else 0%Q) /\
    l_p95 lat = (if 0 <? n then nth (Z.to_nat (95 * n / 100)) ts 0%Q else 0%Q) /\
    l_p99 lat = (if 0 <? n then nth (Z.to_nat (99 * n / 100)) ts 0%Q else 0%Q) /\
    l_rps lat = (if (0 <? n) && Py.Qltb 0 (now - start)
                 then (inject_Z total / (now - start))%Q else 0%Q).
Proof.
  intros ts n. unfold latency_stats.
  destruct (positive_times rs) as [| q l] eqn:E.
  - subst ts n. eexists. split; [reflexivity |].
    repeat split; reflexivity.
  - assert (Hn : 0 < n).
    { subst n ts. rewrite sort_len, len_cons. pose proof (len_nonneg l). lia. }
    fold ts. fold n.
    assert (Hne : ts <> []).
    { intros Hnil. subst n. rewrite Hnil in Hn. unfold Py.len in Hn. simpl in Hn. lia. }
    rewrite truediv_ok by (apply inject_Z_nonzero; lia).
    cbn [Py.bind].
    assert (H0 : (0 <? n) = true) by (apply Z.ltb_lt; exact Hn).
    rewrite !H0.
    rewrite (getitem_ok ts (n / 2) 0%Q)
      by (split; [apply Z.div_pos; lia | apply Z.div_lt_upper_bound; lia]).
    destruct (min_list_ok ts Hne) as [lo Hlo].
    destruct (max_list_ok ts Hne) as [hi Hhi].
    rewrite Hlo, Hhi. cbn [Py.bind Py.ret].
    rewrite !int_of_fraction by lia.
    change (Z.pos 100) with 100.
    destruct (pct_index_bounds 95 n ltac:(lia) Hn) as [H95a H95b].
    destruct (pct_index_bounds 99 n ltac:(lia) Hn) as [H99a H99b].
    assert (L95 : (95 * n / 100 <? n) = true) by (apply Z.ltb_lt; lia).
    assert (L99 : (99 * n / 100 <? n) = true) by (apply Z.ltb_lt; lia).
    rewrite L95, L99.
    rewrite (getitem_ok ts (95 * n / 100) 0%Q) by lia.
    rewrite (getitem_ok ts (99 * n / 100) 0%Q) by lia.
    cbn [Py.bind Py.ret].
    destruct (Py.Qltb 0 (now - start)) eqn:Ed.
    + rewrite truediv_ok by (apply Qltb_lt in Ed; intros Hz; rewrite Hz in Ed;
                             exact (Qlt_irrefl 0 Ed)).
      cbn [Py.bind]. eexists. split; [reflexivity |]. repeat split; reflexivity.
    + cbn [Py.bind Py.ret]. eexists. split; [reflexivity |]. repeat split; reflexivity.
Qed.

Lemma simple_aggregate_nonempty (config : TestConfig) (start now : Q)
    (rs : list Response) (lat : Latency) :
  rs <> [] ->
  latency_stats rs (Py.len rs) start now = Py.Ok lat ->
  aggregate config start rs now = Py.Ok {|
    total_requests := Py.len rs;
    successful_requests := Py.len (List.filter is_successful rs);
    failed_requests := Py.len (List.filter is_failed rs);
    requests_per_second := l_rps lat;
    avg_response_time := l_avg lat;
    median_response_time := l_median lat;
    p95_response_time := l_p95 lat;
    p99_response_time := l_p99 lat;
    min_response_time := l_min lat;
    max_response_time := l_max lat;
    error_rate :=
      (inject_Z (Py.len (List.filter is_failed rs) + Py.len (List.filter has_error rs))
       / inject_Z (Py.len rs) * 100)%Q;
    errors := Some (count_errors rs);
    data_sent_mb := 0;
    data_received_mb :=
      (inject_Z (Py.sum_int (map size rs)) / inject_Z (1024 * 1024))%Q;
    results_duration := duration config
  |}.
Proof.
  intros Hne Hlat. destruct rs as [| r rs']; [congruence |].
  unfold aggregate.
  assert (Hpos : 0 < Py.len (r :: rs')).
  { rewrite len_cons. pose proof (len_nonneg rs'). lia. }
  assert (H0 : (0 <? Py.len (r :: rs')) = true) by (apply Z.ltb_lt; exact Hpos).
  rewrite H0.
  rewrite truediv_ok by (apply inject_Z_nonzero; lia).
  cbn [Py.bind Py.ret]. rewrite Hlat. cbn [Py.bind].
  rewrite truediv_ok by (apply inject_Z_nonzero; lia).
  reflexivity.
Qed.

End SimpleAggregation.

(** ** Percentiles *)

Section Percentiles.

Lemma floor_fraction (a : Z) (b : positive) (n : Z) :
  Qfloor ((a # b) * inject_Z n) = a * n / Z.pos b.
Proof.
  unfold Qfloor, Qmult, inject_Z. simpl Qnum. simpl Qden.
  now rewrite Pos.mul_1_r.
Qed.

Lemma nth_last_index {A} (l : list A) (d : A) :
  l <> [] -> nth (length l - 1) l d = List.last l d.
Proof.
  induction l as [| x l IH]; [congruence |].
  intros _. destruct l as [| y l'].
  - reflexivity.
  - change (List.last (x :: y :: l') d) with (List.last (y :: l') d).
    rewrite <- IH by congruence.
    simpl length. replace (S (S (length l')) - 1)%nat with (S (length l')) by lia.
    simpl nth. replace (length l' - 0)%nat with (length l') by lia.
    destruct l'; reflexivity.
Qed.

(** The index of the [p]-th percentile among [n] sorted samples. *)
Definition percentile_index (p : Q) (n : Z) : nat := Z.to_nat (Qfloor (p * inject_Z n)).

(** C4 (as amended). Let [ts] be the strictly positive response times sorted
    ascending and [n] their number.  The enhanced runner reports as 95th/99th
    percentile the element of [ts] at index [floor(0.95 n)] / [floor(0.99 n)]
    when [n >= 20] and leaves both at zero when [n < 20]; at [n = 20] the
    95th percentile is the element at index 19, the last one, and at [n = 19]
    nothing is computed.  The simple runner has no such gate: it reports the
    elements at the same two indices for every [n >= 1]. *)
Theorem C4_percentile_index_and_gate :
  (forall (config : TestConfig) (start now : Q) (rs : list Enhanced.Response),
     let ts := FloatSort.sort (Enhanced.positive_times rs) in
     let n := Py.len ts in
     Permutation (Enhanced.positive_times rs) ts /\
     StronglySorted Qle ts /\
     exists res,
       Enhanced.aggregate config start rs now = Py.Ok res /\
       p95_response_time res =
         (if 20 <=? n then nth (percentile_index (95 # 100) n) ts 0%Q else 0%Q) /\
       p99_response_time res =
         (if 20 <=? n then nth (percentile_index (99 # 100) n) ts 0%Q else 0%Q) /\
       (n = 20 -> p95_response_time res = nth 19 ts 0%Q /\
                  nth 19 ts 0%Q = List.last ts 0%Q) /\
       (n = 19 -> p95_response_time res = 0%Q /\ p99_response_time res = 0%Q)) /\
  (forall (config : TestConfig) (start now : Q) (rs : list Simple.Response),
     let ts := FloatSort.sort (Simple.positive_times rs) in
     let n := Py.len ts in
     Permutation (Simple.positive_times rs) ts /\
     StronglySorted Qle ts /\
     exists res,
       Simple.aggregate config start rs now = Py.Ok res /\
       p95_response_time res =
         (if 1 <=? n then nth (percentile_index (95 # 100) n) ts 0%Q else 0%Q) /\
       p99_response_time res =
         (if 1 <=? n then nth (percentile_index (99 # 100) n) ts 0%Q else 0%Q)).
Proof.
  split.
  - intros config start now rs ts n.
    split; [apply FloatSort.Permuted_sort |].
    split; [apply sort_sorted |].
    unfold percentile_index. rewrite !floor_fraction. change (Z.pos 100) with 100.
    destruct rs as [| r rs'].
    + exists (Enhanced.fresh_results config).
      subst n ts. cbn. repeat split; try reflexivity; intros; discriminate.
    + destruct (latency_stats_spec (r :: rs') (Py.len (r :: rs')) start now)
        as (lat & Hlat & _ & H95 & H99 & _).
      fold ts in H95, H99. fold n in H95, H99.
      eexists. split; [apply aggregate_nonempty; [congruence | exact Hlat] |].
      cbn [p95_response_time p99_response_time].
      split; [exact H95 |]. split; [exact H99 |]. split.
      * intros Hn. split; [rewrite H95, Hn; reflexivity |].
        assert (Hl : length ts = 20%nat) by (unfold n, Py.len in Hn; lia).
        assert (Hlast : List.last ts 0%Q = nth (length ts - 1) ts 0%Q).
        { symmetry. apply nth_last_index.
          intros Hnil. rewrite Hnil in Hl. discriminate. }
        rewrite Hlast, Hl. reflexivity.
      * intros Hn. rewrite H95, H99, Hn. split; reflexivity.
  - intros config start now rs ts n.
    split; [apply FloatSort.Permuted_sort |].
    split; [apply sort_sorted |].
    unfold percentile_index. rewrite !floor_fraction. change (Z.pos 100) with 100.
    destruct rs as [| r rs'].
    + exists (Simple.fresh_results config).
      subst n ts. cbn. repeat split; reflexivity.
    + destruct (simple_latency_stats_spec (r :: rs') (Py.len (r :: rs')) start now)
        as (lat & Hlat & _ & H95 & H99 & _).
      fold ts in H95, H99. fold n in H95, H99.
      eexists. split; [apply simple_aggregate_nonempty; [congruence | exact Hlat] |].
      cbn [p95_response_time p99_response_time].
      replace (1 <=? n) with (0 <? n) by (destruct (Z.ltb_spec 0 n), (Z.leb_spec 1 n); lia).
      split; [exact H95 | exact H99].
Qed.

End Percentiles.

(** ** One request execution *)

Section RequestExecutor.

Import Enhanced.

Lemma content_size_len (response : HttpResponse) :
  content_size response = Py.len (resp_content response).
Proof. unfold content_size. destruct (resp_content response); reflexivity. Qed.

(** A [try] block that ends in one session call. *)
Lemma guarded_call (session : Session) (req : Request) :
  (exists e, session req = Py.Raise e /\
     Py.try_except (let* response := session req in Py.ret (success_data response))
                   (fun e => Py.ret (failure_data e)) = Py.Ok (failure_data e)) \/
  (exists response, session req = Py.Ok response /\
     Py.try_except (let* response := session req in Py.ret (success_data response))
                   (fun e => Py.ret (failure_data e)) = Py.Ok (success_data response)).
Proof.
  destruct (session req) as [response | e] eqn:E.
  - right. exists response. split; reflexivity.
  - left. exists e. split; reflexivity.
Qed.

Lemma web_request_cases (config : TestConfig) (session : Session) :
  (exists e, _make_web_request config session = Py.Ok (failure_data e)) \/
  (exists req response, session req = Py.Ok response /\
     req_url req = target_url config /\
     _make_web_request config session = Py.Ok (success_data response)).
Proof.
  unfold _make_web_request.
  match goal with |- context [session ?r] =>
    destruct (guarded_call session r) as [(e & _ & H) | (response & Hs & H)] end.
  - left. exists e. exact H.
  - right. eexists. exists response. split; [exact Hs |]. split; [reflexivity | exact H].
Qed.

Lemma webhook_request_cases (r1 r2 r3 : Z) (now : Q) (config : TestConfig)
    (session : Session) :
  (exists e, _make_webhook_request r1 r2 r3 now config session
             = Py.Ok (failure_data e)) \/
  (exists req response, session req = Py.Ok response /\
     req_url req = target_url config /\
     _make_webhook_request r1 r2 r3 now config session
     = Py.Ok (success_data response)).
Proof.
  unfold _make_webhook_request. cbv zeta.
  match goal with |- context [session ?r] =>
    destruct (guarded_call session r) as [(e & _ & H) | (response & Hs & H)] end.
  - left. exists e. exact H.
  - right. eexists. exists response. split; [exact Hs |]. split; [reflexivity | exact H].
Qed.

Lemma api_request_cases (config : TestConfig) (session : Session) :
  (exists e, _make_api_request config session = Py.Ok (failure_data e)) \/
  (exists req response, session req = Py.Ok response /\
     req_url req = target_url config /\
     _make_api_request config session = Py.Ok (success_data response)).
Proof.
  unfold _make_api_request.
  destruct (if params_truthy (custom_params config)
            then Py.call_upper
                   (params_get (custom_params config) "method" (Py.PyStr "GET"))
            else Py.ret "GET") as [method | e0] eqn:Em.
  - cbn [Py.bind].
    repeat match goal with |- context [if String.eqb method ?s then _ else _] =>
      destruct (String.eqb method s) end;
    cbv zeta;
    match goal with |- context [session ?r] =>
      destruct (guarded_call session r) as [(e & _ & H) | (response & Hs & H)] end;
    solve [ left; exists e; exact H
          | right; eexists; exists response;
            split; [exact Hs |]; split; [reflexivity | exact H] ].
  - left. exists e0. reflexivity.
Qed.

Lemma request_func_cases (config : TestConfig) (tk : Tick) :
  (exists e, request_func config tk = Py.Ok (failure_data e)) \/
  (exists req response, session_now tk req = Py.Ok response /\
     req_url req = target_url config /\
     request_func config tk = Py.Ok (success_data response)).
Proof.
  unfold request_func.
  destruct (String.eqb (test_type config) "telegram-webhook").
  - destruct (rand_ids tk) as [[r1 r2] r3]. apply webhook_request_cases.
  - destruct (String.eqb (test_type config) "api-endpoint").
    + apply api_request_cases.
    + apply web_request_cases.
Qed.

(** The outcome of a [try] block that ends in one session call is decided
    by what the session does with that request. *)
Lemma guarded_call_exact (session : Session) (req : Request) :
  (forall e, session req = Py.Raise e ->
     Py.try_except (let* response := session req in Py.ret (success_data response))
                   (fun e => Py.ret (failure_data e)) = Py.Ok (failure_data e)) /\
  (forall response, session req = Py.Ok response ->
     Py.try_except (let* response := session req in Py.ret (success_data response))
                   (fun e => Py.ret (failure_data e)) = Py.Ok (success_data response)).
Proof. split; intros x Hx; rewrite Hx; reflexivity. Qed.

(** The request a call sends, and how the outcome follows from the answer. *)
Definition sends (f : Py.res ResponseData) (session : Session) (req : Request)
  : Prop :=
  (forall e, session req = Py.Raise e ->
     f = Py.Ok {| rd_status_code := 0; rd_size := 0;
                  rd_error := Some (Py.str_exn e) |}) /\
  (forall response, session req = Py.Ok response ->
     f = Py.Ok {| rd_status_code := resp_status_code response;
                  rd_size := Py.len (resp_content response);
                  rd_error := None |}).

Lemma guarded_call_sends (session : Session) (req : Request) :
  sends (Py.try_except
           (let* response := session req in Py.ret (success_data response))
           (fun e => Py.ret (failure_data e)))
        session req.
Proof.
  destruct (guarded_call_exact session req) as [Hr Ho].
  split.
  - intros e He. rewrite (Hr e He). reflexivity.
  - intros response Hs. rewrite (Ho response Hs).
    unfold success_data. now rewrite content_size_len.
Qed.

Lemma web_request_sends (config : TestConfig) (session : Session) :
  sends (_make_web_request config session) session
        {| req_method := GET; req_url := target_url config; req_json := None |}.
Proof. apply guarded_call_sends. Qed.

Lemma webhook_request_sends (r1 r2 r3 : Z) (now : Q) (config : TestConfig)
    (session : Session) :
  sends (_make_webhook_request r1 r2 r3 now config session) session
        {| req_method := POST; req_url := target_url config;
           req_json := Some (webhook_payload r1 r2 r3 now) |}.
Proof. apply guarded_call_sends. Qed.

(** The method of an api-endpoint request is usable: there are no custom
    parameters, or their ['method'] (by default ['GET']) is text. *)
Definition method_is_text (config : TestConfig) : Prop :=
  params_truthy (custom_params config) = true ->
  exists s, params_get (custom_params config) "method" (Py.PyStr "GET") = Py.PyStr s.

Lemma api_request_sends (config : TestConfig) (session : Session) :
  method_is_text config ->
  exists req,
    req_url req = target_url config /\
    (params_truthy (custom_params config) = false ->
     req = {| req_method := GET; req_url := target_url config; req_json := None |}) /\
    sends (_make_api_request config session) session req.
Proof.
  intros Hm. unfold _make_api_request.
  destruct (params_truthy (custom_params config)) eqn:Ht.
  - destruct (Hm Ht) as (s & Hs). rewrite Hs.
    cbn [Py.call_upper Py.bind].
    repeat match goal with |- context [if String.eqb (Py.upper s) ?m then _ else _] =>
      destruct (String.eqb (Py.upper s) m) end;
    cbv zeta;
    (eexists; split; [| split; [intros [=] | apply guarded_call_sends]]; reflexivity).
  - cbn [Py.ret Py.bind String.eqb Ascii.eqb Bool.eqb].
    eexists. split; [| split; [intros _; reflexivity | apply guarded_call_sends]].
    reflexivity.
Qed.

(** C6. Whatever the configuration, the test type and the behaviour of the
    session, one request execution returns to its caller and never raises.
    What it returns is either status code 0, size 0 and the text of the
    exception that interrupted it, or the status code and content length of
    a response the session gave for the target URL; when the transport fails
    for every request, it is the former.  Moreover, unless the method of an
    api-endpoint request is not text, the execution sends one request to the
    target URL (a plain GET for the web-site test and for an api-endpoint
    test without parameters, a POST of the synthetic update for the webhook
    test), and its outcome is decided by what the session does with that
    request: when the session raises [e], status code 0, size 0 and
    [str(e)]; when the session answers, the status code and the content
    length of that answer and no error. *)
Theorem C6_request_execution_never_raises (config : TestConfig) (tk : Tick) :
  Py.raises (request_func config tk) = false /\
  ((exists e,
      request_func config tk =
      Py.Ok {| rd_status_code := 0; rd_size := 0;
               rd_error := Some (Py.str_exn e) |}) \/
   (exists req response,
      session_now tk req = Py.Ok response /\
      req_url req = target_url config /\
      request_func config tk =
      Py.Ok {| rd_status_code := resp_status_code response;
               rd_size := Py.len (resp_content response);
               rd_error := None |})) /\
  ((forall req, Py.raises (session_now tk req) = true) ->
   exists e,
     request_func config tk =
     Py.Ok {| rd_status_code := 0; rd_size := 0;
              rd_error := Some (Py.str_exn e) |}) /\
  ((test_type config = "api-endpoint" -> method_is_text config) ->
   exists req,
     req_url req = target_url config /\
     (test_type config = "telegram-webhook" ->
      req_method req = POST /\
      exists r1 r2 r3,
        rand_ids tk = (r1, r2, r3) /\
        req_json req = Some (webhook_payload r1 r2 r3 (t_payload tk))) /\
     (test_type config <> "telegram-webhook" ->
      test_type config <> "api-endpoint" \/
      params_truthy (custom_params config) = false ->
      req = {| req_method := GET; req_url := target_url config;
               req_json := None |}) /\
     (forall e, session_now tk req = Py.Raise e ->
        request_func config tk =
        Py.Ok {| rd_status_code := 0; rd_size := 0;
                 rd_error := Some (Py.str_exn e) |}) /\
     (forall response, session_now tk req = Py.Ok response ->
        request_func config tk =
        Py.Ok {| rd_status_code := resp_status_code response;
                 rd_size := Py.len (resp_content response);
                 rd_error := None |})).
Proof.
  split; [| split; [| split]].
  - destruct (request_func_cases config tk) as [(e & H) | (req & response & _ & _ & H)];
      rewrite H; reflexivity.
  - destruct (request_func_cases config tk)
      as [(e & H) | (req & response & Hs & Hu & H)].
    + left. exists e. exact H.
    + right. exists req, response. split; [exact Hs |]. split; [exact Hu |].
      rewrite H. unfold success_data. now rewrite content_size_len.
  - intros Hall.
    destruct (request_func_cases config tk)
      as [(e & H) | (req & response & Hs & _ & _)].
    + exists e. exact H.
    + specialize (Hall req). rewrite Hs in Hall. discriminate.
  - intros Hm. unfold request_func.
    destruct (String.eqb_spec (test_type config) "telegram-webhook") as [Hw | Hw].
    + destruct (rand_ids tk) as [[r1 r2] r3].
      destruct (webhook_request_sends r1 r2 r3 (t_payload tk) config (session_now tk))
        as [Hr Ho].
      exists {| req_method := POST; req_url := target_url config;
                req_json := Some (webhook_payload r1 r2 r3 (t_payload tk)) |}.
      split; [reflexivity |]. split.
      { intros _. split; [reflexivity |]. exists r1, r2, r3. split; reflexivity. }
      split; [intros Hn; contradiction |]. split; [exact Hr | exact Ho].
    + destruct (String.eqb_spec (test_type config) "api-endpoint") as [Ha | Ha].
      * destruct (api_request_sends config (session_now tk) (Hm Ha))
          as (req & Hu & Hget & Hr & Ho).
        exists req. split; [exact Hu |]. split; [intros Hn; contradiction |].
        split; [| split; [exact Hr | exact Ho]].
        intros _ [Hn | Hf]; [contradiction | exact (Hget Hf)].
      * destruct (web_request_sends config (session_now tk)) as [Hr Ho].
        exists {| req_method := GET; req_url := target_url config;
                  req_json := None |}.
        split; [reflexivity |]. split; [intros Hn; contradiction |].
        split; [intros _ _; reflexivity |]. split; [exact Hr | exact Ho].
Qed.

End RequestExecutor.

(** ** The request loop of one virtual user *)

Section UserLoop.

Import Enhanced.

(** [thread_end_time = start_time + config.duration] *)
Definition deadline (config : TestConfig) (start_time : Q) : Q :=
  (start_time + inject_Z (duration config))%Q.



Definition is_attempt (e : Event) : bool :=
  match e with Attempt _ => true | _ => false end.



Lemma attempt_log (config : TestConfig) (idx : Z) (tk : Tick)
    (ur : list Response) (st : Shared) :
  log (snd (attempt config idx tk ur st)) = log st ++ [Attempt idx].
Proof. unfold attempt. destruct (request_func config tk); reflexivity. Qed.

Lemma attempt_responses (config : TestConfig) (idx : Z) (tk : Tick)
    (ur : list Response) (st : Shared) :
  exists r, all_responses (snd (attempt config idx tk ur st)) = all_responses st ++ [r].
Proof. unfold attempt. destruct (request_func config tk); eexists; reflexivity. Qed.




End UserLoop.

(** ** Classification of records and the error rate *)

Section Classification.

Import Enhanced.

(** A record with an error and a status code below 400: an "error record
    not already counted as failed". *)
Definition error_not_failed (r : Response) : bool :=
  has_error r && negb (is_failed r).

(** A record that is neither successful, nor failed, nor an error record. *)
Definition unclassified (r : Response) : bool :=
  negb (has_error r) && (status_code r <=? 0).

Lemma is_successful_iff (r : Response) :
  is_successful r = true <->
  status_code r <> 0 /\ 0 < status_code r < 400 /\ Py.truthy (error r) = false.
Proof.
  unfold is_successful.
  rewrite !andb_true_iff, !negb_true_iff, Z.eqb_neq, !Z.ltb_lt. tauto.
Qed.

Lemma is_failed_iff (r : Response) : is_failed r = true <-> 400 <= status_code r.
Proof.
  unfold is_failed. rewrite andb_true_iff, negb_true_iff, Z.eqb_neq, Z.leb_le. lia.
Qed.

Lemma classes_partition (r : Response) :
  (is_successful r, is_failed r, error_not_failed r, unclassified r)
  = (true, false, false, false) \/
  (is_successful r, is_failed r, error_not_failed r, unclassified r)
  = (false, true, false, false) \/
  (is_successful r, is_failed r, error_not_failed r, unclassified r)
  = (false, false, true, false) \/
  (is_successful r, is_failed r, error_not_failed r, unclassified r)
  = (false, false, false, true).
Proof.
  unfold error_not_failed, unclassified, is_successful, is_failed, has_error.
  destruct (Py.truthy (error r));
    destruct (Z.eqb_spec (status_code r) 0), (Z.ltb_spec 0 (status_code r)),
             (Z.ltb_spec (status_code r) 400), (Z.leb_spec 400 (status_code r)),
             (Z.leb_spec (status_code r) 0);
    cbn; try lia; auto.
Qed.

Lemma partition_count (rs : list Response) :
  Py.len rs =
  Py.len (List.filter is_successful rs) + Py.len (List.filter is_failed rs)
  + Py.len (List.filter error_not_failed rs) + Py.len (List.filter unclassified rs).
Proof.
  induction rs as [| r rs IH]; [reflexivity |].
  cbn [List.filter].
  destruct (classes_partition r) as [H | [H | [H | H]]];
    injection H as -> -> -> ->; rewrite !len_cons; lia.
Qed.

Lemma filter_none {A} (f : A -> bool) (l : list A) :
  Forall (fun x => f x = false) l -> List.filter f l = [].
Proof.
  induction 1 as [| x l Hx _ IH]; [reflexivity |].
  cbn [List.filter]. now rewrite Hx.
Qed.

(** The classification as the code makes it.  On a non-empty collection the
    aggregation counts as
    successful exactly the records whose status code is present with
    [0 < code < 400] and no error string, as failed exactly those with status
    code [>= 400], and sets the error rate to
    [(failed + records with an error string) / total * 100].  The total is
    the sum of the successful, the failed, the error records not counted as
    failed, and the records that fall in none of these groups (status code
    [<= 0] and no error string); it is the sum of the first three when the
    last group is empty. *)
Lemma classification_and_error_rate :
  (forall r, is_successful r = true <->
             status_code r <> 0 /\ 0 < status_code r < 400 /\
             Py.truthy (error r) = false) /\
  (forall r, is_failed r = true <-> 400 <= status_code r) /\
  (forall (config : TestConfig) (start now : Q) (rs : list Response),
     rs <> [] ->
     exists res,
       aggregate config start rs now = Py.Ok res /\
       total_requests res = Py.len rs /\
       successful_requests res = Py.len (List.filter is_successful rs) /\
       failed_requests res = Py.len (List.filter is_failed rs) /\
       error_rate res =
         (inject_Z (failed_requests res + Py.len (List.filter has_error rs))
          / inject_Z (total_requests res) * 100)%Q /\
       total_requests res =
         successful_requests res + failed_requests res
         + Py.len (List.filter error_not_failed rs)
         + Py.len (List.filter unclassified rs) /\
       (Forall (fun r => unclassified r = false) rs ->
        total_requests res =
          successful_requests res + failed_requests res
          + Py.len (List.filter error_not_failed rs))).
Proof.
  split; [exact is_successful_iff |]. split; [exact is_failed_iff |].
  intros config start now rs Hne.
  destruct (latency_stats_spec rs (Py.len rs) start now) as (lat & Hlat & _).
  eexists. split; [apply aggregate_nonempty; [exact Hne | exact Hlat] |].
  cbn [total_requests successful_requests failed_requests error_rate].
  repeat split.
  - apply partition_count.
  - intros Hnone. rewrite (partition_count rs) at 1.
    rewrite (filter_none unclassified rs Hnone). unfold Py.len at 4. simpl. lia.
Qed.

End Classification.

(** ** What the users put into the shared collection *)

Section RecordInvariant.

Import Enhanced.

(** A record that carries an error description has status code 0 and size 0. *)
Definition error_means_no_response (r : Response) : Prop :=
  error r <> Py.PyNone -> status_code r = 0 /\ size r = 0.

Lemma attempt_invariant (config : TestConfig) (idx : Z) (tk : Tick)
    (ur : list Response) (st : Shared) :
  Forall error_means_no_response (all_responses st) ->
  Forall error_means_no_response (all_responses (snd (attempt config idx tk ur st))).
Proof.
  intros Hst. unfold attempt.
  destruct (request_func_cases config tk) as [(e & H) | (req & response & _ & _ & H)];
    rewrite H; cbn; apply Forall_app; (split; [exact Hst |]);
    (constructor; [| constructor]); unfold error_means_no_response; cbn;
    intros Hne.
  - auto.
  - congruence.
Qed.

Lemma user_loop_invariant (config : TestConfig) (start : Q) (idx : Z)
    (ticks : list Tick) :
  forall ur st ur' st',
    user_loop config start idx ticks ur st = Some (ur', st') ->
    Forall error_means_no_response (all_responses st) ->
    Forall error_means_no_response (all_responses st').
Proof.
  induction ticks as [| tk rest IH]; intros ur st ur' st' H Hst; [discriminate |].
  cbn [user_loop] in H.
  destruct (active_flag tk && Py.Qltb (t_loop tk) (start + inject_Z (duration config))).
  - pose proof (attempt_invariant config idx tk ur st Hst) as Ha.
    destruct (attempt config idx tk ur st) as [ur1 st1]. cbn [snd] in Ha.
    destruct (Py.Qleb (start + inject_Z (duration config) - t_after tk) 0).
    + injection H as <- <-. exact Ha.
    + eapply IH; [exact H | exact Ha].
  - injection H as <- <-. exact Hst.
Qed.

Lemma run_workers_invariant (config : TestConfig) (start : Q) (env : Env)
    (futures : list Z) :
  forall st st',
    run_workers config start env futures st = Some st' ->
    Forall error_means_no_response (all_responses st) ->
    Forall error_means_no_response (all_responses st').
Proof.
  induction futures as [| i futures IH]; intros st st' H Hst.
  - injection H as <-. exact Hst.
  - cbn [run_workers] in H. unfold make_requests_for_user in H.
    destruct (user_loop config start i (worker_ticks env i) [] st) as [[ur st1] |] eqn:E;
      [| discriminate].
    eapply IH; [exact H |]. eapply user_loop_invariant; [exact E | exact Hst].
Qed.

Lemma run_test_cases (config : TestConfig) (env : Env) (run : Run) :
  run_test config env = Some run ->
  (users config <= 0 /\
   run = {| run_log := []; run_responses := []; run_results := Py.Raise pool_error |}) \/
  (0 < users config /\
   exists st,
     run_workers config (clock_start env) env
       (snd (submit_users config env (range (users config)) [] []))
       {| all_responses := [];
          log := fst (submit_users config env (range (users config)) [] []) |}
     = Some st /\
     run = {| run_log := log st; run_responses := all_responses st;
              run_results := aggregate config (clock_start env) (all_responses st)
                                       (clock_end env) |}).
Proof.
  unfold run_test. intros H.
  destruct (Z.leb_spec (Z.min (users config) 50) 0) as [Hle | Hgt].
  - left. split; [lia | congruence].
  - right. split; [lia |].
    destruct (submit_users config env (range (users config)) [] []) as [events futures].
    cbn [fst snd].
    destruct (run_workers config (clock_start env) env futures _) as [st |];
      [| discriminate].
    exists st. split; [reflexivity | congruence].
Qed.

Lemma disjoint_buckets (r : Response) :
  error_means_no_response r -> ~ (is_failed r = true /\ has_error r = true).
Proof.
  unfold error_means_no_response, has_error. intros Hwf [Hf He].
  apply is_failed_iff in Hf.
  destruct (error r) eqn:Eerr; try discriminate;
    (destruct Hwf as [Hz _]; [congruence | lia]).
Qed.

Lemma disjoint_buckets_count (rs : list Response) :
  Forall error_means_no_response rs ->
  Py.len (List.filter is_failed rs) + Py.len (List.filter has_error rs) <= Py.len rs.
Proof.
  induction 1 as [| r rs Hr _ IH]; [reflexivity |].
  cbn [List.filter]. pose proof (disjoint_buckets r Hr) as Hd.
  destruct (is_failed r), (has_error r); rewrite !len_cons;
    solve [lia | exfalso; apply Hd; split; reflexivity].
Qed.

Lemma rate_at_most_100 (k t : Z) :
  0 < t -> k <= t -> (inject_Z k / inject_Z t * 100 <= 100)%Q.
Proof.
  intros Ht Hk.
  assert (H1 : (inject_Z k / inject_Z t <= 1)%Q).
  { apply Qle_shift_div_r.
    - change 0%Q with (inject_Z 0). rewrite <- Zlt_Qlt. exact Ht.
    - rewrite Qmult_1_l. rewrite <- Zle_Qle. exact Hk. }
  apply (Qmult_le_compat_r _ _ 100) in H1; [| discriminate].
  rewrite Qmult_1_l in H1. exact H1.
Qed.

(** C10. In every run, each record that carries an error description has
    status code 0 and size 0; hence no record is both failed (status code
    [>= 400]) and an error record, and the error rate that is reported never
    exceeds 100 percent. *)
Theorem C10_error_rate_at_most_100 (config : TestConfig) (env : Env) (run : Run) :
  run_test config env = Some run ->
  Forall (fun r => error r <> Py.PyNone -> status_code r = 0 /\ size r = 0)
         (run_responses run) /\
  (forall r, In r (run_responses run) ->
             ~ (is_failed r = true /\ has_error r = true)) /\
  (forall res, run_results run = Py.Ok res -> (error_rate res <= 100)%Q).
Proof.
  intros Hrun.
  destruct (run_test_cases config env run Hrun) as [[_ ->] | (_ & st & Hw & ->)].
  - cbn. split; [constructor |]. split; [tauto | discriminate].
  - cbn [run_responses run_results].
    assert (Hinv : Forall error_means_no_response (all_responses st)).
    { eapply run_workers_invariant; [exact Hw | constructor]. }
    split; [exact Hinv |]. split.
    + intros r Hin. apply disjoint_buckets.
      rewrite List.Forall_forall in Hinv. apply Hinv, Hin.
    + intros res Hres. destruct (all_responses st) as [| r rs] eqn:Ers.
      * cbn in Hres. injection Hres as <-. discriminate.
      * destruct (latency_stats_spec (r :: rs) (Py.len (r :: rs))
                    (clock_start env) (clock_end env)) as (lat & Hlat & _).
        rewrite (aggregate_nonempty config _ _ (r :: rs) lat) in Hres
          by (congruence || exact Hlat).
        injection Hres as <-. cbn [error_rate].
        apply rate_at_most_100.
        -- rewrite len_cons. pose proof (len_nonneg rs). lia.
        -- exact (disjoint_buckets_count (r :: rs) Hinv).
Qed.

End RecordInvariant.

(** ** Configurations the run should not accept *)

Section Validation.

Import Enhanced.

Lemma in_range (n i : Z) : In i (range n) <-> 0 <= i < n.
Proof.
  unfold range. rewrite in_map_iff. split.
  - intros (k & <- & Hk). apply in_seq in Hk. lia.
  - intros Hi. exists (Z.to_nat i). split; [lia | apply in_seq; lia].
Qed.

Lemma range_nonpos (n : Z) : n <= 0 -> range n = [].
Proof. intros Hn. unfold range. now replace (Z.to_nat n) with 0%nat by lia. Qed.

(** The ramp-up loop submits the users that find the run active, in order,
    and adds no attempt to the log. *)
Lemma submit_users_spec (config : TestConfig) (env : Env) (todo : list Z) :
  forall events futures,
    snd (submit_users config env todo events futures)
    = futures ++ List.filter (sched_active env) todo /\
    (forall i, In i todo -> sched_active env i = true ->
               In (Submit i) (fst (submit_users config env todo events futures))) /\
    (forall e, In e events ->
               In e (fst (submit_users config env todo events futures))) /\
    (Forall (fun e => is_attempt e = false) events ->
     Forall (fun e => is_attempt e = false)
            (fst (submit_users config env todo events futures))).
Proof.
  induction todo as [| i todo IH]; intros events futures.
  - cbn. rewrite app_nil_r. repeat split; auto. intros j [].
  - cbn [submit_users List.filter].
    set (events1 := if (0 <? rampup config) && (0 <? i)
                    then events ++ [SchedSleep (rampup_delay config i)] else events).
    assert (Hsub : forall e, In e events -> In e events1).
    { intros e He. subst events1.
      destruct ((0 <? rampup config) && (0 <? i)); [apply in_or_app; left |]; exact He. }
    assert (Hatt : Forall (fun e => is_attempt e = false) events ->
                   Forall (fun e => is_attempt e = false) events1).
    { intros Hf. subst events1.
      destruct ((0 <? rampup config) && (0 <? i)); [| exact Hf].
      apply Forall_app. split; [exact Hf | repeat constructor]. }
    destruct (sched_active env i) eqn:Ea.
    + destruct (IH (events1 ++ [Submit i]) (futures ++ [i])) as (H1 & H2 & H3 & H4).
      split; [rewrite H1, <- app_assoc; reflexivity |].
      split; [| split].
      * intros j [<- | Hj] Hact.
        -- apply H3, in_or_app. right. left. reflexivity.
        -- apply H2; assumption.
      * intros e He. apply H3, in_or_app. left. apply Hsub, He.
      * intros Hf. apply H4, Forall_app. split; [apply Hatt, Hf | repeat constructor].
    + destruct (IH events1 futures) as (H1 & H2 & H3 & H4).
      split; [exact H1 |]. split; [| split].
      * intros j [<- | Hj] Hact; [congruence | apply H2; assumption].
      * intros e He. apply H3, Hsub, He.
      * intros Hf. apply H4, Hatt, Hf.
Qed.



End Validation.

(** ** Error categories, throughput and ramp-up in general *)

Section ErrorCategories.

Import Enhanced.

(** The label under which a record is counted, if it is counted. *)
Definition error_label (r : Response) : option string :=
  if Py.truthy (error r) then Some (Py.class_name (error r))
  else if 400 <=? status_code r then Some (Py.str_int (status_code r))
  else None.

Definition has_label (l : string) (r : Response) : bool :=
  bool_decide (error_label r = Some l).

Lemma count_error_lookup (m : gmap string Z) (r : Response) (l : string) :
  default 0 (count_error m r !! l)
  = default 0 (m !! l) + (if has_label l r then 1 else 0).
Proof.
  unfold count_error, has_label, error_label, Py.hasattr_class.
  destruct (Py.truthy (error r)); [| destruct (400 <=? status_code r)].
  - rewrite lookup_insert. case_decide as Hl.
    + subst l. rewrite bool_decide_eq_true_2 by reflexivity. reflexivity.
    + rewrite bool_decide_eq_false_2 by congruence. now rewrite Z.add_0_r.
  - rewrite lookup_insert. case_decide as Hl.
    + subst l. rewrite bool_decide_eq_true_2 by reflexivity. reflexivity.
    + rewrite bool_decide_eq_false_2 by congruence. now rewrite Z.add_0_r.
  - rewrite bool_decide_eq_false_2 by congruence. now rewrite Z.add_0_r.
Qed.

Lemma fold_count_error_lookup (rs : list Response) (l : string) :
  forall m : gmap string Z,
    default 0 (fold_left count_error rs m !! l)
    = default 0 (m !! l) + Py.len (List.filter (has_label l) rs).
Proof.
  induction rs as [| r rs IH]; intros m.
  - cbn [fold_left List.filter]. change (Py.len (@nil Response)) with 0.
    now rewrite Z.add_0_r.
  - cbn [fold_left List.filter]. rewrite IH, count_error_lookup.
    destruct (has_label l r); rewrite ?len_cons; lia.
Qed.

(** Every record is counted at most once: under its label. *)
Lemma count_errors_lookup (rs : list Response) (l : string) :
  default 0 (count_errors rs !! l) = Py.len (List.filter (has_label l) rs).
Proof.
  unfold count_errors. rewrite fold_count_error_lookup, lookup_empty. reflexivity.
Qed.

(** An error record is labelled before its status code is looked at, and
    the label of a textual error is the class name of the text. *)
Lemma text_error_label (r : Response) (s : string) :
  error r = Py.PyStr s -> s <> "" -> error_label r = Some "str".
Proof.
  intros He Hs. unfold error_label. rewrite He. cbn.
  destruct (String.eqb_spec s ""); [contradiction | reflexivity].
Qed.

Lemma status_label (r : Response) :
  Py.truthy (error r) = false -> 400 <= status_code r ->
  error_label r = Some (Py.str_int (status_code r)).
Proof.
  intros He Hs. unfold error_label. rewrite He.
  destruct (Z.leb_spec 400 (status_code r)); [reflexivity | lia].
Qed.

(** Requests per second of the enhanced runner: total over wall-clock time
    when some record has a positive response time and the clock has
    advanced, else the default. *)
Lemma throughput_spec (config : TestConfig) (start now : Q) (rs : list Response) :
  rs <> [] ->
  exists res,
    aggregate config start rs now = Py.Ok res /\
    requests_per_second res
    = (if (0 <? Py.len (positive_times rs)) && Py.Qltb 0 (now - start)
       then (inject_Z (Py.len rs) / (now - start))%Q else 0%Q).
Proof.
  intros Hne.
  destruct (latency_stats_spec rs (Py.len rs) start now)
    as (lat & Hlat & _ & _ & _ & Hrps & _).
  eexists. split; [apply aggregate_nonempty; [exact Hne | exact Hlat] |].
  cbn [requests_per_second]. rewrite Hrps, sort_len. reflexivity.
Qed.

(** What the ramp-up loop does for user [i]. *)
Definition ramp_events (config : TestConfig) (env : Env) (i : Z) : list Event :=
  (if (0 <? rampup config) && (0 <? i)
   then [SchedSleep (rampup_delay config i)] else [])
  ++ (if sched_active env i then [Submit i] else []).

Lemma submit_users_events (config : TestConfig) (env : Env) (todo : list Z) :
  forall events futures,
    fst (submit_users config env todo events futures)
    = events ++ flat_map (ramp_events config env) todo.
Proof.
  induction todo as [| i todo IH]; intros events futures.
  - cbn. now rewrite app_nil_r.
  - cbn [submit_users flat_map].
    destruct ((0 <? rampup config) && (0 <? i)) eqn:E1, (sched_active env i) eqn:E2;
      rewrite IH; unfold ramp_events at 2; rewrite E1, E2; cbn [app];
      rewrite <- ?app_assoc; reflexivity.
Qed.

End ErrorCategories.

(** * Concrete runs *)

Module Sample.

Import Enhanced.

(** [TestConfig(target_url="http://x")]: every other field at its default. *)
Definition default_config : TestConfig := {|
  target_url := "http://x";
  users := 100;
  duration := 60;
  rampup := 10;
  test_type := "web-site";
  framework := "locust";
  custom_params := None
|}.

Definition config_with (n d r : Z) (type : string) : TestConfig := {|
  target_url := "http://x";
  users := n;
  duration := d;
  rampup := r;
  test_type := type;
  framework := "advanced";
  custom_params := None
|}.

(** Sessions. *)
Definition refusing : Session :=
  fun _ => Py.Raise (Py.Exn "ConnectionError" "Connection refused").

Definition timing_out : Session :=
  fun _ => Py.Raise (Py.Exn "ReadTimeout" "Read timed out").

Definition silent_failure : Session :=
  fun _ => Py.Raise (Py.Exn "Exception" "").

Definition answering (status : Z) : Session :=
  fun _ => Py.Ok {| resp_status_code := status;
                    resp_content := [Byte.x6f; Byte.x6b] |}.

(** One pass of a user's loop: the loop condition is read at [t0], the
    request runs from [t1] to [t2], the remaining time is taken at [t3]. *)
Definition tick (session : Session) (t0 t1 t2 t3 : Q) : Tick := {|
  active_flag := true;
  t_loop := t0;
  t_start_req := t1;
  session_now := session;
  rand_ids := (100000, 100001, 100002);
  t_payload := t1;
  t_end_req := t2;
  t_stamp := t2;
  t_after := t3
|}.

(** A run that starts at time 0 and in which the scheduler stays active. *)
Definition env_of (ticks : Z -> list Tick) (finish : Q) : Env := {|
  clock_start := 0;
  sched_active := fun _ => true;
  worker_ticks := ticks;
  clock_end := finish
|}.

(** One user, three attempts: refused, timed out, answered with 404. *)
Definition three_failures : Env :=
  env_of (fun _ => [ tick refusing 1 1 (11 # 10) 2;
                     tick timing_out 3 3 8 9;
                     tick (answering 404) 10 10 (21 # 2) 60 ])
         61.

(** One user on a clock too coarse to see its two refused attempts take any
    time. *)
Definition coarse_clock : Env :=
  env_of (fun _ => [ tick refusing 1 1 1 2; tick refusing 3 3 3 60 ]) 10.

(** One user, one attempt that fails with an exception whose text is empty. *)
Definition one_silent_failure : Env :=
  env_of (fun _ => [ tick silent_failure 1 1 2 60 ]) 61.


(** Records of the enhanced runner with response times 1, 2, ..., n ms. *)
Definition timed (n : nat) : list Response :=
  map (fun k => {| timestamp := 0; response_time := inject_Z (Z.of_nat k);
                   status_code := 200; size := 2; error := Py.PyNone;
                   session_idx := 0 |})
      (seq 1 n).

(** The same for the simple runner. *)
Definition simple_timed (n : nat) : list Simple.Response :=
  map (fun k => {| Simple.status_code := 200;
                   Simple.response_time := inject_Z (Z.of_nat k);
                   Simple.size := 2; Simple.error := None;
                   Simple.user_id := 0 |})
      (seq 1 n).

(** What [make_request] of the simple runner returns, [None] dropped. *)
Definition simple_request (session : Session) (t1 t2 : Q) : list Simple.Response :=
  match Simple.make_request true default_config session t1 t2 0 with
  | Some r => [r]
  | None => []
  end.

(** 500 requests of the simple runner against a target that refuses. *)
Definition simple_all_refused : list Simple.Response :=
  concat (repeat (simple_request refusing 3 (16 # 5)) 500).

(** Seconds the scheduler has slept before each submission. *)
Fixpoint start_offsets (events : list Event) (slept : Q) : list (Z * Q) :=
  match events with
  | [] => []
  | SchedSleep secs :: events' => start_offsets events' (slept + secs)%Q
  | Submit i :: events' => (i, slept) :: start_offsets events' slept
  | _ :: events' => start_offsets events' slept
  end.

Definition ramp_offsets (config : TestConfig) : list (Z * Q) :=
  start_offsets
    (fst (submit_users config (env_of (fun _ => []) 0) (range (users config)) [] []))
    0.

(** [offset_of i offsets]: when user [i] was submitted. *)
Definition offset_of (i : Z) (offsets : list (Z * Q)) : option Q :=
  option_map snd (List.find (fun p => fst p =? i) offsets).

End Sample.

Section ConcreteRuns.

Import Enhanced.
Import Sample.

(** C1. One user gets a refused connection, then a read timeout, then a 404.
    The two error records carry different error strings, yet the error
    mapping of the enhanced runner has a single entry for both, under the
    label "str" (the class name of the stored text), next to the entry "404";
    neither error string is a label.  The simple runner does the same. *)
Theorem C1_error_strings_share_the_label_str :
  (exists run res (m : gmap string Z),
     run_test (config_with 1 60 0 "web-site") three_failures = Some run /\
     map error (run_responses run)
     = [Py.PyStr "Connection refused"; Py.PyStr "Read timed out"; Py.PyNone] /\
     run_results run = Py.Ok res /\
     errors res = Some m /\
     m !! "str" = Some 2 /\
     m !! "404" = Some 1 /\
     m !! "Connection refused" = None /\
     m !! "Read timed out" = None) /\
  (exists res (m : gmap string Z),
     Simple.aggregate default_config 0
       (simple_request refusing 1 2 ++ simple_request timing_out 3 9) 10
     = Py.Ok res /\
     errors res = Some m /\
     m !! "str" = Some 2 /\
     m !! "Connection refused" = None /\
     m !! "Read timed out" = None).
Proof.
  split.
  - do 3 eexists.
    split; [vm_compute; reflexivity |].
    split; [vm_compute; reflexivity |].
    split; [vm_compute; reflexivity |].
    split; [vm_compute; reflexivity |].
    repeat split; vm_compute; reflexivity.
  - do 2 eexists.
    split; [vm_compute; reflexivity |].
    split; [vm_compute; reflexivity |].
    repeat split; vm_compute; reflexivity.
Qed.

(** C2. 500 requests of the simple runner against a target that refuses the
    connection, over 10 seconds of wall-clock time: every record has response
    time 0, and the reported requests-per-second is 0, not 500 / 10.  The
    enhanced runner reports 0 as well when no record has a positive measured
    time, although the run took 10 seconds. *)
Theorem C2_throughput_zero_without_timed_records :
  (Forall (fun r => Simple.response_time r = 0%Q) simple_all_refused /\
   exists res,
     Simple.aggregate default_config 0 simple_all_refused 10 = Py.Ok res /\
     total_requests res = 500 /\
     requests_per_second res = 0%Q /\
     ~ (requests_per_second res == 500 / 10)%Q) /\
  (exists run res,
     run_test (config_with 1 60 0 "web-site") coarse_clock = Some run /\
     run_results run = Py.Ok res /\
     (0 < clock_end coarse_clock - clock_start coarse_clock)%Q /\
     total_requests res = 2 /\
     requests_per_second res = 0%Q).
Proof.
  split.
  - split.
    + unfold simple_all_refused. apply Forall_concat, Forall_forall.
      intros l Hl. apply list_elem_of_In, repeat_spec in Hl. subst l.
      repeat constructor.
    + eexists. split; [vm_compute; reflexivity |].
      split; [reflexivity |]. split; [reflexivity |]. discriminate.
  - do 2 eexists.
    split; [vm_compute; reflexivity |].
    split; [vm_compute; reflexivity |].
    split; [reflexivity |]. split; reflexivity.
Qed.

(** C3. With the default configuration (100 users, ramp-up 10 s, duration
    60 s) the scheduler sleeps [min(i * 10 / 100, 1)] seconds before it
    submits user [i], one sleep after the other: user 1 starts after 0.1 s,
    user 2 after 0.3 s (not 0.2 s), user 99 after 94.5 s, which is past the
    ramp-up window and past the deadline of the run.  The start delays are
    not proportional to [i * rampup / users]. *)
Theorem C3_ramp_up_sleeps_accumulate :
  exists o1 o2 o99,
    offset_of 1 (ramp_offsets default_config) = Some o1 /\
    offset_of 2 (ramp_offsets default_config) = Some o2 /\
    offset_of 99 (ramp_offsets default_config) = Some o99 /\
    (o1 == 1 # 10)%Q /\ (o2 == 3 # 10)%Q /\ (o99 == 189 # 2)%Q /\
    (inject_Z (rampup default_config) < o99)%Q /\
    (inject_Z (duration default_config) < o99)%Q /\
    ~ (exists k : Q,
         (o1 == k * (1 * inject_Z (rampup default_config)
                     / inject_Z (users default_config)))%Q /\
         (o2 == k * (2 * inject_Z (rampup default_config)
                     / inject_Z (users default_config)))%Q).
Proof.
  do 3 eexists.
  split; [vm_compute; reflexivity |].
  split; [vm_compute; reflexivity |].
  split; [vm_compute; reflexivity |].
  split; [reflexivity |]. split; [reflexivity |]. split; [reflexivity |].
  split; [reflexivity |]. split; [reflexivity |].
  intros (k & H1 & H2).
  assert (E1 : (1 * inject_Z (rampup default_config)
                / inject_Z (users default_config) == 1 # 10)%Q) by reflexivity.
  assert (E2 : (2 * inject_Z (rampup default_config)
                / inject_Z (users default_config) == 2 # 10)%Q) by reflexivity.
  rewrite E1 in H1. rewrite E2 in H2.
  assert (F1 : (0.10 == 1 # 10)%Q) by reflexivity.
  assert (F2 : (0.3000 == 3 # 10)%Q) by reflexivity.
  lra.
Qed.

End ConcreteRuns.

Section Witnesses.

Import Enhanced.
Import Sample.

(** The simple runner at 19 timed records: the 95th and 99th percentile are
    computed (the element at index 18), not left at zero. *)
Lemma C4_simple_runner_computes_percentile_at_19 :
  Py.len (Simple.positive_times (simple_timed 19)) = 19 /\
  exists res,
    Simple.aggregate default_config 0 (simple_timed 19) 10 = Py.Ok res /\
    p95_response_time res = 19%Q /\
    p99_response_time res = 19%Q /\
    ~ (p95_response_time res == 0)%Q /\
    ~ (p99_response_time res == 0)%Q.
Proof.
  split; [reflexivity |].
  eexists. split; [vm_compute; reflexivity |].
  repeat split; try reflexivity; discriminate.
Qed.

(** The enhanced runner at exactly 20 and exactly 19 timed records. *)
Lemma C4_boundary_20_and_19 :
  (Py.len (FloatSort.sort (positive_times (timed 20))) = 20 /\
   exists res,
     aggregate default_config 0 (timed 20) 10 = Py.Ok res /\
     p95_response_time res = nth 19 (FloatSort.sort (positive_times (timed 20))) 0%Q /\
     nth 19 (FloatSort.sort (positive_times (timed 20))) 0%Q
     = List.last (FloatSort.sort (positive_times (timed 20))) 0%Q) /\
  (Py.len (FloatSort.sort (positive_times (timed 19))) = 19 /\
   exists res,
     aggregate default_config 0 (timed 19) 10 = Py.Ok res /\
     p95_response_time res = 0%Q /\ p99_response_time res = 0%Q).
Proof.
  split.
  - split; [reflexivity |].
    destruct (proj1 C4_percentile_index_and_gate default_config 0%Q 10%Q (timed 20))
      as (_ & _ & res & Hres & _ & _ & H20 & _).
    exists res. split; [exact Hres |]. apply H20. reflexivity.
  - split; [reflexivity |].
    destruct (proj1 C4_percentile_index_and_gate default_config 0%Q 10%Q (timed 19))
      as (_ & _ & res & Hres & _ & _ & _ & H19).
    exists res. split; [exact Hres |]. apply H19. reflexivity.
Defined.

(** C5. One user whose only request fails with an exception of empty text:
    the [except] branch of the request function marks the record as an error
    (status code 0, size 0, ['error': str(e)]), but the aggregation asks for
    the truth of that text and so finds no error in it.  The record is
    counted in the total and in no group, the error rate is 0 percent
    although every request failed, and the total is not the sum of the
    successful, the failed and the error records. *)
Theorem C5_failure_with_empty_text_is_counted_nowhere :
  exists run res,
    run_test (config_with 1 60 0 "web-site") one_silent_failure = Some run /\
    run_results run = Py.Ok res /\
    Py.len (run_responses run) = 1 /\
    Forall (fun r => status_code r = 0 /\ size r = 0 /\
                     error r = Py.PyStr "" /\ has_error r = false)
           (run_responses run) /\
    total_requests res = 1 /\
    successful_requests res = 0 /\
    failed_requests res = 0 /\
    Py.len (List.filter error_not_failed (run_responses run)) = 0 /\
    (error_rate res == 0)%Q /\
    total_requests res <>
      successful_requests res + failed_requests res
      + Py.len (List.filter error_not_failed (run_responses run)).
Proof.
  do 2 eexists.
  split; [vm_compute; reflexivity |].
  split; [vm_compute; reflexivity |].
  split; [reflexivity |].
  split; [repeat constructor |].
  repeat split; try reflexivity. discriminate.
Qed.

(** The records of [three_failures], aggregated. *)
Definition three_records : list Response :=
  match run_test (config_with 1 60 0 "web-site") three_failures with
  | Some run => run_responses run
  | None => []
  end.

Lemma classification_three_records :
  three_records <> [] /\
  Forall (fun r => unclassified r = false) three_records /\
  exists res,
    aggregate default_config 0 three_records 61 = Py.Ok res /\
    total_requests res =
      successful_requests res + failed_requests res
      + Py.len (List.filter error_not_failed three_records).
Proof.
  assert (Hne : three_records <> []) by (vm_compute; discriminate).
  assert (Hall : Forall (fun r => unclassified r = false) three_records)
    by (vm_compute; repeat constructor).
  split; [exact Hne |]. split; [exact Hall |].
  destruct (proj2 (proj2 classification_and_error_rate)
              default_config 0%Q 61%Q three_records Hne)
    as (res & Hres & _ & _ & _ & _ & _ & Hsum).
  exists res. split; [exact Hres | exact (Hsum Hall)].
Defined.

(** A web-site request over a refusing session and over one that answers
    with status 200 and two bytes. *)
Lemma C6_refused_request :
  (test_type default_config = "api-endpoint" -> method_is_text default_config) /\
  request_func default_config (tick refusing 1 1 2 3)
  = Py.Ok {| rd_status_code := 0; rd_size := 0;
             rd_error := Some "Connection refused" |} /\
  request_func default_config (tick (answering 200) 1 1 2 3)
  = Py.Ok {| rd_status_code := 200; rd_size := 2; rd_error := None |}.
Proof.
  assert (Hm : test_type default_config = "api-endpoint" ->
               method_is_text default_config) by (intros H; discriminate H).
  assert (Hw : test_type default_config <> "telegram-webhook") by discriminate.
  assert (Ha : test_type default_config <> "api-endpoint" \/
               params_truthy (custom_params default_config) = false)
    by (right; reflexivity).
  split; [exact Hm |]. split.
  - destruct (proj2 (proj2 (proj2 (C6_request_execution_never_raises
                                     default_config (tick refusing 1 1 2 3))))
                Hm)
      as (req & _ & _ & Hreq & Hraise & _).
    exact (Hraise (Py.Exn "ConnectionError" "Connection refused") eq_refl).
  - destruct (proj2 (proj2 (proj2 (C6_request_execution_never_raises
                                     default_config (tick (answering 200) 1 1 2 3))))
                Hm)
      as (req & _ & _ & Hreq & _ & Hok).
    exact (Hok {| resp_status_code := 200;
                  resp_content := [Byte.x6f; Byte.x6b] |} eq_refl).
Defined.

Definition empty_state : Shared := {| all_responses := []; log := [] |}.





Lemma C10_three_failures :
  exists run,
    run_test (config_with 1 60 0 "web-site") three_failures = Some run /\
    Forall (fun r => error r <> Py.PyNone -> status_code r = 0 /\ size r = 0)
           (run_responses run) /\
    (forall r, In r (run_responses run) ->
               ~ (is_failed r = true /\ has_error r = true)) /\
    (forall res, run_results run = Py.Ok res -> (error_rate res <= 100)%Q).
Proof.
  destruct (run_test (config_with 1 60 0 "web-site") three_failures) as [run |] eqn:E.
  - exists run. split; [reflexivity |].
    exact (C10_error_rate_at_most_100 _ _ run E).
  - vm_compute in E. discriminate E.
Defined.

End Witnesses.

(** * Further properties of the aggregation *)

Section LatencyOrder.

Import Enhanced.

(** The running minimum of [min(l)]: an element of the list, below all. *)
Lemma fold_min_spec (l : list Q) :
  forall m,
    let r := fold_left (fun m y => if Py.Qltb y m then y else m) l m in
    (r = m \/ In r l) /\ (r <= m)%Q /\ Forall (fun y => (r <= y)%Q) l.
Proof.
  induction l as [| y l IH]; intros m; cbn [fold_left].
  - split; [left; reflexivity |]. split; [apply Qle_refl | constructor].
  - destruct (Py.Qltb y m) eqn:E.
    + destruct (IH y) as (Hin & Hle & Hall). cbv zeta in *.
      split; [right; destruct Hin as [-> | Hin]; [left; reflexivity | right; exact Hin] |].
      split; [eapply Qle_trans; [exact Hle | apply Qlt_le_weak, Qltb_lt, E] |].
      constructor; [exact Hle | exact Hall].
    + destruct (IH m) as (Hin & Hle & Hall). cbv zeta in *.
      split; [destruct Hin as [-> | Hin]; [left; reflexivity | right; right; exact Hin] |].
      split; [exact Hle |].
      constructor; [eapply Qle_trans; [exact Hle | apply Qltb_ge, E] | exact Hall].
Qed.

(** The running maximum of [max(l)]. *)
Lemma fold_max_spec (l : list Q) :
  forall m,
    let r := fold_left (fun m y => if Py.Qltb m y then y else m) l m in
    (r = m \/ In r l) /\ (m <= r)%Q /\ Forall (fun y => (y <= r)%Q) l.
Proof.
  induction l as [| y l IH]; intros m; cbn [fold_left].
  - split; [left; reflexivity |]. split; [apply Qle_refl | constructor].
  - destruct (Py.Qltb m y) eqn:E.
    + destruct (IH y) as (Hin & Hle & Hall). cbv zeta in *.
      split; [right; destruct Hin as [-> | Hin]; [left; reflexivity | right; exact Hin] |].
      split; [eapply Qle_trans; [apply Qlt_le_weak, Qltb_lt, E | exact Hle] |].
      constructor; [exact Hle | exact Hall].
    + destruct (IH m) as (Hin & Hle & Hall). cbv zeta in *.
      split; [destruct Hin as [-> | Hin]; [left; reflexivity | right; right; exact Hin] |].
      split; [exact Hle |].
      constructor; [eapply Qle_trans; [apply Qltb_ge, E | exact Hle] | exact Hall].
Qed.

Lemma min_list_spec (l : list Q) (m : Q) :
  Py.min_list l = Py.Ok m -> In m l /\ Forall (fun y => (m <= y)%Q) l.
Proof.
  destruct l as [| x l]; [discriminate |]. cbn [Py.min_list]. intros [= <-].
  destruct (fold_min_spec l x) as (Hin & Hle & Hall). cbv zeta in *.
  split; [destruct Hin as [-> | Hin]; [left; reflexivity | right; exact Hin] |].
  constructor; assumption.
Qed.

Lemma max_list_spec (l : list Q) (m : Q) :
  Py.max_list l = Py.Ok m -> In m l /\ Forall (fun y => (y <= m)%Q) l.
Proof.
  destruct l as [| x l]; [discriminate |]. cbn [Py.max_list]. intros [= <-].
  destruct (fold_max_spec l x) as (Hin & Hle & Hall). cbv zeta in *.
  split; [destruct Hin as [-> | Hin]; [left; reflexivity | right; exact Hin] |].
  constructor; assumption.
Qed.

(** In a sorted list a later index holds a larger element. *)
Lemma sorted_nth_le (l : list Q) :
  StronglySorted Qle l ->
  forall i j d, (i <= j)%nat -> (j < length l)%nat -> (nth i l d <= nth j l d)%Q.
Proof.
  induction 1 as [| x l Hs IH Hall]; intros i j d Hij Hj; [cbn in Hj; lia |].
  destruct i as [| i], j as [| j]; cbn [nth]; cbn [length] in Hj.
  - apply Qle_refl.
  - rewrite List.Forall_forall in Hall. apply Hall, nth_In. lia.
  - lia.
  - apply IH; lia.
Qed.

(** What the latency block assigns, with the extremes. *)
Lemma latency_stats_extremes (rs : list Response) (total : Z) (start now : Q)
    (lat : Latency) :
  latency_stats rs total start now = Py.Ok lat ->
  positive_times rs <> [] ->
  Py.min_list (FloatSort.sort (positive_times rs)) = Py.Ok (l_min lat) /\
  Py.max_list (FloatSort.sort (positive_times rs)) = Py.Ok (l_max lat).
Proof.
  intros Hlat Hne. unfold latency_stats in Hlat.
  destruct (positive_times rs) as [| q l] eqn:E; [congruence |].
  set (ts := FloatSort.sort (q :: l)) in *.
  assert (Hn : 0 < Py.len ts).
  { subst ts. rewrite sort_len, len_cons. pose proof (len_nonneg l). lia. }
  rewrite truediv_ok in Hlat by (apply inject_Z_nonzero; lia).
  cbn [Py.bind] in Hlat.
  assert (H0 : (0 <? Py.len ts) = true) by (apply Z.ltb_lt; exact Hn).
  rewrite !H0 in Hlat.
  destruct (Py.getitem ts (Py.len ts / 2)) as [med |]; [| discriminate].
  cbn [Py.bind] in Hlat.
  destruct (Py.min_list ts) as [lo |]; [| discriminate].
  destruct (Py.max_list ts) as [hi |]; [| discriminate].
  cbn [Py.bind Py.ret] in Hlat.
  match type of Hlat with
  | Py.bind ?pct _ = _ => destruct pct as [pp |]; [| discriminate]
  end.
  cbn [Py.bind] in Hlat.
  match type of Hlat with
  | Py.bind ?rps _ = _ => destruct rps as [v |]; [| discriminate]
  end.
  cbn [Py.bind Py.ret] in Hlat. injection Hlat as <-. split; reflexivity.
Qed.

Lemma aggregate_latency (config : TestConfig) (start now : Q)
    (rs : list Response) (res : TestResults) :
  aggregate config start rs now = Py.Ok res ->
  rs <> [] ->
  exists lat,
    latency_stats rs (Py.len rs) start now = Py.Ok lat /\
    avg_response_time res = l_avg lat /\
    median_response_time res = l_median lat /\
    min_response_time res = l_min lat /\
    max_response_time res = l_max lat /\
    p95_response_time res = l_p95 lat /\
    p99_response_time res = l_p99 lat /\
    requests_per_second res = l_rps lat.
Proof.
  intros Hres Hne.
  destruct (latency_stats_spec rs (Py.len rs) start now) as (lat & Hlat & _).
  rewrite (aggregate_nonempty config start now rs lat Hne Hlat) in Hres.
  injection Hres as <-. exists lat. repeat split; assumption || reflexivity.
Qed.

Lemma positive_times_nonempty (rs : list Response) :
  positive_times rs <> [] -> rs <> [].
Proof. intros H ->. apply H. reflexivity. Qed.

Lemma in_positive_times (rs : list Response) (x : Q) :
  In x (positive_times rs) <-> exists r, In r rs /\ response_time r = x /\ (0 < x)%Q.
Proof.
  unfold positive_times. rewrite in_map_iff. split.
  - intros (r & <- & Hr). apply List.filter_In in Hr. destruct Hr as [Hin Hpos].
    exists r. split; [exact Hin |]. split; [reflexivity | apply Qltb_lt, Hpos].
  - intros (r & Hin & <- & Hpos). exists r. split; [reflexivity |].
    apply List.filter_In. split; [exact Hin | apply Qltb_lt, Hpos].
Qed.

Lemma in_sorted_times (rs : list Response) (x : Q) :
  In x (FloatSort.sort (positive_times rs)) <-> In x (positive_times rs).
Proof.
  split; apply Permutation.Permutation_in;
    [apply Permutation_sym |]; apply FloatSort.Permuted_sort.
Qed.

(** X1. Whenever some record has a positive response time, the order
    statistics that are reported are positive and ordered:
    0 < minimum <= median <= maximum; with at least 20 such records also
    median <= 95th percentile <= 99th percentile <= maximum.  (Nothing is
    said of the average, which is the one statistic computed by arithmetic
    on the response times.) *)
Theorem X1_latency_statistics_are_ordered (config : TestConfig) (start now : Q)
    (rs : list Response) (res : TestResults) :
  aggregate config start rs now = Py.Ok res ->
  positive_times rs <> [] ->
  (0 < min_response_time res)%Q /\
  (min_response_time res <= median_response_time res)%Q /\
  (median_response_time res <= max_response_time res)%Q /\
  (20 <= Py.len (positive_times rs) ->
   (median_response_time res <= p95_response_time res)%Q /\
   (p95_response_time res <= p99_response_time res)%Q /\
   (p99_response_time res <= max_response_time res)%Q).
Proof.
  intros Hres Hne.
  destruct (aggregate_latency config start now rs res Hres
              (positive_times_nonempty rs Hne))
    as (lat & Hlat & _ & -> & -> & -> & -> & -> & _).
  destruct (latency_stats_extremes rs _ start now lat Hlat Hne) as [Hmin Hmax].
  destruct (latency_stats_spec rs (Py.len rs) start now)
    as (lat' & Hlat' & Hmed & H95 & H99 & _ & _).
  rewrite Hlat in Hlat'. injection Hlat' as <-.
  set (ts := FloatSort.sort (positive_times rs)) in *.
  set (n := Py.len ts) in *.
  assert (Hn : 0 < n).
  { subst n ts. rewrite sort_len. destruct (positive_times rs); [congruence |].
    rewrite len_cons. pose proof (len_nonneg l). lia. }
  assert (Hlen : Z.of_nat (length ts) = n) by reflexivity.
  apply min_list_spec in Hmin. destruct Hmin as [Hminin Hmin].
  apply max_list_spec in Hmax. destruct Hmax as [_ Hmax].
  rewrite List.Forall_forall in Hmin, Hmax.
  pose proof (sort_sorted (positive_times rs)) as Hsorted. fold ts in Hsorted.
  assert (H0 : (0 <? n) = true) by (apply Z.ltb_lt; exact Hn).
  rewrite H0 in Hmed.
  assert (Hidx : forall k, 0 <= k < n -> In (nth (Z.to_nat k) ts 0%Q) ts).
  { intros k Hk. apply nth_In. lia. }
  assert (Hhalf : 0 <= n / 2 < n).
  { split; [apply Z.div_pos; lia | apply Z.div_lt_upper_bound; lia]. }
  split.
  { apply in_sorted_times, in_positive_times in Hminin.
    destruct Hminin as (r & _ & _ & Hpos). exact Hpos. }
  split; [rewrite Hmed; apply Hmin, Hidx, Hhalf |].
  split; [rewrite Hmed; apply Hmax, Hidx, Hhalf |].
  intros H20.
  assert (E20 : (20 <=? n) = true).
  { apply Z.leb_le. subst n ts. rewrite sort_len. exact H20. }
  rewrite E20 in H95, H99.
  destruct (pct_index_bounds 95 n ltac:(lia) Hn) as [H95a H95b].
  destruct (pct_index_bounds 99 n ltac:(lia) Hn) as [H99a H99b].
  assert (Hq1 : n / 2 <= 95 * n / 100).
  { apply Z.div_le_lower_bound; [lia |].
    pose proof (Z.mul_div_le n 2 ltac:(lia)). nia. }
  assert (Hq2 : 95 * n / 100 <= 99 * n / 100) by (apply Z.div_le_mono; lia).
  rewrite Hmed, H95, H99.
  split; [apply sorted_nth_le; [exact Hsorted | lia | lia] |].
  split; [apply sorted_nth_le; [exact Hsorted | lia | lia] |].
  apply Hmax, Hidx. lia.
Qed.

(** X2. The minimum and the maximum that are reported are response times of
    records of the collection, and every positive response time of the
    collection lies between them. *)
Theorem X2_extremes_are_attained_and_bound (config : TestConfig) (start now : Q)
    (rs : list Response) (res : TestResults) :
  aggregate config start rs now = Py.Ok res ->
  positive_times rs <> [] ->
  (exists r, In r rs /\ response_time r = min_response_time res) /\
  (exists r, In r rs /\ response_time r = max_response_time res) /\
  (forall r, In r rs -> (0 < response_time r)%Q ->
     (min_response_time res <= response_time r)%Q /\
     (response_time r <= max_response_time res)%Q).
Proof.
  intros Hres Hne.
  destruct (aggregate_latency config start now rs res Hres
              (positive_times_nonempty rs Hne))
    as (lat & Hlat & _ & _ & -> & -> & _).
  destruct (latency_stats_extremes rs _ start now lat Hlat Hne) as [Hmin Hmax].
  apply min_list_spec in Hmin. destruct Hmin as [Hmin_in Hmin].
  apply max_list_spec in Hmax. destruct Hmax as [Hmax_in Hmax].
  rewrite List.Forall_forall in Hmin, Hmax.
  split; [| split].
  - apply in_sorted_times, in_positive_times in Hmin_in.
    destruct Hmin_in as (r & Hin & Hr & _). exists r. split; assumption.
  - apply in_sorted_times, in_positive_times in Hmax_in.
    destruct Hmax_in as (r & Hin & Hr & _). exists r. split; assumption.
  - intros r Hin Hpos.
    assert (Hts : In (response_time r) (FloatSort.sort (positive_times rs))).
    { apply in_sorted_times, in_positive_times. exists r. auto. }
    split; [apply Hmin | apply Hmax]; exact Hts.
Qed.

End LatencyOrder.

Section ErrorMapping.

Import Enhanced.

Lemma count_error_lookup_exact (m : gmap string Z) (r : Response) (l : string) :
  count_error m r !! l
  = if has_label l r then Some (default 0 (m !! l) + 1) else m !! l.
Proof.
  unfold count_error, has_label, error_label, Py.hasattr_class.
  destruct (Py.truthy (error r)); [| destruct (400 <=? status_code r)].
  - rewrite lookup_insert. case_decide as Hl.
    + subst l. rewrite bool_decide_eq_true_2 by reflexivity. reflexivity.
    + rewrite bool_decide_eq_false_2 by congruence. reflexivity.
  - rewrite lookup_insert. case_decide as Hl.
    + subst l. rewrite bool_decide_eq_true_2 by reflexivity. reflexivity.
    + rewrite bool_decide_eq_false_2 by congruence. reflexivity.
  - rewrite bool_decide_eq_false_2 by congruence. reflexivity.
Qed.

Lemma fold_count_error_exact (rs : list Response) (l : string) :
  forall m : gmap string Z,
    fold_left count_error rs m !! l
    = if Py.len (List.filter (has_label l) rs) =? 0 then m !! l
      else Some (default 0 (m !! l) + Py.len (List.filter (has_label l) rs)).
Proof.
  induction rs as [| r rs IH]; intros m; [reflexivity |].
  cbn [fold_left List.filter]. rewrite IH, count_error_lookup_exact.
  pose proof (len_nonneg (List.filter (has_label l) rs)) as Hc.
  destruct (has_label l r).
  - rewrite len_cons.
    destruct (Z.eqb_spec (Py.len (List.filter (has_label l) rs) + 1) 0) as [E | _];
      [lia |].
    destruct (Z.eqb_spec (Py.len (List.filter (has_label l) rs)) 0) as [E | _].
    + rewrite E. reflexivity.
    + cbn [default from_option id]. f_equal. lia.
  - reflexivity.
Qed.

(** An entry of the mapping is the number of records with that label, and
    there is no entry for a label no record has. *)
Lemma count_errors_exact (rs : list Response) (l : string) :
  count_errors rs !! l
  = if Py.len (List.filter (has_label l) rs) =? 0 then None
    else Some (Py.len (List.filter (has_label l) rs)).
Proof.
  unfold count_errors. rewrite fold_count_error_exact, lookup_empty. reflexivity.
Qed.

(** [str(n)] begins with a digit or a minus sign. *)
Definition digit_head (s : string) : Prop :=
  match s with
  | String c _ => In c ["0"; "1"; "2"; "3"; "4"; "5"; "6"; "7"; "8"; "9"]%char
  | EmptyString => False
  end.

Lemma pretty_N_char_digit (d : N) (s : string) :
  digit_head (String (pretty_N_char d) s).
Proof.
  unfold pretty_N_char, digit_head.
  repeat case_match; cbn; auto 15.
Qed.

Lemma pretty_N_go_digit_head (x : N) :
  forall s, digit_head s -> digit_head (pretty_N_go x s).
Proof.
  induction (N.lt_wf_0 x) as [x _ IH]; intros s Hs.
  destruct (decide (x = 0)%N) as [-> | Hx].
  - now rewrite pretty_N_go_0.
  - rewrite pretty_N_go_step by lia.
    apply IH; [apply N.div_lt; lia | apply pretty_N_char_digit].
Qed.

Lemma pretty_N_digit_head (x : N) : digit_head (pretty x).
Proof.
  unfold pretty, pretty_N. case_decide as Hx; [cbn; auto |].
  rewrite pretty_N_go_step by lia.
  apply pretty_N_go_digit_head, pretty_N_char_digit.
Qed.

Lemma str_int_not_class_name (n : Z) (v : Py.pyval) :
  Py.str_int n <> Py.class_name v.
Proof.
  unfold Py.str_int. intros H.
  destruct n as [| p | p].
  - change (pretty 0) with "0" in H. destruct v; discriminate H.
  - change (pretty (Z.pos p)) with (pretty (N.pos p)) in H.
    pose proof (pretty_N_digit_head (N.pos p)) as Hd.
    rewrite H in Hd. destruct v; cbn in Hd; intuition discriminate.
  - change (pretty (Z.neg p)) with (String "-" (pretty (N.pos p))) in H.
    destruct v; discriminate H.
Qed.

Lemma has_status_label (c : Z) (r : Response) :
  has_label (Py.str_int c) r
  = negb (Py.truthy (error r)) && (400 <=? status_code r) && (status_code r =? c).
Proof.
  unfold has_label, error_label.
  destruct (Py.truthy (error r)); cbn [negb andb].
  - apply bool_decide_eq_false_2. intros [= H].
    symmetry in H. exact (str_int_not_class_name _ _ H).
  - destruct (400 <=? status_code r); cbn [andb].
    + destruct (Z.eqb_spec (status_code r) c) as [-> | Hne].
      * apply bool_decide_eq_true_2. reflexivity.
      * apply bool_decide_eq_false_2. intros [= H].
        apply Hne. unfold Py.str_int in H. exact (pretty_Z_inj _ _ H).
    + apply bool_decide_eq_false_2. discriminate.
Qed.

(** X4. In the results of a non-empty collection the error mapping has, for
    each label, an entry exactly when some record falls under that label, and
    the entry is the number of those records.  In particular the entry under
    [str(c)] counts the records whose status code is [c >= 400] and that carry
    no error text, whatever the other records are. *)
Theorem X4_error_mapping_counts_by_label (config : TestConfig) (start now : Q)
    (rs : list Response) (res : TestResults) :
  aggregate config start rs now = Py.Ok res ->
  rs <> [] ->
  exists m : gmap string Z,
    errors res = Some m /\
    (forall l,
       m !! l = if Py.len (List.filter (has_label l) rs) =? 0 then None
                else Some (Py.len (List.filter (has_label l) rs))) /\
    (forall c,
       default 0 (m !! Py.str_int c)
       = Py.len (List.filter
                   (fun r => negb (Py.truthy (error r)) && (400 <=? status_code r)
                             && (status_code r =? c)) rs)).
Proof.
  intros Hres Hne.
  destruct (latency_stats_spec rs (Py.len rs) start now) as (lat & Hlat & _).
  rewrite (aggregate_nonempty config start now rs lat Hne Hlat) in Hres.
  injection Hres as <-. exists (count_errors rs). cbn [errors].
  split; [reflexivity |]. split; [intros l; apply count_errors_exact |].
  intros c. rewrite count_errors_lookup.
  f_equal. apply List.filter_ext. intros r. apply has_status_label.
Qed.

End ErrorMapping.

Section ArrivalOrder.

Import Enhanced.

Lemma filter_length_perm {A} (f : A -> bool) (l l' : list A) :
  Permutation l l' -> Py.len (List.filter f l) = Py.len (List.filter f l').
Proof.
  induction 1 as [| x l l' _ IH | x y l | l l' l'' _ IH1 _ IH2].
  - reflexivity.
  - cbn [List.filter]. destruct (f x); rewrite ?len_cons; lia.
  - cbn [List.filter]. destruct (f x), (f y); rewrite ?len_cons; lia.
  - lia.
Qed.

Lemma filter_perm {A} (f : A -> bool) (l l' : list A) :
  Permutation l l' -> Permutation (List.filter f l) (List.filter f l').
Proof.
  induction 1 as [| x l l' _ IH | x y l | l l' l'' _ IH1 _ IH2].
  - constructor.
  - cbn [List.filter]. destruct (f x); [constructor |]; exact IH.
  - cbn [List.filter]. destruct (f x), (f y); try reflexivity. constructor.
  - etransitivity; eassumption.
Qed.

Lemma positive_times_perm (rs rs' : list Response) :
  Permutation rs rs' -> Permutation (positive_times rs) (positive_times rs').
Proof. intros H. unfold positive_times. apply Permutation_map, filter_perm, H. Qed.

Lemma sum_int_perm (l l' : list Z) :
  Permutation l l' -> Py.sum_int l = Py.sum_int l'.
Proof.
  unfold Py.sum_int. generalize 0.
  intros acc H. revert acc.
  induction H as [| x l l' _ IH | x y l | l l' l'' _ IH1 _ IH2]; intros acc;
    cbn [fold_left].
  - reflexivity.
  - apply IH.
  - f_equal. lia.
  - now rewrite IH1.
Qed.

Lemma fold_plus_proper (l : list Q) :
  forall a a', (a == a')%Q -> (fold_left Qplus l a == fold_left Qplus l a')%Q.
Proof.
  induction l as [| x l IH]; intros a a' H; cbn [fold_left]; [exact H |].
  apply IH. now rewrite H.
Qed.

Lemma sum_float_perm (l l' : list Q) :
  Permutation l l' -> (Py.sum_float l == Py.sum_float l')%Q.
Proof.
  unfold Py.sum_float. generalize 0%Q.
  intros acc H. revert acc.
  induction H as [| x l l' _ IH | x y l | l l' l'' _ IH1 _ IH2]; intros acc;
    cbn [fold_left].
  - reflexivity.
  - apply IH.
  - apply fold_plus_proper. ring.
  - now rewrite IH1.
Qed.

(** In a sorted list, at least [i + 1] elements are at most the one at
    index [i], and at most [i] elements are at most a smaller value. *)
Lemma sorted_count_le (l : list Q) :
  StronglySorted Qle l ->
  forall i, (i < length l)%nat ->
    Z.of_nat i + 1 <= Py.len (List.filter (fun y => Py.Qleb y (nth i l 0%Q)) l).
Proof.
  induction 1 as [| h t Hs IH Hall]; intros i Hi; [cbn in Hi; lia |].
  cbn [length] in Hi. destruct i as [| k].
  - cbn [nth List.filter].
    rewrite (proj2 (Qleb_le h h) (Qle_refl h)), len_cons.
    pose proof (len_nonneg (List.filter (fun y => Py.Qleb y h) t)). lia.
  - cbn [nth List.filter].
    assert (Hh : (h <= nth k t 0)%Q).
    { rewrite List.Forall_forall in Hall. apply Hall, nth_In. lia. }
    rewrite (proj2 (Qleb_le _ _) Hh), len_cons.
    specialize (IH k ltac:(lia)). lia.
Qed.

Lemma sorted_count_below (l : list Q) :
  StronglySorted Qle l ->
  forall i x, (i < length l)%nat -> (x < nth i l 0)%Q ->
    Py.len (List.filter (fun y => Py.Qleb y x) l) <= Z.of_nat i.
Proof.
  induction 1 as [| h t Hs IH Hall]; intros i x Hi Hx; [cbn in Hi; lia |].
  cbn [length] in Hi. destruct i as [| k].
  - cbn [nth] in Hx.
    assert (Hnone : Forall (fun y => Py.Qleb y x = false) (h :: t)).
    { constructor.
      - apply Qleb_gt, Hx.
      - eapply List.Forall_impl; [| exact Hall].
        intros y Hy. apply Qleb_gt. eapply Qlt_le_trans; eassumption. }
    rewrite (filter_none _ _ Hnone). reflexivity.
  - cbn [nth] in Hx. cbn [List.filter].
    specialize (IH k x ltac:(lia) Hx).
    destruct (Py.Qleb h x); rewrite ?len_cons; lia.
Qed.

(** Two sorted arrangements of the same values agree at every index. *)
Lemma sorted_perm_nth (l l' : list Q) (i : nat) :
  StronglySorted Qle l -> StronglySorted Qle l' -> Permutation l l' ->
  (i < length l)%nat -> (nth i l 0 == nth i l' 0)%Q.
Proof.
  intros Hs Hs' Hp Hi.
  assert (Hi' : (i < length l')%nat) by (rewrite <- (Permutation_length Hp); exact Hi).
  assert (Hhalf : forall a b, StronglySorted Qle a -> StronglySorted Qle b ->
            Permutation a b -> (i < length a)%nat -> (i < length b)%nat ->
            (nth i a 0 <= nth i b 0)%Q).
  { intros a b Ha Hb Hab Hia Hib.
    destruct (Qlt_le_dec (nth i b 0%Q) (nth i a 0%Q)) as [Hlt | Hle]; [| exact Hle].
    pose proof (sorted_count_le b Hb i Hib) as H1.
    pose proof (sorted_count_below a Ha i _ Hia Hlt) as H2.
    rewrite (filter_length_perm _ a b Hab) in H2. lia. }
  apply Qle_antisym; apply Hhalf; try assumption. apply Permutation_sym, Hp.
Qed.

Lemma count_errors_perm (rs rs' : list Response) :
  Permutation rs rs' -> count_errors rs = count_errors rs'.
Proof.
  intros Hp. apply map_eq. intros l.
  rewrite !count_errors_exact, (filter_length_perm (has_label l) rs rs' Hp).
  reflexivity.
Qed.

Lemma sorted_times_perm (rs rs' : list Response) :
  Permutation rs rs' ->
  Permutation (FloatSort.sort (positive_times rs))
              (FloatSort.sort (positive_times rs')).
Proof.
  intros Hp.
  etransitivity; [apply Permutation_sym, FloatSort.Permuted_sort |].
  etransitivity; [apply positive_times_perm, Hp | apply FloatSort.Permuted_sort].
Qed.

Lemma latency_stats_untimed (rs : list Response) (total : Z) (start now : Q)
    (lat : Latency) :
  latency_stats rs total start now = Py.Ok lat ->
  positive_times rs = [] ->
  lat = {| l_avg := 0; l_median := 0; l_min := 0; l_max := 0;
           l_p95 := 0; l_p99 := 0; l_rps := 0 |}.
Proof.
  intros Hlat E. unfold latency_stats in Hlat. rewrite E in Hlat.
  now injection Hlat as <-.
Qed.

(** X3. The results do not depend on the order in which the records reached
    the shared collection: for two arrangements of the same records the
    counts, the error mapping, the error rate, the throughput and the data
    volume are identical, and the average, median, minimum, maximum and the
    two percentiles are equal as numbers. *)
Theorem X3_results_independent_of_arrival_order (config : TestConfig)
    (start now : Q) (rs rs' : list Response) (res : TestResults) :
  Permutation rs rs' ->
  aggregate config start rs now = Py.Ok res ->
  exists res',
    aggregate config start rs' now = Py.Ok res' /\
    total_requests res' = total_requests res /\
    successful_requests res' = successful_requests res /\
    failed_requests res' = failed_requests res /\
    errors res' = errors res /\
    error_rate res' = error_rate res /\
    requests_per_second res' = requests_per_second res /\
    data_sent_mb res' = data_sent_mb res /\
    data_received_mb res' = data_received_mb res /\
    results_duration res' = results_duration res /\
    (avg_response_time res' == avg_response_time res)%Q /\
    (median_response_time res' == median_response_time res)%Q /\
    (min_response_time res' == min_response_time res)%Q /\
    (max_response_time res' == max_response_time res)%Q /\
    (p95_response_time res' == p95_response_time res)%Q /\
    (p99_response_time res' == p99_response_time res)%Q.
Proof.
  intros Hp Hres.
  assert (Hcase : rs = [] \/ rs <> [])
    by (destruct rs; [left; reflexivity | right; discriminate]).
  destruct Hcase as [-> | Hne].
  { apply Permutation_nil in Hp. subst rs'. exists res.
    split; [exact Hres |]. repeat split; reflexivity. }
  assert (Hne' : rs' <> []).
  { intros ->. apply Permutation_sym, Permutation_nil in Hp. contradiction. }
  assert (Hlen : Py.len rs' = Py.len rs).
  { unfold Py.len. now rewrite (Permutation_length Hp). }
  destruct (latency_stats_spec rs (Py.len rs) start now)
    as (lat & Hlat & Hmed & H95 & H99 & Hrps & Havg).
  destruct (latency_stats_spec rs' (Py.len rs') start now)
    as (lat' & Hlat' & Hmed' & H95' & H99' & Hrps' & Havg').
  rewrite (aggregate_nonempty config start now rs lat Hne Hlat) in Hres.
  injection Hres as <-.
  eexists. split; [apply (aggregate_nonempty config start now rs' lat' Hne' Hlat') |].
  cbn [total_requests successful_requests failed_requests errors error_rate
       requests_per_second data_sent_mb data_received_mb results_duration
       avg_response_time median_response_time min_response_time
       max_response_time p95_response_time p99_response_time].
  pose proof (sorted_times_perm rs rs' Hp) as Hts.
  pose proof (sort_sorted (positive_times rs)) as Hs.
  pose proof (sort_sorted (positive_times rs')) as Hs'.
  set (ts := FloatSort.sort (positive_times rs)) in *.
  set (ts' := FloatSort.sort (positive_times rs')) in *.
  assert (Hn : Py.len ts' = Py.len ts).
  { unfold Py.len. now rewrite (Permutation_length Hts). }
  rewrite Hn in Hmed', H95', H99', Hrps', Havg'. rewrite Hlen in Hrps'.
  assert (Hnth : forall k, 0 <= k < Py.len ts ->
                   (nth (Z.to_nat k) ts' 0 == nth (Z.to_nat k) ts 0)%Q).
  { intros k Hk. symmetry. apply sorted_perm_nth; try assumption.
    unfold Py.len in Hk. lia. }
  split; [exact Hlen |].
  split; [symmetry; apply filter_length_perm, Hp |].
  split; [symmetry; apply filter_length_perm, Hp |].
  split; [f_equal; symmetry; apply count_errors_perm, Hp |].
  split.
  { rewrite Hlen, <- (filter_length_perm is_failed rs rs' Hp),
      <- (filter_length_perm has_error rs rs' Hp). reflexivity. }
  split; [rewrite Hrps, Hrps'; reflexivity |].
  split; [reflexivity |].
  split.
  { rewrite (sum_int_perm (map size rs') (map size rs)); [reflexivity |].
    apply Permutation_map, Permutation_sym, Hp. }
  split; [reflexivity |].
  destruct (Z.ltb_spec 0 (Py.len ts)) as [Hpos | Hzero].
  - assert (Hhalf : 0 <= Py.len ts / 2 < Py.len ts).
    { split; [apply Z.div_pos; lia | apply Z.div_lt_upper_bound; lia]. }
    assert (Hpt : positive_times rs <> []).
    { intros E. subst ts. rewrite E in Hpos. cbv in Hpos. discriminate. }
    assert (Hpt' : positive_times rs' <> []).
    { intros E. subst ts'. rewrite <- Hn, E in Hpos. cbv in Hpos. discriminate. }
    destruct (latency_stats_extremes rs _ start now lat Hlat Hpt) as [Hmin Hmax].
    destruct (latency_stats_extremes rs' _ start now lat' Hlat' Hpt') as [Hmin' Hmax'].
    fold ts in Hmin, Hmax. fold ts' in Hmin', Hmax'.
    apply min_list_spec in Hmin, Hmin'. apply max_list_spec in Hmax, Hmax'.
    destruct Hmin as [Hmin_in Hmin], Hmin' as [Hmin_in' Hmin'].
    destruct Hmax as [Hmax_in Hmax], Hmax' as [Hmax_in' Hmax'].
    rewrite List.Forall_forall in Hmin, Hmin', Hmax, Hmax'.
    split.
    { rewrite Havg, Havg'.
      rewrite (sum_float_perm ts' ts (Permutation_sym Hts)). reflexivity. }
    split; [rewrite Hmed, Hmed'; apply Hnth, Hhalf |].
    split.
    { apply Qle_antisym.
      - apply Hmin'. eapply Permutation.Permutation_in; [exact Hts | exact Hmin_in].
      - apply Hmin. eapply Permutation.Permutation_in;
          [apply Permutation_sym, Hts | exact Hmin_in']. }
    split.
    { apply Qle_antisym.
      - apply Hmax. eapply Permutation.Permutation_in;
          [apply Permutation_sym, Hts | exact Hmax_in'].
      - apply Hmax'. eapply Permutation.Permutation_in; [exact Hts | exact Hmax_in]. }
    rewrite H95, H95', H99, H99'.
    destruct (20 <=? Py.len ts).
    + split; apply Hnth, pct_index_bounds; lia.
    + split; reflexivity.
  - assert (Hpt : positive_times rs = []).
    { pose proof (sort_len (positive_times rs)) as Hl. fold ts in Hl.
      destruct (positive_times rs); [reflexivity |].
      rewrite len_cons in Hl. pose proof (len_nonneg l). lia. }
    assert (Hpt' : positive_times rs' = []).
    { pose proof (sort_len (positive_times rs')) as Hl. fold ts' in Hl.
      destruct (positive_times rs'); [reflexivity |].
      rewrite len_cons in Hl. pose proof (len_nonneg l). lia. }
    rewrite (latency_stats_untimed rs _ start now lat Hlat Hpt).
    rewrite (latency_stats_untimed rs' _ start now lat' Hlat' Hpt').
    repeat split; reflexivity.
Qed.

End ArrivalOrder.

(** * Further properties of a run *)

Section RunAccounting.

Import Enhanced.

(** The record that the pass [tk] of user [idx] appends. *)
Definition attempt_record (config : TestConfig) (idx : Z) (tk : Tick) : Response :=
  match request_func config tk with
  | Py.Ok response_data =>
      {| timestamp := t_stamp tk;
         response_time := ((t_end_req tk - t_start_req tk) * 1000)%Q;
         status_code := rd_status_code response_data;
         size := rd_size response_data;
         error := match rd_error response_data with
                  | Some s => Py.PyStr s
                  | None => Py.PyNone
                  end;
         session_idx := idx |}
  | Py.Raise e =>
      {| timestamp := t_stamp tk;
         response_time := 0;
         status_code := 0;
         size := 0;
         error := Py.PyStr (Py.str_exn e);
         session_idx := idx |}
  end.

Lemma attempt_appends (config : TestConfig) (idx : Z) (tk : Tick)
    (ur : list Response) (st : Shared) :
  all_responses (snd (attempt config idx tk ur st))
  = all_responses st ++ [attempt_record config idx tk].
Proof.
  unfold attempt, attempt_record. destruct (request_func config tk); reflexivity.
Qed.

(** Events a user adds: its own attempts and sleeps. *)
Definition event_of_user (idx : Z) (e : Event) : Prop :=
  match e with
  | Attempt i => i = idx
  | UserSleep i _ _ => i = idx
  | _ => False
  end.

Definition count_attempts (events : list Event) : Z :=
  Py.len (List.filter is_attempt events).

Lemma count_attempts_app (l1 l2 : list Event) :
  count_attempts (l1 ++ l2) = count_attempts l1 + count_attempts l2.
Proof.
  unfold count_attempts, Py.len. rewrite List.filter_app, length_app. lia.
Qed.

(** One user: what its loop adds to the records and to the log. *)
Lemma user_loop_adds (config : TestConfig) (start : Q) (idx : Z) (ticks : list Tick) :
  forall ur st ur' st',
    user_loop config start idx ticks ur st = Some (ur', st') ->
    exists used added,
      (length used <= length ticks)%nat /\
      Forall (fun tk => In tk ticks) used /\
      all_responses st' = all_responses st ++ map (attempt_record config idx) used /\
      log st' = log st ++ added /\
      Forall (event_of_user idx) added /\
      count_attempts added = Py.len used.
Proof.
  induction ticks as [| tk rest IH]; intros ur st ur' st' H; [discriminate |].
  cbn [user_loop] in H.
  destruct (active_flag tk && Py.Qltb (t_loop tk) (start + inject_Z (duration config))).
  - pose proof (attempt_appends config idx tk ur st) as Hr.
    pose proof (attempt_log config idx tk ur st) as Hl.
    destruct (attempt config idx tk ur st) as [ur1 st1]. cbn [snd] in Hr, Hl.
    destruct (Py.Qleb (start + inject_Z (duration config) - t_after tk) 0).
    + injection H as <- <-. exists [tk], [Attempt idx].
      split; [cbn; lia |]. split; [repeat constructor |].
      split; [exact Hr |]. split; [exact Hl |].
      split; [repeat constructor | reflexivity].
    + apply IH in H.
      destruct H as (used & added & Hlen & Hin & Hresp & Hlog & Hev & Hcount).
      cbn [append_event all_responses log] in Hresp, Hlog.
      exists (tk :: used).
      eexists (Attempt idx :: UserSleep idx _ _ :: added).
      split; [cbn; lia |].
      split.
      { constructor; [left; reflexivity |].
        eapply List.Forall_impl; [| exact Hin]. intros x Hx. right. exact Hx. }
      split; [rewrite Hresp, Hr, <- app_assoc; reflexivity |].
      split; [rewrite Hlog, Hl, <- !app_assoc; reflexivity |].
      split; [constructor; [reflexivity |]; constructor; [reflexivity | exact Hev] |].
      change (count_attempts (Attempt idx :: UserSleep idx
                (start + inject_Z (duration config) - t_after tk)
                (sleep_time (message_interval config)
                   (start + inject_Z (duration config) - t_after tk)) :: added))
        with (Py.len (Attempt idx :: List.filter is_attempt added)).
      rewrite !len_cons. fold (count_attempts added). lia.
  - injection H as <- <-. exists [], [].
    split; [cbn; lia |]. split; [constructor |].
    split; [now rewrite app_nil_r |]. split; [now rewrite app_nil_r |].
    split; [constructor | reflexivity].
Qed.

(** All users: every record comes from a pass of a submitted user. *)
Lemma run_workers_adds (config : TestConfig) (start : Q) (env : Env)
    (futures : list Z) :
  forall st st',
    run_workers config start env futures st = Some st' ->
    exists records added,
      all_responses st' = all_responses st ++ records /\
      Forall (fun r => exists i tk, In i futures /\ In tk (worker_ticks env i) /\
                                    r = attempt_record config i tk) records /\
      log st' = log st ++ added /\
      Forall (fun e => exists i, In i futures /\ event_of_user i e) added /\
      count_attempts added = Py.len records.
Proof.
  induction futures as [| i futures IH]; intros st st' H.
  - injection H as <-. exists [], [].
    split; [now rewrite app_nil_r |]. split; [constructor |].
    split; [now rewrite app_nil_r |]. split; [constructor | reflexivity].
  - cbn [run_workers] in H. unfold make_requests_for_user in H.
    destruct (user_loop config start i (worker_ticks env i) [] st)
      as [[ur st1] |] eqn:E; [| discriminate].
    apply user_loop_adds in E.
    destruct E as (used & added1 & _ & Hin & Hresp1 & Hlog1 & Hev1 & Hcount1).
    apply IH in H.
    destruct H as (records & added2 & Hresp2 & Hrec & Hlog2 & Hev2 & Hcount2).
    exists (map (attempt_record config i) used ++ records), (added1 ++ added2).
    split; [rewrite Hresp2, Hresp1, <- app_assoc; reflexivity |].
    split.
    { apply Forall_app. split.
      - apply List.Forall_forall. intros r Hr. apply in_map_iff in Hr.
        destruct Hr as (tk & <- & Htk). exists i, tk.
        rewrite List.Forall_forall in Hin.
        split; [left; reflexivity |]. split; [apply Hin, Htk | reflexivity].
      - eapply List.Forall_impl; [| exact Hrec].
        intros r (j & tk & Hj & Htk & ->). exists j, tk.
        split; [right; exact Hj |]. split; [exact Htk | reflexivity]. }
    split; [rewrite Hlog2, Hlog1, <- app_assoc; reflexivity |].
    split.
    { apply Forall_app. split.
      - eapply List.Forall_impl; [| exact Hev1].
        intros e He. exists i. split; [left; reflexivity | exact He].
      - eapply List.Forall_impl; [| exact Hev2].
        intros e (j & Hj & He). exists j. split; [right; exact Hj | exact He]. }
    rewrite count_attempts_app, Hcount1, Hcount2.
    unfold Py.len. rewrite length_app, length_map. lia.
Qed.

(** The users submitted, as the log shows them. *)
Definition submitted (events : list Event) : list Z :=
  flat_map (fun e => match e with Submit i => [i] | _ => [] end) events.

Definition is_sched_sleep (e : Event) : bool :=
  match e with SchedSleep _ => true | _ => false end.

Lemma submitted_app (l1 l2 : list Event) :
  submitted (l1 ++ l2) = submitted l1 ++ submitted l2.
Proof. unfold submitted. apply flat_map_app. Qed.

Lemma submitted_ramp (config : TestConfig) (env : Env) (todo : list Z) :
  submitted (flat_map (ramp_events config env) todo)
  = List.filter (sched_active env) todo.
Proof.
  induction todo as [| i todo IH]; [reflexivity |].
  cbn [flat_map List.filter]. rewrite submitted_app, IH. unfold ramp_events.
  destruct ((0 <? rampup config) && (0 <? i)), (sched_active env i); reflexivity.
Qed.

Lemma user_events_not_scheduler (futures : list Z) (added : list Event) :
  Forall (fun e => exists i, In i futures /\ event_of_user i e) added ->
  submitted added = [] /\ Forall (fun e => is_sched_sleep e = false) added.
Proof.
  induction 1 as [| e added (i & _ & He) _ [IH1 IH2]]; [split; [reflexivity | constructor] |].
  destruct e; cbn in He; try contradiction;
    (split; [exact IH1 | constructor; [reflexivity | exact IH2]]).
Qed.

Lemma ramp_events_no_attempt (config : TestConfig) (env : Env) (todo : list Z) :
  count_attempts (flat_map (ramp_events config env) todo) = 0.
Proof.
  induction todo as [| i todo IH]; [reflexivity |].
  cbn [flat_map]. rewrite count_attempts_app, IH. unfold ramp_events.
  destruct ((0 <? rampup config) && (0 <? i)), (sched_active env i); reflexivity.
Qed.

(** The shape of a run that gets past the construction of the pool. *)
Lemma run_test_shape (config : TestConfig) (env : Env) (run : Run) :
  run_test config env = Some run ->
  0 < users config ->
  exists added,
    run_log run = flat_map (ramp_events config env) (range (users config)) ++ added /\
    Forall (fun e => exists i, In i (List.filter (sched_active env)
                                       (range (users config))) /\
                               event_of_user i e) added /\
    count_attempts added = Py.len (run_responses run) /\
    Forall (fun r => exists i tk,
              In i (List.filter (sched_active env) (range (users config))) /\
              In tk (worker_ticks env i) /\ r = attempt_record config i tk)
           (run_responses run) /\
    run_results run
    = aggregate config (clock_start env) (run_responses run) (clock_end env).
Proof.
  intros Hrun Hu.
  destruct (run_test_cases config env run Hrun) as [[Hle _] | (_ & st & Hw & ->)];
    [lia |].
  destruct (submit_users_spec config env (range (users config)) [] [])
    as (Hfut & _).
  pose proof (submit_users_events config env (range (users config)) [] []) as Hev.
  cbn [app] in Hfut, Hev. rewrite Hfut, Hev in Hw.
  apply run_workers_adds in Hw.
  destruct Hw as (records & added & Hresp & Hrec & Hlog & Hadded & Hcount).
  cbn [all_responses log app] in Hresp, Hlog.
  exists added. cbn [run_log run_responses run_results].
  rewrite Hresp. split; [exact Hlog |]. split; [exact Hadded |].
  split; [exact Hcount |]. split; [exact Hrec | reflexivity].
Qed.

Lemma aggregate_total_requests (config : TestConfig) (start now : Q)
    (rs : list Response) (res : TestResults) :
  aggregate config start rs now = Py.Ok res -> total_requests res = Py.len rs.
Proof.
  intros Hres. destruct rs as [| r rs'].
  - cbn in Hres. injection Hres as <-. reflexivity.
  - destruct (latency_stats_spec (r :: rs') (Py.len (r :: rs')) start now)
      as (lat & Hlat & _).
    rewrite (aggregate_nonempty config start now (r :: rs') lat) in Hres
      by (congruence || exact Hlat).
    injection Hres as <-. reflexivity.
Qed.

(** X5. The total that a run reports is the number of request attempts its
    users made, and every record belongs to a user that was submitted: its
    user index is a valid index below the configured user count. *)
Theorem X5_total_is_the_number_of_attempts (config : TestConfig) (env : Env)
    (run : Run) (res : TestResults) :
  run_test config env = Some run ->
  run_results run = Py.Ok res ->
  total_requests res = count_attempts (run_log run) /\
  Forall (fun r => 0 <= session_idx r < users config /\
                   In (Submit (session_idx r)) (run_log run))
         (run_responses run).
Proof.
  intros Hrun Hres.
  destruct (run_test_cases config env run Hrun) as [[Hle ->] | (Hu & _)];
    [discriminate Hres |].
  destruct (run_test_shape config env run Hrun Hu)
    as (added & Hlog & _ & Hcount & Hrec & Hagg).
  rewrite Hagg in Hres. split.
  - rewrite (aggregate_total_requests _ _ _ _ _ Hres), Hlog, count_attempts_app,
      ramp_events_no_attempt, Hcount. reflexivity.
  - eapply List.Forall_impl; [| exact Hrec].
    intros r (i & tk & Hi & _ & ->).
    apply List.filter_In in Hi. destruct Hi as [Hi Hact].
    assert (Hidx : session_idx (attempt_record config i tk) = i).
    { unfold attempt_record. destruct (request_func config tk); reflexivity. }
    rewrite Hidx. split; [apply in_range, Hi |].
    rewrite Hlog. apply in_or_app. left.
    apply in_flat_map. exists i. split; [exact Hi |].
    unfold ramp_events. rewrite Hact. apply in_or_app. right. left. reflexivity.
Qed.

Lemma rampup_delay_bounds (config : TestConfig) (i : Z) :
  0 < rampup config -> 0 < users config -> 0 < i ->
  (0 < rampup_delay config i)%Q /\ (rampup_delay config i <= 1)%Q.
Proof.
  intros Hr Hu Hi. unfold rampup_delay. split; [| apply min2_le_r].
  assert (Hpos : (0 < inject_Z (rampup config) / inject_Z (users config)
                      * inject_Z i)%Q).
  { apply Qmult_lt_0_compat.
    - apply Qlt_shift_div_l.
      + change 0%Q with (inject_Z 0). rewrite <- Zlt_Qlt. exact Hu.
      + rewrite Qmult_0_l. change 0%Q with (inject_Z 0). rewrite <- Zlt_Qlt. exact Hr.
    - change 0%Q with (inject_Z 0). rewrite <- Zlt_Qlt. exact Hi. }
  unfold Py.min2. destruct (Py.Qltb 1 _); [reflexivity | exact Hpos].
Qed.

(** X7. The scheduler sleeps only to stagger the users of a run with a
    positive ramp-up: each of its sleeps is the delay computed for some user
    other than the first, is positive and lasts at most one second.  A run
    with ramp-up 0 has no scheduler sleep at all. *)
Theorem X7_scheduler_sleeps_are_ramp_up_delays (config : TestConfig) (env : Env)
    (run : Run) (secs : Q) :
  run_test config env = Some run ->
  In (SchedSleep secs) (run_log run) ->
  0 < rampup config /\
  (exists i, 0 < i < users config /\ secs = rampup_delay config i) /\
  (0 < secs)%Q /\ (secs <= 1)%Q.
Proof.
  intros Hrun Hin.
  destruct (run_test_cases config env run Hrun) as [[Hle ->] | (Hu & _)];
    [destruct Hin |].
  destruct (run_test_shape config env run Hrun Hu) as (added & Hlog & Hadded & _).
  rewrite Hlog in Hin. apply in_app_or in Hin. destruct Hin as [Hin | Hin].
  - apply in_flat_map in Hin. destruct Hin as (i & Hi & Hin).
    apply in_range in Hi. unfold ramp_events in Hin.
    apply in_app_or in Hin. destruct Hin as [Hin | Hin].
    + destruct ((0 <? rampup config) && (0 <? i)) eqn:E; [| destruct Hin].
      apply andb_true_iff in E. destruct E as [Hr Hpos].
      apply Z.ltb_lt in Hr, Hpos.
      destruct Hin as [[= <-] | []].
      split; [exact Hr |]. split; [exists i; split; [lia | reflexivity] |].
      apply rampup_delay_bounds; assumption.
    + destruct (sched_active env i); [destruct Hin as [Hin | []] | destruct Hin].
      discriminate Hin.
  - destruct (user_events_not_scheduler _ _ Hadded) as [_ Hnone].
    rewrite List.Forall_forall in Hnone. specialize (Hnone _ Hin). discriminate.
Qed.

(** X8. The users a run submits are exactly the users for which the
    scheduler found the run active, each once and in increasing order of
    their index; no other user is ever submitted. *)
Theorem X8_submitted_users (config : TestConfig) (env : Env) (run : Run) :
  run_test config env = Some run ->
  submitted (run_log run)
  = List.filter (sched_active env) (range (users config)).
Proof.
  intros Hrun.
  destruct (run_test_cases config env run Hrun) as [[Hle ->] | (Hu & _)].
  - rewrite (range_nonpos _ Hle). reflexivity.
  - destruct (run_test_shape config env run Hrun Hu) as (added & Hlog & Hadded & _).
    destruct (user_events_not_scheduler _ _ Hadded) as [Hnone _].
    rewrite Hlog, submitted_app, submitted_ramp, Hnone, app_nil_r. reflexivity.
Qed.

End RunAccounting.

Section FailingTarget.

Import Enhanced.

Lemma call_upper_message (v : Py.pyval) (e : Py.exn) :
  Py.call_upper v = Py.Raise e -> Py.str_exn e <> "".
Proof. destruct v; cbn; intros [= <-]; discriminate. Qed.

Lemma guarded_call_failing (session : Session) (req : Request) :
  (forall req, exists e, session req = Py.Raise e /\ Py.str_exn e <> "") ->
  exists e,
    Py.try_except (let* response := session req in Py.ret (success_data response))
                  (fun e => Py.ret (failure_data e)) = Py.Ok (failure_data e) /\
    Py.str_exn e <> "".
Proof.
  intros H. destruct (H req) as (e & He & Hmsg). exists e. now rewrite He.
Qed.

(** Over a session that raises for every request, each request function
    returns the failure data of an exception with a text. *)
Lemma request_func_failing (config : TestConfig) (tk : Tick) :
  (forall req, exists e, session_now tk req = Py.Raise e /\ Py.str_exn e <> "") ->
  exists e, request_func config tk = Py.Ok (failure_data e) /\ Py.str_exn e <> "".
Proof.
  intros H. unfold request_func.
  destruct (String.eqb (test_type config) "telegram-webhook").
  - destruct (rand_ids tk) as [[r1 r2] r3].
    unfold _make_webhook_request. cbv zeta. apply guarded_call_failing, H.
  - destruct (String.eqb (test_type config) "api-endpoint").
    + unfold _make_api_request.
      destruct (if params_truthy (custom_params config)
                then Py.call_upper
                       (params_get (custom_params config) "method" (Py.PyStr "GET"))
                else Py.ret "GET") as [method | e0] eqn:Em.
      * cbn [Py.bind].
        repeat match goal with |- context [if String.eqb method ?s then _ else _] =>
          destruct (String.eqb method s) end;
        cbv zeta; apply guarded_call_failing, H.
      * exists e0. split; [reflexivity |].
        destruct (params_truthy (custom_params config)); [| discriminate Em].
        eapply call_upper_message, Em.
    + unfold _make_web_request. apply guarded_call_failing, H.
Qed.

Lemma filter_all {A} (f : A -> bool) (l : list A) :
  Forall (fun x => f x = true) l -> List.filter f l = l.
Proof.
  induction 1 as [| x l Hx _ IH]; [reflexivity |].
  cbn [List.filter]. now rewrite Hx, IH.
Qed.

(** X6. When the session of every pass raises with a non-empty text for
    whatever request it is given, a run that collected at least one record
    reports no successful and no failed request and an error rate of 100
    percent. *)
Theorem X6_unreachable_target_gives_error_rate_100 (config : TestConfig)
    (env : Env) (run : Run) (res : TestResults) :
  run_test config env = Some run ->
  run_results run = Py.Ok res ->
  run_responses run <> [] ->
  (forall i tk req, In tk (worker_ticks env i) ->
     exists e, session_now tk req = Py.Raise e /\ Py.str_exn e <> "") ->
  successful_requests res = 0 /\
  failed_requests res = 0 /\
  (error_rate res == 100)%Q.
Proof.
  intros Hrun Hres Hne Hfail.
  destruct (run_test_cases config env run Hrun) as [[Hle ->] | (Hu & _)];
    [discriminate Hres |].
  destruct (run_test_shape config env run Hrun Hu)
    as (added & _ & _ & _ & Hrec & Hagg).
  rewrite Hagg in Hres.
  assert (Hall : Forall (fun r => is_successful r = false /\ is_failed r = false /\
                                  has_error r = true) (run_responses run)).
  { eapply List.Forall_impl; [| exact Hrec].
    intros r (i & tk & _ & Htk & ->).
    destruct (request_func_failing config tk (fun req => Hfail i tk req Htk))
      as (e & He & Hmsg).
    unfold attempt_record. rewrite He.
    unfold is_successful, is_failed, has_error. cbn.
    destruct (String.eqb_spec (Py.str_exn e) ""); [contradiction |].
    repeat split; reflexivity. }
  destruct (latency_stats_spec (run_responses run) (Py.len (run_responses run))
              (clock_start env) (clock_end env)) as (lat & Hlat & _).
  rewrite (aggregate_nonempty config _ _ _ lat Hne Hlat) in Hres.
  injection Hres as <-.
  cbn [successful_requests failed_requests error_rate].
  rewrite (filter_none is_successful), (filter_none is_failed), (filter_all has_error).
  - split; [reflexivity |]. split; [reflexivity |].
    change (Py.len (@nil Response)) with 0. rewrite Z.add_0_l.
    assert (Hpos : ~ (inject_Z (Py.len (run_responses run)) == 0)%Q).
    { apply inject_Z_nonzero. destruct (run_responses run); [congruence |].
      rewrite len_cons. pose proof (len_nonneg l). lia. }
    field. exact Hpos.
  - eapply List.Forall_impl; [| exact Hall]. intros x (H1 & H2 & H3). assumption.
  - eapply List.Forall_impl; [| exact Hall]. intros x (H1 & H2 & H3). assumption.
  - eapply List.Forall_impl; [| exact Hall]. intros x (H1 & H2 & H3). assumption.
Qed.

End FailingTarget.

Section Cancellation.

Import Enhanced.

(** X12. A user returns at the first pass at which it reads the active flag
    as cleared or the clock at or after the deadline, if not before; by then
    it has added at most one record for each earlier pass, and what it would
    have observed afterwards plays no role. *)
Theorem X12_user_stops_when_flag_cleared_or_deadline_passed
    (config : TestConfig) (start : Q) (idx : Z)
    (before : list Tick) (tk : Tick) (after : list Tick) :
  active_flag tk = false \/ (deadline config start <= t_loop tk)%Q ->
  forall ur st,
  exists ur' st',
    user_loop config start idx (before ++ tk :: after) ur st = Some (ur', st') /\
    user_loop config start idx (before ++ [tk]) ur st = Some (ur', st') /\
    Py.len (all_responses st') <= Py.len (all_responses st) + Py.len before.
Proof.
  intros Hstop.
  assert (Hcond : active_flag tk
                  && Py.Qltb (t_loop tk) (start + inject_Z (duration config)) = false).
  { destruct Hstop as [-> | Hd]; [reflexivity |].
    apply Qltb_ge in Hd. unfold deadline in Hd. rewrite Hd. apply andb_false_r. }
  induction before as [| tk0 before IH]; intros ur st.
  - exists ur, st. cbn [app user_loop]. rewrite Hcond.
    split; [reflexivity |]. split; [reflexivity |].
    change (Py.len (@nil Tick)) with 0. lia.
  - cbn [app user_loop].
    destruct (active_flag tk0
              && Py.Qltb (t_loop tk0) (start + inject_Z (duration config))).
    + pose proof (attempt_appends config idx tk0 ur st) as Hr.
      destruct (attempt config idx tk0 ur st) as [ur1 st1]. cbn [snd] in Hr.
      assert (Hlen : Py.len (all_responses st1) = Py.len (all_responses st) + 1).
      { rewrite Hr. unfold Py.len. rewrite length_app. cbn [length]. lia. }
      destruct (Py.Qleb (start + inject_Z (duration config) - t_after tk0) 0).
      * exists ur1, st1. split; [reflexivity |]. split; [reflexivity |].
        rewrite len_cons. pose proof (len_nonneg before). lia.
      * match goal with |- context [user_loop _ _ _ _ ur1 ?s] =>
          destruct (IH ur1 s) as (ur' & st' & H1 & H2 & H3) end.
        exists ur', st'. split; [exact H1 |]. split; [exact H2 |].
        cbn [append_event all_responses] in H3. rewrite len_cons. lia.
    + exists ur, st. split; [reflexivity |]. split; [reflexivity |].
      rewrite len_cons. pose proof (len_nonneg before). lia.
Qed.

End Cancellation.

(** * Further properties of the request functions and of the pacing *)

Section Pacing.

Import Enhanced.

Lemma max2_lub (a b c : Q) : (a <= c)%Q -> (b <= c)%Q -> (Py.max2 a b <= c)%Q.
Proof. intros Ha Hb. unfold Py.max2. destruct (Py.Qltb a b); assumption. Qed.

Lemma inverse_at_most_one (u : Z) : u <> 0 -> (1 / inject_Z u <= 1)%Q.
Proof.
  intros Hu. destruct u as [| p | p]; [congruence | |].
  - unfold Qle, Qdiv, Qmult, Qinv, inject_Z. cbn. lia.
  - unfold Qle, Qdiv, Qmult, Qinv, inject_Z. cbn. lia.
Qed.

(** An [int] that converts to a [float]: [float(n)], and with it any
    arithmetic that mixes [n] with a float, raises [OverflowError] for an
    [n] beyond the range of a double (from about 1.8e308, just below
    [2 ** 1024]). *)
Definition fits_float (n : Z) : Prop := Z.abs n < 2 ^ 1023.

(** X9. The interval [message_interval] that is configured between two
    requests of a user is at least 10 ms and at most 1 s for every user
    count that fits a float, zero and negative ones included.  What a user
    really sleeps after a request, which is computed only while time remains
    before its deadline, is positive and exceeds neither that interval nor
    the remaining time: it is the interval when that much time remains, and
    the remaining time otherwise, so the last pause before the deadline can
    be shorter than 10 ms. *)
Theorem X9_pause_is_the_interval_cut_at_the_deadline (config : TestConfig)
    (remaining : Q) :
  fits_float (users config) ->
  ((1 # 100 <= message_interval config)%Q /\
   (message_interval config <= 1)%Q) /\
  ((0 < remaining)%Q ->
   (0 < sleep_time (message_interval config) remaining)%Q /\
   (sleep_time (message_interval config) remaining <= message_interval config)%Q /\
   (sleep_time (message_interval config) remaining <= remaining)%Q /\
   ((message_interval config <= remaining)%Q ->
    sleep_time (message_interval config) remaining = message_interval config) /\
   ((remaining < message_interval config)%Q ->
    sleep_time (message_interval config) remaining = remaining)).
Proof.
  intros _.
  assert (Hint : (1 # 100 <= message_interval config)%Q /\
                 (message_interval config <= 1)%Q).
  { unfold message_interval.
    destruct (String.eqb (test_type config) "telegram-webhook").
    - split; [apply max2_ge_l |].
      apply max2_lub; [discriminate |].
      apply inverse_at_most_one.
      destruct (Z.eqb_spec (users config) 0); [discriminate | assumption].
    - split; discriminate. }
  split; [exact Hint |].
  intros Hr. destruct Hint as [Hlo _].
  assert (Hpos : (0 < message_interval config)%Q).
  { eapply Qlt_le_trans; [| exact Hlo]. reflexivity. }
  unfold sleep_time. rewrite (max2_pos_r remaining Hr).
  split; [| split; [apply min2_le_l | split; [apply min2_le_r |]]].
  - unfold Py.min2. destruct (Py.Qltb remaining (message_interval config)); assumption.
  - split; intros H; unfold Py.min2.
    + apply Qltb_ge in H. now rewrite H.
    + apply Qltb_lt in H. now rewrite H.
Qed.

(** Text made of ASCII characters only, on which [str.upper()] changes the
    letters a-z and nothing else. *)
Definition ascii_text (s : string) : Prop :=
  Forall (fun c => (nat_of_ascii c < 128)%nat) (list_ascii_of_string s).

(** X10. A request of the api-endpoint test is the plain GET of the web-site
    test, with the same outcome, whenever there are no custom parameters
    ([None] or an empty dictionary) or the method they give (by default
    'GET') is ASCII text that, in upper case, is none of POST, PUT and
    DELETE: a method in lower case is accepted, and an unknown one such as
    PATCH is not refused but sent as GET. *)
Theorem X10_api_request_falls_back_to_get
    (config : TestConfig) (session : Session) :
  params_truthy (custom_params config) = false \/
  (exists s,
     params_get (custom_params config) "method" (Py.PyStr "GET") = Py.PyStr s /\
     ascii_text s /\
     ~ In (Py.upper s) ["POST"; "PUT"; "DELETE"]) ->
  _make_api_request config session = _make_web_request config session.
Proof.
  intros H. unfold _make_api_request, _make_web_request.
  destruct (params_truthy (custom_params config)) eqn:Ht; [| reflexivity].
  destruct H as [H | (s & Hs & _ & Hn)]; [discriminate |].
  rewrite Hs. cbn [Py.call_upper Py.bind Py.ret].
  destruct (String.eqb_spec (Py.upper s) "GET") as [_ | _]; [reflexivity |].
  destruct (String.eqb_spec (Py.upper s) "POST") as [E | _].
  { exfalso. apply Hn. rewrite E. left. reflexivity. }
  destruct (String.eqb_spec (Py.upper s) "PUT") as [E | _].
  { exfalso. apply Hn. rewrite E. right. left. reflexivity. }
  destruct (String.eqb_spec (Py.upper s) "DELETE") as [E | _].
  { exfalso. apply Hn. rewrite E. right. right. left. reflexivity. }
  reflexivity.
Qed.

(** X11. When the 'method' parameter is present and is [None], a [bool], an
    [int], a [list] or a [dict] (values without an [upper] attribute), a
    request of the api-endpoint test fails before the session is used:
    whatever the session would do, the outcome is status code 0, size 0 and
    the text of the attribute error. *)
Theorem X11_method_without_upper_fails_before_the_request
    (config : TestConfig) (session : Session)
    (params : gmap string Py.pyval) (v : Py.pyval) :
  custom_params config = Some params ->
  params !! "method" = Some v ->
  In (Py.class_name v) ["NoneType"; "bool"; "int"; "list"; "dict"] ->
  _make_api_request config session
  = Py.Ok {| rd_status_code := 0; rd_size := 0;
             rd_error := Some ("'" +:+ Py.class_name v
                               +:+ "' object has no attribute 'upper'") |}.
Proof.
  intros Hp Hm Hv. unfold _make_api_request, params_truthy, params_get.
  rewrite Hp.
  assert (Hne : bool_decide (params = ∅) = false).
  { apply bool_decide_eq_false_2. intros ->. rewrite lookup_empty in Hm. discriminate. }
  rewrite Hne, Hm. cbn [negb default from_option id].
  destruct v; try reflexivity. exfalso. cbn in Hv. intuition discriminate.
Qed.

End Pacing.

(** * prepare_test of the two built-in runners *)

Module Scripts.

(** [s.replace(old, new)] for a non-empty [old]: occurrences are replaced
    from left to right and do not overlap; [skip] counts the characters of
    the current occurrence still to be dropped. *)
Fixpoint replace_go (old new : string) (skip : nat) (s : string) : string :=
  match s with
  | EmptyString => EmptyString
  | String c s' =>
      match skip with
      | S k => replace_go old new k s'
      | O =>
          if String.prefix old s
          then new +:+ replace_go old new (String.length old - 1) s'
          else String c (replace_go old new 0 s')
      end
  end.

(** [s.replace("", new)] puts [new] before every character and at the end. *)
Fixpoint interleave (new s : string) : string :=
  match s with
  | EmptyString => new
  | String c s' => new +:+ String c (interleave new s')
  end.

Definition replace (old new s : string) : string :=
  match old with
  | EmptyString => interleave new s
  | _ => replace_go old new 0 s
  end.

(** [EnhancedHttpRunner.prepare_test] and [SimpleHttpRunner.prepare_test]:
    no script is written, the returned name is derived from the URL. *)
Definition prepare_test (config : TestConfig) : string :=
  "config_"
  +:+ replace "/" "_" (replace "http://" "" (replace "https://" "" (target_url config))).

End Scripts.

Section PrepareTest.

Import Scripts.

Lemma chars_app (s1 s2 : string) :
  list_ascii_of_string (s1 +:+ s2)
  = list_ascii_of_string s1 ++ list_ascii_of_string s2.
Proof.
  induction s1 as [| c s1 IH]; [reflexivity |].
  change (list_ascii_of_string (String c s1 +:+ s2))
    with (c :: list_ascii_of_string (s1 +:+ s2)).
  change (list_ascii_of_string (String c s1)) with (c :: list_ascii_of_string s1).
  rewrite IH. reflexivity.
Qed.

Lemma replace_slash_no_slash (s : string) :
  ~ In "/"%char (list_ascii_of_string (replace "/" "_" s)).
Proof.
  change (replace "/" "_" s) with (replace_go "/" "_" 0 s).
  induction s as [| c s IH]; [cbn; tauto |].
  cbn [replace_go String.prefix String.length Nat.sub].
  assert (Hp : String.prefix "" s = true) by (destruct s; reflexivity).
  destruct (ascii_dec "/" c) as [<- | Hc].
  - rewrite Hp.
    change ("_" +:+ replace_go "/" "_" 0 s) with (String "_" (replace_go "/" "_" 0 s)).
    change (list_ascii_of_string (String "_" (replace_go "/" "_" 0 s)))
      with ("_"%char :: list_ascii_of_string (replace_go "/" "_" 0 s)).
    intros H. apply in_inv in H. destruct H as [H | H]; [discriminate H | exact (IH H)].
  - change (list_ascii_of_string (String c (replace_go "/" "_" 0 s)))
      with (c :: list_ascii_of_string (replace_go "/" "_" 0 s)).
    intros H. apply in_inv in H. destruct H as [H | H]; [congruence | exact (IH H)].
Qed.

(** X13. The name that [prepare_test] of the built-in runners returns starts
    with "config_" and contains no slash, whatever the target URL is. *)
Theorem X13_prepared_name_has_no_slash (config : TestConfig) :
  String.prefix "config_" (prepare_test config) = true /\
  ~ In "/"%char (list_ascii_of_string (prepare_test config)).
Proof.
  unfold prepare_test. split.
  { generalize (replace "/" "_"
                  (replace "http://" "" (replace "https://" "" (target_url config)))).
    intros t. destruct t; reflexivity. }
  rewrite chars_app. intros H. apply in_app_or in H. destruct H as [H | H].
  - cbn in H. intuition discriminate.
  - exact (replace_slash_no_slash _ H).
Qed.

End PrepareTest.

(** * Further properties of the simple runner *)

Section SimpleRunner.

Import Simple.

(** A record that [make_request] can return. *)
Definition made_by_request (r : Response) : Prop :=
  exists active config session t1 t2 user,
    make_request active config session t1 t2 user = Some r.

Lemma make_request_record (r : Response) :
  made_by_request r ->
  error r <> None -> status_code r = 0 /\ response_time r = 0%Q /\ size r = 0.
Proof.
  intros (active & config & session & t1 & t2 & user & H) He.
  unfold make_request in H. destruct (negb active); [discriminate |].
  destruct (session _) as [response | e]; injection H as <-; cbn in *.
  - congruence.
  - repeat split; reflexivity.
Qed.

Lemma simple_disjoint_count (rs : list Response) :
  Forall made_by_request rs ->
  Py.len (List.filter is_failed rs) + Py.len (List.filter has_error rs) <= Py.len rs.
Proof.
  induction 1 as [| r rs Hr _ IH]; [reflexivity |].
  cbn [List.filter].
  destruct (is_failed r) eqn:Ef, (has_error r) eqn:Ee; rewrite !len_cons; try lia.
  exfalso. unfold has_error in Ee. unfold is_failed in Ef.
  destruct (make_request_record r Hr) as (Hs & _).
  - destruct (error r); [discriminate | discriminate Ee].
  - rewrite Hs in Ef. discriminate Ef.
Qed.

Lemma simple_aggregate_total (config : TestConfig) (start now : Q)
    (rs : list Response) :
  exists res, aggregate config start rs now = Py.Ok res.
Proof.
  destruct rs as [| r rs'].
  - eexists. reflexivity.
  - destruct (simple_latency_stats_spec (r :: rs') (Py.len (r :: rs')) start now)
      as (lat & Hlat & _).
    eexists. apply simple_aggregate_nonempty; [congruence | exact Hlat].
Qed.

(** X14. [make_request] answers [None] exactly when the run is not active;
    a record it returns with an error has status code 0, response time 0 and
    size 0; and for any collection of such records the simple runner reports
    an error rate of at most 100 percent. *)
Theorem X14_simple_runner_records_and_error_rate :
  (forall active config session t1 t2 user,
     make_request active config session t1 t2 user = None <-> active = false) /\
  (forall r, made_by_request r -> error r <> None ->
             status_code r = 0 /\ response_time r = 0%Q /\ size r = 0) /\
  (forall config start now rs res,
     Forall made_by_request rs ->
     aggregate config start rs now = Py.Ok res ->
     (error_rate res <= 100)%Q).
Proof.
  split; [| split].
  - intros active config session t1 t2 user. unfold make_request.
    destruct active; cbn [negb].
    + destruct (session _); split; discriminate.
    + split; reflexivity.
  - exact make_request_record.
  - intros config start now rs res Hall Hres.
    destruct rs as [| r rs'].
    + cbn in Hres. injection Hres as <-. discriminate.
    + destruct (simple_latency_stats_spec (r :: rs') (Py.len (r :: rs')) start now)
        as (lat & Hlat & _).
      rewrite (simple_aggregate_nonempty config start now (r :: rs') lat) in Hres
        by (congruence || exact Hlat).
      injection Hres as <-. cbn [error_rate].
      apply rate_at_most_100.
      * rewrite len_cons. pose proof (len_nonneg rs'). lia.
      * exact (simple_disjoint_count (r :: rs') Hall).
Qed.

(** X15. The aggregation of the simple runner never raises: the index of
    the median and of the percentiles is in range, [min] and [max] are taken
    of a non-empty list and no divisor is zero, whatever the records are. *)
Theorem X15_simple_aggregation_never_raises (config : TestConfig)
    (start now : Q) (rs : list Response) :
  Py.raises (aggregate config start rs now) = false.
Proof.
  destruct (simple_aggregate_total config start now rs) as [res Hres].
  now rewrite Hres.
Qed.

End SimpleRunner.

(** * frameworks/__init__.py and the other handlers of cli.py *)

Module Frameworks.

(** What [check_framework_availability] finds on the system, in the order
    in which it fills its dictionary. *)
Record Availability : Type := {
  k6 : bool;          (* shutil.which('k6') *)
  locust : bool;      (* import locust *)
  jmeter : bool;      (* shutil.which('jmeter') *)
  artillery : bool    (* shutil.which('artillery') *)
}.

Definition check_framework_availability (found : Availability)
  : list (string * bool) :=
  [ ("k6", k6 found); ("locust", locust found);
    ("jmeter", jmeter found); ("artillery", artillery found) ].

Definition get_available_frameworks (found : Availability) : list string :=
  ["simple"; "http"; "advanced"; "builtin"]
  ++ map fst (List.filter snd (check_framework_availability found)).

End Frameworks.

Module Handlers.

Import Cli.

(** ASCII [str.lower()]. *)
Definition lower_ascii (c : ascii) : ascii :=
  let n := nat_of_ascii c in
  if (65 <=? n)%nat && (n <=? 90)%nat then ascii_of_nat (n + 32) else c.

Fixpoint lower (s : string) : string :=
  match s with
  | EmptyString => EmptyString
  | String c s' => String (lower_ascii c) (lower s')
  end.

Definition is_letter (c : ascii) : bool :=
  let n := nat_of_ascii c in
  ((65 <=? n)%nat && (n <=? 90)%nat) || ((97 <=? n)%nat && (n <=? 122)%nat).

(** ASCII [str.title()]: a letter that follows a letter is lowered, any
    other letter is raised. *)
Fixpoint title_go (after_letter : bool) (s : string) : string :=
  match s with
  | EmptyString => EmptyString
  | String c s' =>
      String (if after_letter then lower_ascii c else Py.upper_ascii c)
             (title_go (is_letter c) s')
  end.

Definition title (s : string) : string := title_go false s.

(** [", ".join(l)] *)
Definition join_comma (l : list string) : string := String.concat ", " l.

Definition set_framework (config : Config) (fw : string) : Config := {|
  framework := Some fw;
  test_type := test_type config;
  target_url := target_url config;
  users := users config;
  duration := duration config;
  rampup := rampup config;
  custom_params := custom_params config
|}.

Definition set_test_type (config : Config) (t : string) : Config := {|
  framework := framework config;
  test_type := t;
  target_url := target_url config;
  users := users config;
  duration := duration config;
  rampup := rampup config;
  custom_params := custom_params config
|}.

Definition set_target_url (config : Config) (url : string) : Config := {|
  framework := framework config;
  test_type := test_type config;
  target_url := url;
  users := users config;
  duration := duration config;
  rampup := rampup config;
  custom_params := custom_params config
|}.


Definition set_duration (config : Config) (n : Z) : Config := {|
  framework := framework config;
  test_type := test_type config;
  target_url := target_url config;
  users := users config;
  duration := n;
  rampup := rampup config;
  custom_params := custom_params config
|}.


(** What a handler shows. *)
Inductive Shown : Type :=
| Echo (lines : list string)
| FrameworkMenu
| TestTypeMenu.

Definition supported_frameworks : list string :=
  ["locust"; "k6"; "artillery"; "jmeter"; "simple"; "http"; "advanced"; "builtin"].

(** [handle_framework_command(args)]; [None] and the empty list both count
    as "no argument". *)
Definition handle_framework_command (config : Config)
    (args : option (list string)) (found : Frameworks.Availability)
  : Config * Shown :=
  match args with
  | None | Some [] => (config, FrameworkMenu)
  | Some (arg :: _) =>
      let framework := lower arg in
      let available_frameworks := Frameworks.get_available_frameworks found in
      if String.eqb framework "list" then
        (config,
         Echo [ "Available frameworks: " +:+ join_comma available_frameworks;
                "All supported frameworks: "
                +:+ join_comma ["locust"; "k6"; "artillery"; "jmeter"; "simple"; "http"] ])
      else if negb (in_list framework supported_frameworks) then
        (config,
         Echo [ "Unknown framework: " +:+ framework +:+ ". Available: "
                +:+ join_comma supported_frameworks ])
      else
        let framework_available :=
          if in_list framework ["simple"; "http"; "advanced"; "builtin"] then true
          else in_list framework available_frameworks in
        if negb framework_available then
          (config,
           Echo [ "⚠️  Framework '" +:+ framework
                  +:+ "' is not installed on this system.";
                  "Available frameworks: " +:+ join_comma available_frameworks;
                  "Please install the framework separately before using it." ])
        else
          (set_framework config framework,
           Echo [ "✓ Framework set to: " +:+ title framework ])
  end.

(** [handle_type_command(args)] *)
Definition handle_type_command (config : Config) (args : option (list string))
  : Config * Shown :=
  match args with
  | None | Some [] => (config, TestTypeMenu)
  | Some (arg :: _) =>
      let test_type := lower arg in
      if String.eqb test_type "list" then
        (config,
         Echo [ "Available test types: web-site, telegram-webhook, api-endpoint, graphql, websocket" ])
      else if in_list test_type
                ["web-site"; "telegram-webhook"; "api-endpoint"; "graphql"; "websocket"]
      then (set_test_type config test_type,
            Echo [ "✓ Test type set to: " +:+ test_type ])
      else
        (config,
         Echo [ "Unknown test type: " +:+ test_type
                +:+ ". Available: web-site, telegram-webhook, api-endpoint, graphql, websocket" ])
  end.

(** [handle_url_command(url)] *)
Definition handle_url_command (config : Config) (url : option string)
  : Config * Shown :=
  match url with
  | Some u =>
      if String.eqb u "" then (config, Echo ["Usage: /url <target-url>"])
      else (set_target_url config u, Echo ["✓ URL set to: " +:+ u])
  | None => (config, Echo ["Usage: /url <target-url>"])
  end.

Section NumericSetters.

(** [int(s)] on a command argument; [None] stands for [ValueError]. *)
Variable int : string -> option Z.




End NumericSetters.

End Handlers.

Section CommandLine.

Import Cli.
Import Handlers.

(** How the handler ends once the runner has answered. *)
Definition outcome_of (answer : option (Py.res TestResults)) : Outcome :=
  match answer with
  | Some (Py.Ok results) => Displayed results
  | Some (Py.Raise e) => RunError ("❌ Error running test: " +:+ Py.str_exn e)
  | None => NoResult
  end.

(** The runner that goes with a framework name. *)
Definition runner_for (fw : string) (runner : Runner) : Prop :=
  (In fw ["simple"; "http"] /\ runner = SimpleHttpRunner) \/
  (In fw ["advanced"; "builtin"] /\ runner = EnhancedHttpRunner) \/
  (fw = "k6" /\ runner = K6Runner).

Lemma in_list_In (s : string) (l : list string) : in_list s l = true <-> In s l.
Proof.
  unfold in_list. rewrite existsb_exists. split.
  - intros (x & Hx & He). apply String.eqb_eq in He. now subst x.
  - intros H. exists s. split; [exact H | apply String.eqb_refl].
Qed.

(** X16. The run handler hands a configuration to a runner only when a
    target URL, a framework and a test type are set, the framework is among
    the available ones and is one of the five names with a runner; it then
    uses the runner of that name, on the converted configuration, and ends
    as that run ends (results, no result, or an error).  In every other
    case, which is when one of these conditions fails, it returns with an
    error message before any runner is created, whatever a run would do. *)
Theorem X16_run_handler_starts_only_implemented_runners
    (config : Config) (available : list string) :
  (exists msg,
     (forall run, handle_run_command config available run = Refused msg) /\
     (target_url config = "" \/ framework config = None \/
      framework config = Some "" \/ test_type config = "" \/
      exists fw, framework config = Some fw /\
                 (~ In fw available \/ forall runner, ~ runner_for fw runner))) \/
  (exists fw runner,
     framework config = Some fw /\ fw <> "" /\
     target_url config <> "" /\ test_type config <> "" /\
     In fw available /\ runner_for fw runner /\
     forall run,
       handle_run_command config available run
       = outcome_of (run runner (to_test_config config))).
Proof.
  unfold handle_run_command.
  destruct (String.eqb_spec (target_url config) "") as [| Hurl];
    [left; eexists; split; [reflexivity | tauto] |].
  destruct (framework config) as [fw |] eqn:Efw;
    [| left; eexists; split; [reflexivity | tauto]].
  destruct (String.eqb_spec fw "") as [-> | Hfw];
    [left; eexists; split; [reflexivity | tauto] |].
  destruct (String.eqb_spec (test_type config) "") as [| Htype];
    [left; eexists; split; [reflexivity | tauto] |].
  destruct (in_list fw available) eqn:Eav; cbn [negb].
  2: { left. eexists. split; [reflexivity |].
       do 4 right. exists fw. split; [reflexivity |]. left.
       intros Hin. apply in_list_In in Hin. congruence. }
  apply in_list_In in Eav.
  destruct (in_list fw ["simple"; "http"]) eqn:E1.
  { right. exists fw, SimpleHttpRunner.
    repeat (split; [assumption || reflexivity |]).
    split; [left; split; [apply in_list_In, E1 | reflexivity] |].
    intros run. unfold outcome_of. reflexivity. }
  destruct (in_list fw ["advanced"; "builtin"]) eqn:E2.
  { right. exists fw, EnhancedHttpRunner.
    repeat (split; [assumption || reflexivity |]).
    split; [right; left; split; [apply in_list_In, E2 | reflexivity] |].
    intros run. unfold outcome_of. reflexivity. }
  destruct (String.eqb_spec fw "k6") as [Ek | Ek].
  { right. exists fw, K6Runner.
    repeat (split; [assumption || reflexivity |]).
    split; [right; right; split; [exact Ek | reflexivity] |].
    intros run. unfold outcome_of. reflexivity. }
  left. eexists. split; [reflexivity |].
  do 4 right. exists fw. split; [reflexivity |]. right.
  intros runner [[Hin _] | [[Hin _] | [Hk _]]].
  - apply in_list_In in Hin. congruence.
  - apply in_list_In in Hin. congruence.
  - contradiction.
Qed.








(** X18. A built-in framework can always be selected and is never refused
    for availability, whatever is installed: [/framework] with one of the
    names simple, http, advanced, builtin stores that name, the name is in
    the list of available frameworks, and the run handler then starts the
    runner of that name as soon as a URL and a test type are set. *)
Theorem X18_builtin_frameworks_always_run
    (found : Frameworks.Availability) (config : Config) (fw : string) :
  In fw ["simple"; "http"; "advanced"; "builtin"] ->
  let selected := fst (handle_framework_command config (Some [fw]) found) in
  selected = set_framework config fw /\
  In fw (Frameworks.get_available_frameworks found) /\
  (target_url config <> "" -> test_type config <> "" ->
   forall run,
     handle_run_command selected (Frameworks.get_available_frameworks found) run
     = outcome_of
         (run (if in_list fw ["simple"; "http"] then SimpleHttpRunner
               else EnhancedHttpRunner)
              (to_test_config selected))).
Proof.
  intros Hfw selected.
  assert (Hsel : selected = set_framework config fw).
  { subst selected. destruct Hfw as [<- | [<- | [<- | [<- | []]]]]; reflexivity. }
  assert (Hav : In fw (Frameworks.get_available_frameworks found)).
  { unfold Frameworks.get_available_frameworks. apply in_or_app. left. exact Hfw. }
  split; [exact Hsel |]. split; [exact Hav |].
  intros Hurl Htype run. rewrite Hsel.
  unfold handle_run_command. cbn [target_url framework test_type set_framework].
  destruct (String.eqb_spec (target_url config) ""); [contradiction |].
  destruct (String.eqb_spec (test_type config) ""); [contradiction |].
  rewrite (proj2 (in_list_In fw _) Hav). cbn [negb].
  destruct Hfw as [<- | [<- | [<- | [<- | []]]]]; reflexivity.
Qed.

(** X20. The test types graphql and websocket can be selected with [/type],
    but the enhanced runner has no request of their own for them: a request
    of such a configuration is the plain GET of the web-site test, paced at
    0.1 s. *)
Theorem X20_graphql_and_websocket_run_as_web_site
    (config : Config) (t : string) (tk : Enhanced.Tick) :
  In t ["graphql"; "websocket"] ->
  let selected := fst (handle_type_command config (Some [t])) in
  test_type selected = t /\
  Enhanced.request_func (to_test_config selected) tk
  = Enhanced._make_web_request (to_test_config selected) (Enhanced.session_now tk) /\
  Enhanced.message_interval (to_test_config selected) = (1 # 10)%Q.
Proof.
  intros Ht selected.
  destruct Ht as [<- | [<- | []]]; repeat split; reflexivity.
Qed.

End CommandLine.

(** * config.py: a configuration as a dictionary *)

Module ConfigFile.

(** A value of the dictionary that [to_dict] builds and [yaml] stores. *)
Inductive value : Type :=
| VNone
| VStr (s : string)
| VInt (z : Z)
| VParams (params : gmap string Py.pyval).

(** The attributes of a [Config] as [from_dict] leaves them: whatever the
    dictionary held. *)
Record Attributes : Type := {
  a_framework : value;
  a_test_type : value;
  a_target_url : value;
  a_users : value;
  a_duration : value;
  a_rampup : value;
  a_custom_params : value
}.

(** The attributes of a well-typed configuration. *)
Definition attributes (config : Cli.Config) : Attributes := {|
  a_framework := match Cli.framework config with
                 | Some fw => VStr fw
                 | None => VNone
                 end;
  a_test_type := VStr (Cli.test_type config);
  a_target_url := VStr (Cli.target_url config);
  a_users := VInt (Cli.users config);
  a_duration := VInt (Cli.duration config);
  a_rampup := VInt (Cli.rampup config);
  a_custom_params := VParams (Cli.custom_params config)
|}.

(** [Config()] *)
Definition initial : Cli.Config := {|
  Cli.framework := None;
  Cli.test_type := "web-site";
  Cli.target_url := "";
  Cli.users := 100;
  Cli.duration := 60;
  Cli.rampup := 10;
  Cli.custom_params := ∅
|}.

(** [Config.to_dict] *)
Definition to_dict (self : Cli.Config) : gmap string value :=
  <["custom_params" := a_custom_params (attributes self)]>
  (<["rampup" := a_rampup (attributes self)]>
  (<["duration" := a_duration (attributes self)]>
  (<["users" := a_users (attributes self)]>
  (<["target_url" := a_target_url (attributes self)]>
  (<["test_type" := a_test_type (attributes self)]>
  (<["framework" := a_framework (attributes self)]> ∅)))))).

(** [Config.from_dict]: every attribute is overwritten. *)
Definition from_dict (data : gmap string value) : Attributes := {|
  a_framework := default VNone (data !! "framework");
  a_test_type := default (VStr "web-site") (data !! "test_type");
  a_target_url := default (VStr "") (data !! "target_url");
  a_users := default (VInt 100) (data !! "users");
  a_duration := default (VInt 60) (data !! "duration");
  a_rampup := default (VInt 10) (data !! "rampup");
  a_custom_params := default (VParams ∅) (data !! "custom_params")
|}.

Definition keys : list string :=
  ["framework"; "test_type"; "target_url"; "users"; "duration"; "rampup";
   "custom_params"].

End ConfigFile.

Section ConfigDictionary.

Import ConfigFile.

(** X19. Reading back the dictionary of a configuration restores every
    attribute; reading an empty dictionary gives the attributes of a fresh
    [Config()]; a key that is present wins over the default even when its
    value is null; and keys that are not attributes are ignored. *)
Theorem X19_config_dictionary_round_trip :
  (forall config, from_dict (to_dict config) = attributes config) /\
  from_dict ∅ = attributes initial /\
  (forall data, a_users (from_dict (<["users" := VNone]> data)) = VNone) /\
  (forall data key v, ~ In key keys ->
     from_dict (<[key := v]> data) = from_dict data).
Proof.
  split; [| split; [| split]].
  - intros config. unfold from_dict, to_dict.
    repeat (rewrite ?lookup_insert_eq;
            rewrite ?(lookup_insert_ne (M := gmap string)) by discriminate).
    reflexivity.
  - reflexivity.
  - intros data. unfold from_dict. cbn [a_users].
    now rewrite lookup_insert_eq.
  - intros data key v Hkey. unfold from_dict.
    rewrite !lookup_insert_ne; [reflexivity | | | | | | |];
      intros ->; apply Hkey; unfold keys; cbn; tauto.
Qed.

End ConfigDictionary.

(** * The records a user returns, and a run that is stopped at once *)

Section ReturnedRecords.

Import Enhanced.

Lemma attempt_returns (config : TestConfig) (idx : Z) (tk : Tick)
    (ur : list Response) (st : Shared) :
  exists r,
    fst (attempt config idx tk ur st) = ur ++ [r] /\
    all_responses (snd (attempt config idx tk ur st)) = all_responses st ++ [r].
Proof.
  unfold attempt.
  destruct (request_func_cases config tk) as [(e & H) | (req & response & _ & _ & H)];
    rewrite H; eexists; split; reflexivity.
Qed.

Lemma user_loop_returns (config : TestConfig) (start : Q) (idx : Z)
    (ticks : list Tick) :
  forall ur st ur' st',
    user_loop config start idx ticks ur st = Some (ur', st') ->
    exists new, ur' = ur ++ new /\ all_responses st' = all_responses st ++ new.
Proof.
  induction ticks as [| tk rest IH]; intros ur st ur' st' H; [discriminate |].
  cbn [user_loop] in H.
  destruct (active_flag tk && Py.Qltb (t_loop tk) (start + inject_Z (duration config))).
  - destruct (attempt_returns config idx tk ur st) as (r & Hur & Hresp).
    destruct (attempt config idx tk ur st) as [ur1 st1]. cbn [fst snd] in Hur, Hresp.
    destruct (Py.Qleb (start + inject_Z (duration config) - t_after tk) 0).
    + injection H as <- <-. exists [r]. split; assumption.
    + apply IH in H. destruct H as (new & Hnew & Hall).
      cbn [append_event all_responses] in Hall.
      exists (r :: new). split.
      * rewrite Hnew, Hur, <- app_assoc. reflexivity.
      * rewrite Hall, Hresp, <- app_assoc. reflexivity.
  - injection H as <- <-. exists []. split; now rewrite app_nil_r.
Qed.

(** X22. The list that a user returns is exactly what it appended to the
    shared collection, in the same order: since a request function never
    raises, no record is ever built by the [except] branch of the loop, which
    would append to the shared collection only. *)
Theorem X22_user_returns_what_it_appended (config : TestConfig) (start : Q)
    (idx : Z) (ticks : list Tick) (st st' : Shared) (returned : list Response) :
  make_requests_for_user config start idx ticks st = Some (returned, st') ->
  all_responses st' = all_responses st ++ returned.
Proof.
  intros H. apply user_loop_returns in H. destruct H as (new & Hnew & Hall).
  cbn [app] in Hnew. now subst returned.
Qed.


End ReturnedRecords.

(** * Concrete instances of the further properties *)

Section MoreWitnesses.

Import Enhanced.
Import Sample.

Lemma X1_twenty_timed_records :
  exists res,
    aggregate default_config 0 (timed 20) 10 = Py.Ok res /\
    positive_times (timed 20) <> [] /\
    20 <= Py.len (positive_times (timed 20)) /\
    (0 < min_response_time res)%Q /\
    (min_response_time res <= median_response_time res)%Q /\
    (median_response_time res <= p95_response_time res)%Q /\
    (p95_response_time res <= p99_response_time res)%Q /\
    (p99_response_time res <= max_response_time res)%Q.
Proof.
  destruct (aggregate default_config 0 (timed 20) 10) as [res | e] eqn:E;
    [| vm_compute in E; discriminate E].
  assert (Hne : positive_times (timed 20) <> []) by (vm_compute; discriminate).
  assert (H20 : 20 <= Py.len (positive_times (timed 20))) by (vm_compute; discriminate).
  destruct (X1_latency_statistics_are_ordered default_config 0 10 (timed 20) res E Hne)
    as (H0 & H1 & _ & Hpct).
  destruct (Hpct H20) as (H2 & H3 & H4).
  exists res. repeat split; assumption.
Defined.

Lemma X2_twenty_timed_records :
  exists res,
    aggregate default_config 0 (timed 20) 10 = Py.Ok res /\
    positive_times (timed 20) <> [] /\
    (exists r, In r (timed 20) /\ response_time r = min_response_time res) /\
    (exists r, In r (timed 20) /\ response_time r = max_response_time res) /\
    Forall (fun r => (0 < response_time r)%Q) (timed 20) /\
    Forall (fun r => (min_response_time res <= response_time r)%Q /\
                     (response_time r <= max_response_time res)%Q) (timed 20).
Proof.
  destruct (aggregate default_config 0 (timed 20) 10) as [res | e] eqn:E;
    [| vm_compute in E; discriminate E].
  assert (Hne : positive_times (timed 20) <> []) by (vm_compute; discriminate).
  assert (Hpos : Forall (fun r => (0 < response_time r)%Q) (timed 20)).
  { vm_compute. repeat (constructor; [reflexivity |]). constructor. }
  destruct (X2_extremes_are_attained_and_bound default_config 0 10 (timed 20) res E Hne)
    as (H1 & H2 & H3).
  exists res. split; [reflexivity |]. split; [exact Hne |].
  split; [exact H1 |]. split; [exact H2 |]. split; [exact Hpos |].
  apply List.Forall_forall. intros r Hr. apply H3; [exact Hr |].
  exact (proj1 (List.Forall_forall _ _) Hpos r Hr).
Defined.

Lemma X3_reversed_records :
  Permutation (timed 5) (rev (timed 5)) /\
  exists res res',
    aggregate default_config 0 (timed 5) 10 = Py.Ok res /\
    aggregate default_config 0 (rev (timed 5)) 10 = Py.Ok res' /\
    errors res' = errors res /\
    (median_response_time res' == median_response_time res)%Q.
Proof.
  assert (Hp : Permutation (timed 5) (rev (timed 5))) by apply Permutation_rev.
  split; [exact Hp |].
  destruct (aggregate default_config 0 (timed 5) 10) as [res | e] eqn:E;
    [| vm_compute in E; discriminate E].
  destruct (X3_results_independent_of_arrival_order
              default_config 0 10 (timed 5) (rev (timed 5)) res Hp E)
    as (res' & Hres' & _ & _ & _ & Herr & _ & _ & _ & _ & _ & _ & Hmed & _).
  exists res, res'. repeat split; assumption.
Defined.

Lemma X4_three_records :
  exists res (m : gmap string Z),
    aggregate default_config 0 three_records 61 = Py.Ok res /\
    three_records <> [] /\
    errors res = Some m /\
    default 0 (m !! Py.str_int 404)
    = Py.len (List.filter
                (fun r => negb (Py.truthy (error r)) && (400 <=? status_code r)
                          && (status_code r =? 404)) three_records).
Proof.
  destruct (aggregate default_config 0 three_records 61) as [res | e] eqn:E;
    [| vm_compute in E; discriminate E].
  assert (Hne : three_records <> []) by (vm_compute; discriminate).
  destruct (X4_error_mapping_counts_by_label default_config 0 61 three_records res E Hne)
    as (m & Hm & _ & Hcode).
  exists res, m. repeat split; [assumption | assumption | apply Hcode].
Defined.

Lemma X5_three_failures :
  exists run res,
    run_test (config_with 1 60 0 "web-site") three_failures = Some run /\
    run_results run = Py.Ok res /\
    total_requests res = count_attempts (run_log run).
Proof.
  destruct (run_test (config_with 1 60 0 "web-site") three_failures)
    as [run |] eqn:E; [| vm_compute in E; discriminate E].
  destruct (run_results run) as [res | e] eqn:Er.
  - exists run, res. split; [reflexivity |]. split; [exact Er |].
    exact (proj1 (X5_total_is_the_number_of_attempts _ _ run res E Er)).
  - vm_compute in E. injection E as <-. vm_compute in Er. discriminate Er.
Defined.

Lemma coarse_clock_always_refuses (i : Z) (tk : Tick) (req : Request) :
  In tk (worker_ticks coarse_clock i) ->
  exists e, session_now tk req = Py.Raise e /\ Py.str_exn e <> "".
Proof.
  intros H. cbn in H. destruct H as [<- | [<- | []]];
    (eexists; split; [reflexivity | discriminate]).
Defined.

Lemma X6_refused_run :
  exists run res,
    run_test (config_with 1 60 0 "web-site") coarse_clock = Some run /\
    run_results run = Py.Ok res /\
    run_responses run <> [] /\
    successful_requests res = 0 /\
    failed_requests res = 0 /\
    (error_rate res == 100)%Q.
Proof.
  destruct (run_test (config_with 1 60 0 "web-site") coarse_clock)
    as [run |] eqn:E; [| vm_compute in E; discriminate E].
  assert (Hne : run_responses run <> []).
  { vm_compute in E. injection E as <-. discriminate. }
  destruct (run_results run) as [res | e] eqn:Er.
  - exists run, res. split; [reflexivity |]. split; [exact Er |].
    split; [exact Hne |].
    exact (X6_unreachable_target_gives_error_rate_100
             _ _ run res E Er Hne coarse_clock_always_refuses).
  - vm_compute in E. injection E as <-. vm_compute in Er. discriminate Er.
Defined.

(** Two users, ramp-up 1 s, both arriving at the deadline. *)
Definition two_late_users : Env :=
  env_of (fun _ => [ tick (answering 200) 60 60 61 61 ]) 61.

Lemma X7_two_users :
  exists run,
    run_test (config_with 2 60 1 "web-site") two_late_users = Some run /\
    In (SchedSleep (rampup_delay (config_with 2 60 1 "web-site") 1)) (run_log run) /\
    (0 < rampup_delay (config_with 2 60 1 "web-site") 1)%Q /\
    (rampup_delay (config_with 2 60 1 "web-site") 1 <= 1)%Q.
Proof.
  destruct (run_test (config_with 2 60 1 "web-site") two_late_users)
    as [run |] eqn:E; [| vm_compute in E; discriminate E].
  assert (Hin : In (SchedSleep (rampup_delay (config_with 2 60 1 "web-site") 1))
                   (run_log run)).
  { vm_compute in E. injection E as <-. right. left. reflexivity. }
  exists run. split; [reflexivity |]. split; [exact Hin |].
  exact (proj2 (proj2 (X7_scheduler_sleeps_are_ramp_up_delays _ _ run _ E Hin))).
Defined.

Lemma X8_two_users :
  exists run,
    run_test (config_with 2 60 1 "web-site") two_late_users = Some run /\
    submitted (run_log run) = [0; 1].
Proof.
  destruct (run_test (config_with 2 60 1 "web-site") two_late_users)
    as [run |] eqn:E; [| vm_compute in E; discriminate E].
  exists run. split; [reflexivity |].
  exact (X8_submitted_users _ _ run E).
Defined.

Lemma X9_webhook_with_two_users :
  fits_float (users (config_with 2 60 0 "telegram-webhook")) /\
  (message_interval (config_with 2 60 0 "telegram-webhook") == 1 # 2)%Q /\
  (0 < 1 # 1000)%Q /\
  sleep_time (message_interval (config_with 2 60 0 "telegram-webhook")) (1 # 1000)
  = (1 # 1000)%Q /\
  sleep_time (message_interval (config_with 2 60 0 "telegram-webhook")) 30
  = message_interval (config_with 2 60 0 "telegram-webhook").
Proof.
  assert (Hf : fits_float (users (config_with 2 60 0 "telegram-webhook")))
    by (vm_compute; reflexivity).
  assert (Hr : (0 < 1 # 1000)%Q) by reflexivity.
  assert (Hr' : (0 < 30)%Q) by reflexivity.
  split; [exact Hf |]. split; [reflexivity |]. split; [exact Hr |]. split.
  - destruct (proj2 (X9_pause_is_the_interval_cut_at_the_deadline
                       (config_with 2 60 0 "telegram-webhook") (1 # 1000) Hf) Hr)
      as (_ & _ & _ & _ & Hcut).
    apply Hcut. reflexivity.
  - destruct (proj2 (X9_pause_is_the_interval_cut_at_the_deadline
                       (config_with 2 60 0 "telegram-webhook") 30 Hf) Hr')
      as (_ & _ & _ & Hfull & _).
    apply Hfull. vm_compute. discriminate.
Defined.

Definition patch_method : TestConfig := {|
  target_url := "http://x";
  users := 1;
  duration := 60;
  rampup := 0;
  test_type := "api-endpoint";
  framework := "advanced";
  custom_params := Some {[ "method" := Py.PyStr "patch" ]}
|}.

Lemma X10_patch_is_sent_as_get :
  params_truthy (custom_params patch_method) = true /\
  ascii_text "patch" /\
  Py.upper "patch" = "PATCH" /\
  _make_api_request patch_method (answering 200)
  = _make_web_request patch_method (answering 200).
Proof.
  assert (Ha : ascii_text "patch").
  { apply List.Forall_forall. intros c Hc. cbn in Hc.
    repeat (destruct Hc as [<- | Hc]; [vm_compute; repeat constructor |]).
    destruct Hc. }
  split; [reflexivity |]. split; [exact Ha |]. split; [reflexivity |].
  apply X10_api_request_falls_back_to_get. right.
  exists "patch". split; [reflexivity |]. split; [exact Ha |].
  cbn. intuition discriminate.
Defined.

Definition numeric_method : TestConfig := {|
  target_url := "http://x";
  users := 1;
  duration := 60;
  rampup := 0;
  test_type := "api-endpoint";
  framework := "advanced";
  custom_params := Some {[ "method" := Py.PyInt 123 ]}
|}.

Lemma X11_numeric_method :
  In (Py.class_name (Py.PyInt 123)) ["NoneType"; "bool"; "int"; "list"; "dict"] /\
  _make_api_request numeric_method (answering 200)
  = Py.Ok {| rd_status_code := 0; rd_size := 0;
             rd_error := Some "'int' object has no attribute 'upper'" |}.
Proof.
  assert (Hc : In (Py.class_name (Py.PyInt 123))
                  ["NoneType"; "bool"; "int"; "list"; "dict"])
    by (right; right; left; reflexivity).
  split; [exact Hc |].
  apply (X11_method_without_upper_fails_before_the_request
           numeric_method (answering 200) {[ "method" := Py.PyInt 123 ]} (Py.PyInt 123)).
  - reflexivity.
  - reflexivity.
  - exact Hc.
Defined.

Lemma X12_stopped_user :
  exists ur' st',
    user_loop (config_with 1 60 0 "web-site") 0 0
      ([tick refusing 1 1 1 2]
       ++ tick refusing 60 60 60 60 :: [tick refusing 61 61 61 61]) [] empty_state
    = Some (ur', st') /\
    Py.len (all_responses st') <= 1.
Proof.
  assert (Hd : (deadline (config_with 1 60 0 "web-site") 0
                <= t_loop (tick refusing 60 60 60 60))%Q)
    by (vm_compute; discriminate).
  destruct (X12_user_stops_when_flag_cleared_or_deadline_passed
              (config_with 1 60 0 "web-site") 0 0
              [tick refusing 1 1 1 2] (tick refusing 60 60 60 60)
              [tick refusing 61 61 61 61]
              (or_intror Hd) [] empty_state)
    as (ur' & st' & H1 & _ & H3).
  exists ur', st'. split; [exact H1 | exact H3].
Defined.

Lemma X14_one_refused_request :
  Forall made_by_request (simple_request refusing 1 2) /\
  Forall (fun r => Simple.error r <> None) (simple_request refusing 1 2) /\
  Forall (fun r => Simple.status_code r = 0 /\ Simple.response_time r = 0%Q /\
                   Simple.size r = 0) (simple_request refusing 1 2) /\
  exists res,
    Simple.aggregate default_config 0 (simple_request refusing 1 2) 10 = Py.Ok res /\
    (error_rate res <= 100)%Q.
Proof.
  assert (Hall : Forall made_by_request (simple_request refusing 1 2)).
  { constructor; [| constructor].
    exists true, default_config, refusing, 1%Q, 2%Q, 0. reflexivity. }
  assert (Herr : Forall (fun r => Simple.error r <> None) (simple_request refusing 1 2)).
  { vm_compute. constructor; [discriminate | constructor]. }
  destruct X14_simple_runner_records_and_error_rate as (_ & Hrec & Hrate).
  split; [exact Hall |]. split; [exact Herr |]. split.
  - apply List.Forall_forall. intros r Hr. apply Hrec.
    + exact (proj1 (List.Forall_forall _ _) Hall r Hr).
    + exact (proj1 (List.Forall_forall _ _) Herr r Hr).
  - destruct (Simple.aggregate default_config 0 (simple_request refusing 1 2) 10)
      as [res | e] eqn:E; [| vm_compute in E; discriminate E].
    exists res. split; [reflexivity |].
    exact (Hrate _ _ _ _ res Hall E).
Defined.

(** A run that is stopped before the first submission. *)
Definition stopped_at_once : Env := {|
  clock_start := 0;
  sched_active := fun _ => false;
  worker_ticks := fun _ => [];
  clock_end := 1
|}.


Definition nothing_installed : Frameworks.Availability := {|
  Frameworks.k6 := false;
  Frameworks.locust := false;
  Frameworks.jmeter := false;
  Frameworks.artillery := false
|}.

Lemma X18_advanced_on_a_bare_system :
  let config := Handlers.set_target_url ConfigFile.initial "http://x" in
  let selected :=
    fst (Handlers.handle_framework_command config (Some ["advanced"])
           nothing_installed) in
  let run := fun (_ : Cli.Runner) (c : TestConfig) =>
               option_map run_results (run_test c stopped_at_once) in
  In "advanced" ["simple"; "http"; "advanced"; "builtin"] /\
  selected = Handlers.set_framework config "advanced" /\
  In "advanced" (Frameworks.get_available_frameworks nothing_installed) /\
  Cli.target_url config <> "" /\ Cli.test_type config <> "" /\
  Cli.handle_run_command selected
    (Frameworks.get_available_frameworks nothing_installed) run
  = outcome_of (run Cli.EnhancedHttpRunner (Cli.to_test_config selected)).
Proof.
  intros config selected run.
  assert (H : In "advanced" ["simple"; "http"; "advanced"; "builtin"])
    by (right; right; left; reflexivity).
  assert (Hu : Cli.target_url config <> "") by discriminate.
  assert (Ht : Cli.test_type config <> "") by discriminate.
  destruct (X18_builtin_frameworks_always_run nothing_installed config
              "advanced" H) as (H1 & H2 & H3).
  split; [exact H |]. split; [exact H1 |]. split; [exact H2 |].
  split; [exact Hu |]. split; [exact Ht |].
  exact (H3 Hu Ht run).
Defined.

Lemma X19_unknown_key :
  ~ In "colour" ConfigFile.keys /\
  ConfigFile.from_dict (<["colour" := ConfigFile.VStr "red"]>
                          (ConfigFile.to_dict ConfigFile.initial))
  = ConfigFile.from_dict (ConfigFile.to_dict ConfigFile.initial).
Proof.
  assert (H : ~ In "colour" ConfigFile.keys).
  { unfold ConfigFile.keys. cbn. intuition discriminate. }
  split; [exact H |].
  exact (proj2 (proj2 (proj2 X19_config_dictionary_round_trip)) _ _ _ H).
Defined.

Lemma X20_graphql :
  In "graphql" ["graphql"; "websocket"] /\
  Cli.test_type (fst (Handlers.handle_type_command ConfigFile.initial (Some ["graphql"])))
  = "graphql".
Proof.
  assert (H : In "graphql" ["graphql"; "websocket"]) by (left; reflexivity).
  split; [exact H |].
  exact (proj1 (X20_graphql_and_websocket_run_as_web_site
                  ConfigFile.initial "graphql" (tick refusing 1 1 1 2) H)).
Defined.


Lemma X22_one_user :
  exists returned st',
    make_requests_for_user (config_with 1 60 0 "web-site") 0 0
      [tick refusing 1 1 1 2; tick (answering 200) 3 3 4 60] empty_state
    = Some (returned, st') /\
    all_responses st' = all_responses empty_state ++ returned.
Proof.
  destruct (make_requests_for_user (config_with 1 60 0 "web-site") 0 0
              [tick refusing 1 1 1 2; tick (answering 200) 3 3 4 60] empty_state)
    as [[returned st'] |] eqn:E; [| vm_compute in E; discriminate E].
  exists returned, st'. split; [reflexivity |].
  exact (X22_user_returns_what_it_appended _ _ _ _ _ _ _ E).
Defined.

End MoreWitnesses.
